(** * MedAssist-AI: the triage pipeline and the slot lock, verified

    A shallow embedding of the safety core of the MedAssist backend:

    - [api/appointments.py]: the in-memory slot lock ([_acquire_lock],
      [_release_lock]);
    - [ai_engine/intent_classifier.py]: the three-layer classifier cascade;
    - [triage/triage_engine.py]: symptom detection, severity scoring, routing;
    - [ai_engine/guardrails.py]: the post-generation safety filter;
    - [triage/emergency_orchestrator.py]: the emergency evaluation, as a
      function of what the storage answers and, in [Recorded], together with
      the calls it makes on the storage;
    - [api/triage.py]: the triage endpoints;
    - [api/appointments.py]: booking, the slot reservation endpoints and the
      search for available slots;
    - [ai_engine/conversation_manager.py]: conversation contexts and the
      session table;
    - [ai_engine/response_generator.py]: the reply to a classified message;
    - [api/chat.py]: the REST chat endpoint and the emergency alert;
    - [utils/rate_limiter.py]: the sliding-window rate limiter.

    Modelling conventions.  A Python [str] is a Rocq [string] of 8-bit
    characters; letters are the ASCII letters, where every table entry,
    keyword and pattern of the sources lives, so [str.lower], [re.IGNORECASE]
    and the class [\w] act on the ASCII range and leave other characters
    alone.  A Python [float] is a primitive binary64 float, so sums, products
    and comparisons are the ones the interpreter computes.  A [datetime] is
    the number of microseconds on the UTC time line, a [timedelta] a
    difference of such numbers.  Code that can raise returns a [result]; the
    environment (clock, text-generation service, JSON decoder, pydantic
    validation, database) enters as arguments.  Log output is not modelled.
    A handler is followed through one request at a time: what other requests
    do to the shared tables while it awaits is outside the model.  String
    literals are the bytes of the source files.

    The embedding comes first, module by module in the order above; the
    properties and their proofs follow. *)

From Stdlib Require Import ZArith List Bool Ascii String Lia.
From Stdlib Require Import Floats Uint63 Sorted.
From stdpp Require Import gmap strings list fin_maps pretty.

Local Open Scope string_scope.
Local Open Scope Z_scope.

Set Warnings "-inexact-float,-register-all".
#[local] Arguments String.append !_ _ / : simpl nomatch.

(* ===================================================================== *)
(** * Slot lock  ([api/appointments.py]) *)
(* ===================================================================== *)

Module SlotLock.

(** The table [_slot_locks : dict[str, datetime]], key → lock expiry, is a
    [gmap string Z]. *)

(** [LOCK_DURATION_SECONDS = 120] *)
Definition LOCK_DURATION_SECONDS : Z := 120.

(** [timedelta(seconds=n)], in microseconds. *)
Definition timedelta_seconds (n : Z) : Z := n * 1000000.

(** [_get_lock_key]: [f"{doctor_id}:{dt.isoformat()}"].  The slot start time
    is passed as its ISO rendering. *)
Definition _get_lock_key (doctor_id dt : string) : string :=
  doctor_id +:+ ":" +:+ dt.

(** [_acquire_lock], with the clock reading [now = datetime.utcnow()] and the
    table threaded through.
<<
    if key in _slot_locks and _slot_locks[key] < now:
        del _slot_locks[key]
    if key in _slot_locks:
        return False
    _slot_locks[key] = now + timedelta(seconds=LOCK_DURATION_SECONDS)
    return True
>> *)
Definition _acquire_lock (doctor_id dt : string) (now : Z)
    (_slot_locks : gmap string Z) : bool * gmap string Z :=
  let key := _get_lock_key doctor_id dt in
  let purged :=
    match _slot_locks !! key with
    | Some expiry => if expiry <? now then delete key _slot_locks else _slot_locks
    | None => _slot_locks
    end in
  match purged !! key with
  | Some _ => (false, purged)
  | None =>
      (true, <[key := now + timedelta_seconds LOCK_DURATION_SECONDS]> purged)
  end.

(** [_release_lock]: [_slot_locks.pop(key, None)]. *)
Definition _release_lock (doctor_id dt : string)
    (_slot_locks : gmap string Z) : gmap string Z :=
  delete (_get_lock_key doctor_id dt) _slot_locks.

(** A call on the lock table, as the booking handlers issue them. *)
Inductive call :=
| Acquire (doctor_id dt : string) (now : Z)
| Release (doctor_id dt : string).

(** One call: the value it returns ([None] for [_release_lock]) and the table
    it leaves. *)
Definition step (c : call) (locks : gmap string Z)
    : option bool * gmap string Z :=
  match c with
  | Acquire d t now =>
      let '(b, locks') := _acquire_lock d t now locks in (Some b, locks')
  | Release d t => (None, _release_lock d t locks)
  end.

(** A sequence of calls, in the order the event loop runs them. *)
Fixpoint run (cs : list call) (locks : gmap string Z)
    : list (option bool) * gmap string Z :=
  match cs with
  | [] => ([], locks)
  | c :: cs' =>
      let '(r, locks1) := step c locks in
      let '(rs, locks2) := run cs' locks1 in
      (r :: rs, locks2)
  end.

(** The calls that leave a lock held on [key] until [expiry] alone: no release
    of the key, and acquires of it only while the expiry has not elapsed. *)
Definition undisturbed (key : string) (expiry : Z) (c : call) : Prop :=
  match c with
  | Acquire d t now => _get_lock_key d t = key → now ≤ expiry
  | Release d t => _get_lock_key d t ≠ key
  end.

(** What a call on the held key must have returned. *)
Definition refused (key : string) (c : call) (r : option bool) : Prop :=
  match c with
  | Acquire d t _ => _get_lock_key d t = key → r = Some false
  | Release _ _ => True
  end.

End SlotLock.

(* ===================================================================== *)
(** * Python strings *)
(* ===================================================================== *)

Module Str.

Definition nl : ascii := "010"%char.
Definition dq : ascii := "034"%char.

(** [c.lower()] on the ASCII range. *)
Definition lower_char (c : ascii) : ascii :=
  let n := nat_of_ascii c in
  if (65 <=? n)%nat && (n <=? 90)%nat then ascii_of_nat (n + 32) else c.

(** [s.lower()] *)
Fixpoint lower (s : string) : string :=
  match s with
  | EmptyString => EmptyString
  | String c s' => String (lower_char c) (lower s')
  end.

(** [s.startswith(p)] *)
Fixpoint startswith (p s : string) : bool :=
  match p, s with
  | EmptyString, _ => true
  | String a p', String b s' => Ascii.eqb a b && startswith p' s'
  | String _ _, EmptyString => false
  end.

(** [sub in s] *)
Fixpoint contains (sub s : string) : bool :=
  startswith sub s ||
  match s with
  | EmptyString => false
  | String _ s' => contains sub s'
  end.

(** [any(w in s for w in ws)] *)
Definition any_in (ws : list string) (s : string) : bool :=
  existsb (fun w => contains w s) ws.

(** [s[:n]] *)
Fixpoint take (n : nat) (s : string) : string :=
  match n, s with
  | S n', String c s' => String c (take n' s')
  | _, _ => EmptyString
  end.

(** [sep.join(parts)] *)
Fixpoint join (sep : string) (parts : list string) : string :=
  match parts with
  | [] => EmptyString
  | [p] => p
  | p :: ps => p +:+ sep +:+ join sep ps
  end.

(** The characters [str.strip()] removes, in the ASCII range. *)
Definition is_space (c : ascii) : bool :=
  let n := nat_of_ascii c in
  ((9 <=? n)%nat && (n <=? 13)%nat) || ((28 <=? n)%nat && (n <=? 32)%nat).

Fixpoint lstrip (s : string) : string :=
  match s with
  | String c s' => if is_space c then lstrip s' else s
  | EmptyString => EmptyString
  end.

Fixpoint rstrip (s : string) : string :=
  match s with
  | EmptyString => EmptyString
  | String c s' =>
      match rstrip s' with
      | EmptyString => if is_space c then EmptyString else String c EmptyString
      | r => String c r
      end
  end.

(** [s.strip()] *)
Definition strip (s : string) : string := rstrip (lstrip s).

(** [s.split(c, 1)[-1]]: what follows the first [c], or [s] without one. *)
Fixpoint after_first (c : ascii) (s : string) : option string :=
  match s with
  | EmptyString => None
  | String a s' => if Ascii.eqb a c then Some s' else after_first c s'
  end.

Definition split1_last (c : ascii) (s : string) : string :=
  match after_first c s with Some r => r | None => s end.

(** [s.rsplit(sep, 1)[0]] for a non-empty [sep]: what precedes the last
    occurrence of [sep], or [s] without one. *)
Fixpoint before_last (sep s : string) : option string :=
  match s with
  | EmptyString => None
  | String a s' =>
      match before_last sep s' with
      | Some p => Some (String a p)
      | None => if startswith sep s then Some EmptyString else None
      end
  end.

Definition rsplit1_first (sep s : string) : string :=
  match before_last sep s with Some p => p | None => s end.

(** [s.endswith(p)] *)
Fixpoint endswith (p s : string) : bool :=
  String.eqb p s ||
  match s with
  | EmptyString => false
  | String _ s' => endswith p s'
  end.

End Str.

(* ===================================================================== *)
(** * Exceptions *)
(* ===================================================================== *)

(** An instance of Python's [Exception], by the name of its class.  Every
    exception the modelled code meets is one: [ValueError] from an enum
    lookup, [json.JSONDecodeError], [AttributeError], pydantic's
    [ValidationError], and whatever a collaborator raises (transport errors,
    timeouts, database errors). *)
Inductive exn := PyException (class_name : string).

Inductive result (A : Type) :=
| Ok (a : A)
| Raise (e : exn).
Arguments Ok {A} a.
Arguments Raise {A} e.

(** Sequencing: an exception raised by [c] skips the rest. *)
#[global] Instance result_ret : MRet result := λ A a, Ok a.
#[global] Instance result_bind : MBind result := λ A B k c,
  match c with
  | Ok a => k a
  | Raise e => Raise e
  end.

(** [try: body  except Exception as e: handler(e)] *)
Definition try_except {A} (body : result A) (handler : exn → result A)
    : result A :=
  match body with
  | Ok a => Ok a
  | Raise e => handler e
  end.

(* ===================================================================== *)
(** * Schemas  ([models/schemas.py]) *)
(* ===================================================================== *)

Module Schemas.

(** [class IntentType(str, Enum)] *)
Inductive IntentType :=
| GENERAL_QUERY | APPOINTMENT_REQUEST | DOCTOR_INFO | SYMPTOM_REPORT
| EMERGENCY | INSURANCE | COMPLAINT | GREETING | FAREWELL.

Definition IntentType_members : list IntentType :=
  [GENERAL_QUERY; APPOINTMENT_REQUEST; DOCTOR_INFO; SYMPTOM_REPORT;
   EMERGENCY; INSURANCE; COMPLAINT; GREETING; FAREWELL].

Definition IntentType_value (i : IntentType) : string :=
  match i with
  | GENERAL_QUERY => "general_query"
  | APPOINTMENT_REQUEST => "appointment_request"
  | DOCTOR_INFO => "doctor_info"
  | SYMPTOM_REPORT => "symptom_report"
  | EMERGENCY => "emergency"
  | INSURANCE => "insurance"
  | COMPLAINT => "complaint"
  | GREETING => "greeting"
  | FAREWELL => "farewell"
  end.

(** [class UrgencyLevel(str, Enum)] *)
Inductive UrgencyLevel := NON_URGENT | URGENT | CRITICAL.

Definition UrgencyLevel_members : list UrgencyLevel :=
  [NON_URGENT; URGENT; CRITICAL].

Definition UrgencyLevel_value (u : UrgencyLevel) : string :=
  match u with
  | NON_URGENT => "non_urgent"
  | URGENT => "urgent"
  | CRITICAL => "critical"
  end.

(** A decoded JSON document, as [json.loads] hands it back: [None], [bool],
    [int], [float], [str], [list], and [dict] in key order. *)
Inductive json :=
| JNull
| JBool (b : bool)
| JInt (z : Z)
| JFloat (f : float)
| JStr (s : string)
| JList (items : list json)
| JDict (items : list (string * json)).

(** [class AIClassification(BaseModel)], with the defaults of its fields:
    [urgency = NON_URGENT], [department = None], [needs_ambulance = False],
    [confidence = 0.0], [entities = None]. *)
Record AIClassification := {
  intent : IntentType;
  urgency : UrgencyLevel;
  department : option string;
  needs_ambulance : bool;
  confidence : float;
  entities : option (list (string * json));
}.

(** [AIClassification(intent=i, confidence=c)], the other fields defaulted. *)
Definition AIClassification_default (i : IntentType) (c : float)
    : AIClassification :=
  {| intent := i; urgency := NON_URGENT; department := None;
     needs_ambulance := false; confidence := c; entities := None |}.

(** [Enum.__call__]: the member with the given value, else [ValueError]. *)
Definition enum_of_value {E} (members : list E) (value : E → string)
    (v : string) : result E :=
  match find (fun m => String.eqb (value m) v) members with
  | Some m => Ok m
  | None => Raise (PyException "ValueError")
  end.

End Schemas.

(* ===================================================================== *)
(** * Classifier cascade  ([ai_engine/intent_classifier.py]) *)
(* ===================================================================== *)

Module Classifier.
Import Schemas Str.

Local Open Scope float_scope.

(** [s] between double quotes. *)
Definition q (s : string) : string := String dq s +:+ String dq "".

(** [CLASSIFICATION_PROMPT], the instruction sent along with every message. *)
Definition CLASSIFICATION_PROMPT : string :=
  "You are an AI assistant for a hospital communication system. Your job is to classify the patient's message into a structured intent.

CLASSIFY the message into one of these intents:
- general_query: General questions about the hospital, departments, services, visiting hours
- appointment_request: Wants to book, reschedule, or cancel an appointment
- doctor_info: Asking about a specific doctor, their schedule, specialization
- symptom_report: Describing symptoms or health concerns
- emergency: Reporting an emergency situation (chest pain, difficulty breathing, severe bleeding, seizures, unconsciousness, stroke symptoms)
- insurance: Questions about insurance, billing, payments, policies
- complaint: Filing a complaint or expressing dissatisfaction
- greeting: Simple hello or greeting
- farewell: Goodbye or end of conversation

URGENCY LEVELS:
- non_urgent: Normal query, no health risk
- urgent: Health concern that should be addressed soon
- critical: Immediate medical attention needed (always for emergency intent)

⚠️ SAFETY RULES:
- If ANY emergency keywords are present (chest pain, can't breathe, bleeding heavily, seizure, unconscious, stroke), ALWAYS classify as emergency with critical urgency
- When in doubt about severity, escalate to higher urgency
- NEVER provide medical diagnosis or prescriptions
- NEVER downplay potential emergencies

Respond ONLY in this JSON format:
{
    " +:+ q "intent" +:+ ": " +:+ q "<intent_type>" +:+ ",
    " +:+ q "urgency" +:+ ": " +:+ q "<urgency_level>" +:+ ",
    " +:+ q "department" +:+ ": " +:+ q "<relevant department or null>" +:+ ",
    " +:+ q "needs_ambulance" +:+ ": <true/false>,
    " +:+ q "confidence" +:+ ": <0.0 to 1.0>,
    " +:+ q "entities" +:+ ": {" +:+ q "key" +:+ ": " +:+ q "value" +:+ "}
}".

(** The collaborators of the cascade.  [llm_chat messages temperature
    max_tokens] is [llm_client.chat]: a reply, [None], or an exception.
    [json_loads] is [json.loads].  The four validators are pydantic's checks
    of a decoded value against the field types [Optional[str]], [bool],
    [float] and [Optional[dict]] of [AIClassification]. *)
Record collaborators := {
  llm_chat : list (string * string) → float → Z → result (option string);
  json_loads : string → result json;
  validate_department : json → result (option string);
  validate_needs_ambulance : json → result bool;
  validate_confidence : json → result float;
  validate_entities : json → result (option (list (string * json)));
}.

(** [emergency_triggers], in the order of the dict literal. *)
Definition emergency_triggers : list (string * string) :=
  [ ("chest pain", "cardiology");
    ("heart attack", "cardiology");
    ("can't breathe", "pulmonology");
    ("cannot breathe", "pulmonology");
    ("difficulty breathing", "pulmonology");
    ("choking", "emergency");
    ("severe bleeding", "emergency");
    ("bleeding heavily", "emergency");
    ("seizure", "neurology");
    ("convulsion", "neurology");
    ("unconscious", "emergency");
    ("not conscious", "emergency");
    ("passed out", "emergency");
    ("stroke", "neurology");
    ("slurred speech", "neurology");
    ("face drooping", "neurology");
    ("severe burn", "emergency");
    ("poisoning", "emergency");
    ("overdose", "emergency");
    ("suicidal", "psychiatry");
    ("suicide", "psychiatry");
    ("anaphylaxis", "emergency");
    ("allergic reaction severe", "emergency") ].

(** The loop of [_check_emergency_rules]: the first table entry whose trigger
    occurs in the lower-cased message. *)
Definition first_trigger (msg_lower : string) : option (string * string) :=
  find (fun '(trigger, _) => contains trigger msg_lower) emergency_triggers.

(** [_check_emergency_rules] *)
Definition _check_emergency_rules (message : string)
    : option AIClassification :=
  let msg_lower := lower message in
  match first_trigger msg_lower with
  | Some (trigger, department) =>
      Some {| intent := EMERGENCY;
              urgency := CRITICAL;
              department := Some department;
              needs_ambulance := true;
              confidence := 1.0;
              entities := Some [("trigger", JStr trigger)] |}
  | None => None
  end.

(** [_fallback_classification] *)
Definition _fallback_classification (message : string) : AIClassification :=
  let msg_lower := lower message in
  if any_in ["hello"; "hi"; "hey"; "good morning"; "good evening"] msg_lower
  then AIClassification_default GREETING 0.9
  else if any_in ["bye"; "goodbye"; "thank"; "thanks"] msg_lower
  then AIClassification_default FAREWELL 0.9
  else if any_in ["appointment"; "book"; "schedule"; "slot"; "reschedule";
                  "cancel appointment"] msg_lower
  then AIClassification_default APPOINTMENT_REQUEST 0.7
  else if any_in ["doctor"; "dr."; "specialist"; "surgeon"] msg_lower
  then AIClassification_default DOCTOR_INFO 0.7
  else if any_in ["insurance"; "bill"; "payment"; "cost"; "charge"; "policy"]
                 msg_lower
  then AIClassification_default INSURANCE 0.7
  else if any_in ["complaint"; "unhappy"; "bad experience"; "rude"] msg_lower
  then AIClassification_default COMPLAINT 0.7
  else if any_in ["pain"; "fever"; "headache"; "cough"; "vomit"; "nausea";
                  "dizzy"; "symptom"; "sick"; "ill"; "hurts"] msg_lower
  then {| intent := SYMPTOM_REPORT; urgency := URGENT; department := None;
          needs_ambulance := false; confidence := 0.6; entities := None |}
  else AIClassification_default GENERAL_QUERY 0.5.

(** [items.get(key)] on the items of a decoded object. *)
Definition lookup_key (items : list (string * json)) (key : string)
    : option json :=
  snd <$> find (fun '(k, _) => String.eqb k key) items.

(** [result.get(key)]: [AttributeError] unless [result] is a dict. *)
Definition dict_get (doc : json) (key : string) : result (option json) :=
  match doc with
  | JDict items => Ok (lookup_key items key)
  | _ => Raise (PyException "AttributeError")
  end.

(** [E(result.get(key, default))] for a [str]-valued enum [E]: only a string
    equal to a member's value names a member. *)
Definition enum_field {E} (members : list E) (value : E → string)
    (default : E) (v : option json) : result E :=
  match v with
  | None => Ok default
  | Some (JStr s) => enum_of_value members value s
  | Some _ => Raise (PyException "ValueError")
  end.

(** A field read with [result.get(key, default)] and validated by pydantic;
    the default is a value of the field's type and passes unchanged. *)
Definition validated_field {T} (validate : json → result T) (default : T)
    (v : option json) : result T :=
  match v with
  | None => Ok default
  | Some j => validate j
  end.

(** The [messages] argument of the call to the text-generation service. *)
Definition request (message : string) : list (string * string) :=
  [("system", CLASSIFICATION_PROMPT); ("user", message)].

(** The reply with its markdown code fence removed:
<<
    clean_text = response_text.strip()
    if clean_text.startswith("```"):
        clean_text = clean_text.split("\n", 1)[-1].rsplit("```", 1)[0]
>> *)
Definition clean_text (response_text : string) : string :=
  let clean_text := strip response_text in
  if startswith "```" clean_text
  then rsplit1_first "```" (split1_last nl clean_text)
  else clean_text.

(** The body of the [try] block of [classify_intent]. *)
Definition llm_classification (env : collaborators) (message : string)
    : result AIClassification :=
  response_text ← llm_chat env (request message) 0.1 200%Z;
  match response_text with
  | None => Ok (_fallback_classification message)
  | Some response_text =>
      doc ← json_loads env (clean_text response_text);
      i ← dict_get doc "intent"
            ≫= enum_field IntentType_members IntentType_value GENERAL_QUERY;
      u ← dict_get doc "urgency"
            ≫= enum_field UrgencyLevel_members UrgencyLevel_value NON_URGENT;
      d_raw ← dict_get doc "department";
      a_raw ← dict_get doc "needs_ambulance";
      c_raw ← dict_get doc "confidence";
      e_raw ← dict_get doc "entities";
      d ← validated_field (validate_department env) None d_raw;
      a ← validated_field (validate_needs_ambulance env) false a_raw;
      c ← validated_field (validate_confidence env) 0.8 c_raw;
      e ← validated_field (validate_entities env) None e_raw;
      Ok {| intent := i; urgency := u; department := d;
            needs_ambulance := a; confidence := c; entities := e |}
  end.

(** [classify_intent] *)
Definition classify_intent (env : collaborators) (message : string)
    : result AIClassification :=
  match _check_emergency_rules message with
  | Some emergency_result => Ok emergency_result
  | None =>
      try_except (llm_classification env message)
        (fun _ => Ok (_fallback_classification message))
  end.

(** ** Specification vocabulary *)

(** The ways the call to the model can fail to yield a classification: the
    service raises or answers nothing, the reply is not JSON, the JSON is not
    an object, the intent or urgency it names is not a member of the enum, or
    a field value does not pass validation. *)
Inductive llm_failure (env : collaborators) (message : string) : Prop :=
| service_raises e :
    llm_chat env (request message) 0.1 200%Z = Raise e →
    llm_failure env message
| service_absent :
    llm_chat env (request message) 0.1 200%Z = Ok None →
    llm_failure env message
| reply_not_json text e :
    llm_chat env (request message) 0.1 200%Z = Ok (Some text) →
    json_loads env (clean_text text) = Raise e →
    llm_failure env message
| reply_not_object text doc :
    llm_chat env (request message) 0.1 200%Z = Ok (Some text) →
    json_loads env (clean_text text) = Ok doc →
    (∀ items, doc ≠ JDict items) →
    llm_failure env message
| intent_outside_enum text items v :
    llm_chat env (request message) 0.1 200%Z = Ok (Some text) →
    json_loads env (clean_text text) = Ok (JDict items) →
    lookup_key items "intent" = Some v →
    (∀ i, v ≠ JStr (IntentType_value i)) →
    llm_failure env message
| urgency_outside_enum text items v :
    llm_chat env (request message) 0.1 200%Z = Ok (Some text) →
    json_loads env (clean_text text) = Ok (JDict items) →
    lookup_key items "urgency" = Some v →
    (∀ u, v ≠ JStr (UrgencyLevel_value u)) →
    llm_failure env message
| department_invalid text items v e :
    llm_chat env (request message) 0.1 200%Z = Ok (Some text) →
    json_loads env (clean_text text) = Ok (JDict items) →
    lookup_key items "department" = Some v →
    validate_department env v = Raise e →
    llm_failure env message
| needs_ambulance_invalid text items v e :
    llm_chat env (request message) 0.1 200%Z = Ok (Some text) →
    json_loads env (clean_text text) = Ok (JDict items) →
    lookup_key items "needs_ambulance" = Some v →
    validate_needs_ambulance env v = Raise e →
    llm_failure env message
| confidence_invalid text items v e :
    llm_chat env (request message) 0.1 200%Z = Ok (Some text) →
    json_loads env (clean_text text) = Ok (JDict items) →
    lookup_key items "confidence" = Some v →
    validate_confidence env v = Raise e →
    llm_failure env message
| entities_invalid text items v e :
    llm_chat env (request message) 0.1 200%Z = Ok (Some text) →
    json_loads env (clean_text text) = Ok (JDict items) →
    lookup_key items "entities" = Some v →
    validate_entities env v = Raise e →
    llm_failure env message.

(** A service whose reply decodes to the given document; no field validator
    is ever satisfied.  Used to run the cascade on concrete replies. *)
Definition replying (text : string) (doc : json) : collaborators :=
  {| llm_chat := fun _ _ _ => Ok (Some text);
     json_loads := fun s =>
       if String.eqb s text then Ok doc
       else Raise (PyException "JSONDecodeError");
     validate_department := fun _ => Raise (PyException "ValidationError");
     validate_needs_ambulance := fun _ => Raise (PyException "ValidationError");
     validate_confidence := fun _ => Raise (PyException "ValidationError");
     validate_entities := fun _ => Raise (PyException "ValidationError") |}.

(** The reply [{"intent": "emergency"}] and its decoding. *)
Definition reply_emergency_only : string :=
  "{" +:+ q "intent" +:+ ": " +:+ q "emergency" +:+ "}".

Definition doc_emergency_only : json := JDict [("intent", JStr "emergency")].

(** A service that is down. *)
Definition unavailable : collaborators :=
  {| llm_chat := fun _ _ _ => Raise (PyException "ConnectError");
     json_loads := fun _ => Raise (PyException "JSONDecodeError");
     validate_department := fun _ => Raise (PyException "ValidationError");
     validate_needs_ambulance := fun _ => Raise (PyException "ValidationError");
     validate_confidence := fun _ => Raise (PyException "ValidationError");
     validate_entities := fun _ => Raise (PyException "ValidationError") |}.

End Classifier.

(* ===================================================================== *)
(** * Triage engine  ([triage/triage_engine.py]) *)
(* ===================================================================== *)

Module Triage.
Import Str.

Local Open Scope float_scope.

(** [SYMPTOM_SEVERITY_MAP], in the order of the dict literal. *)
Definition SYMPTOM_SEVERITY_MAP : list (string * float) :=
  [
    ("chest pain", 1.0);
    ("heart attack", 1.0);
    ("cardiac arrest", 1.0);
    ("not breathing", 1.0);
    ("stopped breathing", 1.0);
    ("choking", 0.95);
    ("severe bleeding", 0.95);
    ("unconscious", 1.0);
    ("seizure", 0.95);
    ("stroke", 1.0);
    ("anaphylaxis", 1.0);
    ("overdose", 0.95);
    ("poisoning", 0.95);
    ("severe burn", 0.9);
    ("gunshot", 1.0);
    ("stab", 1.0);
    ("difficulty breathing", 0.85);
    ("shortness of breath", 0.8);
    ("high fever", 0.7);
    ("severe headache", 0.7);
    ("blurred vision", 0.65);
    ("broken bone", 0.75);
    ("fracture", 0.75);
    ("deep cut", 0.7);
    ("persistent vomiting", 0.65);
    ("blood in stool", 0.7);
    ("blood in urine", 0.65);
    ("severe abdominal pain", 0.75);
    ("allergic reaction", 0.7);
    ("fainting", 0.65);
    ("dehydration", 0.6);
    ("dizziness", 0.55);
    ("chest tightness", 0.75);
    ("confusion", 0.7);
    ("numbness", 0.6);
    ("paralysis", 0.85);
    ("fever", 0.4);
    ("cough", 0.3);
    ("headache", 0.35);
    ("body pain", 0.35);
    ("sore throat", 0.3);
    ("ear pain", 0.35);
    ("back pain", 0.4);
    ("joint pain", 0.35);
    ("rash", 0.3);
    ("nausea", 0.35);
    ("vomiting", 0.45);
    ("diarrhea", 0.35);
    ("stomach pain", 0.4);
    ("toothache", 0.3);
    ("cold", 0.15);
    ("runny nose", 0.1);
    ("mild headache", 0.2);
    ("fatigue", 0.2);
    ("insomnia", 0.15);
    ("anxiety", 0.25);
    ("stress", 0.2);
    ("itching", 0.15);
    ("minor cut", 0.1);
    ("bruise", 0.1) ].

(** [SYMPTOM_DEPARTMENT_MAP], in the order of the dict literal. *)
Definition SYMPTOM_DEPARTMENT_MAP : list (string * string) :=
  [
    ("chest pain", "Cardiology");
    ("heart", "Cardiology");
    ("cardiac", "Cardiology");
    ("breathing", "Pulmonology");
    ("cough", "Pulmonology");
    ("asthma", "Pulmonology");
    ("headache", "Neurology");
    ("seizure", "Neurology");
    ("stroke", "Neurology");
    ("numbness", "Neurology");
    ("confusion", "Neurology");
    ("paralysis", "Neurology");
    ("bone", "Orthopedics");
    ("fracture", "Orthopedics");
    ("joint", "Orthopedics");
    ("back pain", "Orthopedics");
    ("sprain", "Orthopedics");
    ("child", "Pediatrics");
    ("baby", "Pediatrics");
    ("infant", "Pediatrics");
    ("skin", "Dermatology");
    ("rash", "Dermatology");
    ("itching", "Dermatology");
    ("acne", "Dermatology");
    ("eye", "Ophthalmology");
    ("vision", "Ophthalmology");
    ("ear", "ENT");
    ("nose", "ENT");
    ("throat", "ENT");
    ("sore throat", "ENT");
    ("stomach", "Gastroenterology");
    ("abdomen", "Gastroenterology");
    ("digestive", "Gastroenterology");
    ("anxiety", "Psychiatry");
    ("depression", "Psychiatry");
    ("mental", "Psychiatry");
    ("suicidal", "Psychiatry");
    ("pregnancy", "Gynecology");
    ("menstrual", "Gynecology");
    ("fever", "General Medicine");
    ("cold", "General Medicine");
    ("fatigue", "General Medicine") ].

(** [@dataclass class TriageResult] *)
Record TriageResult := {
  severity_score : float;
  severity_level : string;
  recommended_department : string;
  detected_symptoms : list string;
  needs_immediate_attention : bool;
  needs_ambulance : bool;
  triage_notes : string;
  first_aid_tips : list string;
}.

(** [float(n)] for a list length. *)
Definition float_of_nat (n : nat) : float :=
  PrimFloat.of_uint63 (Uint63.of_Z (Z.of_nat n)).

(** Python's [min(a, b)]: [b] when [b < a], else [a]. *)
Definition py_min (a b : float) : float := if b <? a then b else a.

(** Rounding to the nearest integer, ties to even, of [num / den]. *)
Definition div_half_even (num den : Z) : Z :=
  let q := (num / den)%Z in
  let r := (num mod den)%Z in
  match (2 * r ?= den)%Z with
  | Lt => q
  | Gt => (q + 1)%Z
  | Eq => if Z.even q then q else (q + 1)%Z
  end.

(** [round(x, ndigits)] for a float: the decimal with [ndigits] places nearest
    to the exact value of [x] (ties to even), read back as the nearest float.
    Both [k] and the power of ten are exact floats for the magnitudes met here
    ([|x| < 2^53 / 10^ndigits], [ndigits <= 15]), so the final division is the
    correctly rounded reading of [k / 10^ndigits]. *)
Definition py_round (x : float) (ndigits : nat) : float :=
  match Prim2SF x with
  | S754_finite s m e =>
      if (0 <=? e)%Z then x
      else
        let scale := (10 ^ Z.of_nat ndigits)%Z in
        let k := div_half_even (Z.pos m * scale) (2 ^ (- e)) in
        let r := PrimFloat.of_uint63 (Uint63.of_Z k)
                 / PrimFloat.of_uint63 (Uint63.of_Z scale) in
        if s then - r else r
  | _ => x
  end.

(** [detected.sort(key=lambda x: x[1], reverse=True)]: stable, heaviest
    first; entries of equal weight keep their order. *)
Fixpoint insert_desc (x : string * float) (sorted : list (string * float))
    : list (string * float) :=
  match sorted with
  | [] => [x]
  | y :: rest =>
      if snd x <? snd y then y :: insert_desc x rest else x :: sorted
  end.

Fixpoint sort_desc (l : list (string * float)) : list (string * float) :=
  match l with
  | [] => []
  | x :: rest => insert_desc x (sort_desc rest)
  end.

(** [_detect_symptoms] *)
Definition _detect_symptoms (text : string) : list (string * float) :=
  sort_desc (List.filter (fun '(symptom, _) => contains symptom text)
               SYMPTOM_SEVERITY_MAP).

(** [_calculate_severity].  The source also computes the mean of the
    secondary weights and drops it. *)
Definition _calculate_severity (detected_symptoms : list (string * float))
    : float :=
  match detected_symptoms with
  | [] => 0.1
  | (_, w) :: _ =>
      let max_severity := w in
      if (1 <? length detected_symptoms)%nat then
        let compound_factor :=
          py_min 0.15 (float_of_nat (length detected_symptoms) * 0.03) in
        py_min 1.0 (max_severity + compound_factor)
      else max_severity
  end.

(** [_determine_department] *)
Definition _determine_department (text : string) : string :=
  match find (fun '(keyword, _) => contains keyword text)
             SYMPTOM_DEPARTMENT_MAP with
  | Some (_, department) => department
  | None => "General Medicine"
  end.

(** [any(s in names for s in candidates)], on a list of names. *)
Definition any_member (candidates names : list string) : bool :=
  existsb (fun s => existsb (String.eqb s) names) candidates.

(** [tips.extend(more)]; [tips.append(t)] is [extend tips [t]]. *)
Definition extend (tips more : list string) : list string :=
  (tips ++ more)%list.

(** [_get_first_aid] *)
Definition _get_first_aid (symptoms : list (string * float))
    (severity : string) : list string :=
  let symptom_names := map fst symptoms in
  let tips : list string := [] in
  let tips :=
    if String.eqb severity "CRITICAL" then
      extend tips ["🚨 Call emergency services (108) IMMEDIATELY";
               "Do NOT move the patient unless in immediate danger";
               "Monitor consciousness and breathing"]
    else tips in
  let tips :=
    if any_member ["chest pain"; "heart attack"; "cardiac arrest"] symptom_names
    then extend tips ["💊 If patient has prescribed nitroglycerin, help them take it";
                  "Have the patient sit upright and stay calm";
                  "Loosen any tight clothing";
                  "If patient becomes unresponsive, begin CPR"]
    else tips in
  let tips :=
    if any_member ["not breathing"; "stopped breathing"; "choking"] symptom_names
    then extend tips ["Check airway for obstructions";
                  "If choking: perform Heimlich maneuver (abdominal thrusts)";
                  "If not breathing: begin rescue breathing / CPR";
                  "Tilt head back, lift chin to open airway"]
    else tips in
  let tips :=
    if any_member ["severe bleeding"; "deep cut"] symptom_names
    then extend tips ["Apply direct pressure with clean cloth";
                  "Elevate the wound above heart level if possible";
                  "Do NOT remove embedded objects";
                  "Apply tourniquet only as last resort for life-threatening limb bleeding"]
    else tips in
  let tips :=
    if any_member ["seizure"] symptom_names
    then extend tips ["Clear area around patient of hard objects";
                  "Do NOT restrain or put anything in their mouth";
                  "Turn patient on their side after seizure stops";
                  "Time the seizure — call 108 if it lasts over 5 minutes"]
    else tips in
  let tips :=
    if any_member ["severe burn"] symptom_names
    then extend tips ["Cool the burn under cool running water for 10+ minutes";
                  "Do NOT apply ice, butter, or ointments";
                  "Cover with clean, non-stick dressing";
                  "Remove jewelry near the burn before swelling starts"]
    else tips in
  let tips :=
    if any_member ["fracture"; "broken bone"] symptom_names
    then extend tips ["Immobilize the injured area — do not try to realign";
                  "Apply ice wrapped in cloth to reduce swelling";
                  "Splint the area if trained to do so"]
    else tips in
  let tips :=
    if any_member ["high fever"; "fever"] symptom_names
    then extend tips ["Stay hydrated with plenty of fluids";
                  "Rest in a cool, comfortable environment";
                  "Use a damp cloth on forehead for comfort"]
    else tips in
  let tips :=
    if any_member ["allergic reaction"; "anaphylaxis"] symptom_names
    then extend tips ["Use EpiPen if available and trained to do so";
                  "Help patient sit upright for easier breathing";
                  "Remove known allergen if identifiable"]
    else tips in
  match tips with
  | [] => ["Rest and stay hydrated";
           "Monitor symptoms and note any changes";
           "Seek medical attention if symptoms worsen"]
  | _ => tips
  end.

(** [_generate_notes] *)
Definition _generate_notes (symptoms : list (string * float))
    (severity department : string) : string :=
  match symptoms with
  | [] => "No specific symptoms detected. Recommended: " +:+ department
          +:+ " consultation."
  | _ =>
      let symptom_list := join ", " (map fst symptoms) in
      "Triage Assessment: " +:+ severity +:+ " | "
      +:+ "Symptoms: " +:+ symptom_list +:+ " | "
      +:+ "Recommended Dept: " +:+ department +:+ " | "
      +:+ "Symptom count: " +:+ pretty (length symptoms)
  end.

(** [TriageEngine.assess] *)
Definition assess (message : string) : TriageResult :=
  let msg_lower := lower message in
  let detected_symptoms := _detect_symptoms msg_lower in
  let severity_score := _calculate_severity detected_symptoms in
  let department := _determine_department msg_lower in
  let severity_level :=
    if 0.8 <=? severity_score then "CRITICAL"
    else if 0.5 <=? severity_score then "URGENT"
    else "NON_URGENT" in
  let needs_immediate := 0.8 <=? severity_score in
  let needs_ambulance := 0.9 <=? severity_score in
  let first_aid := _get_first_aid detected_symptoms severity_level in
  let notes := _generate_notes detected_symptoms severity_level department in
  {| severity_score := py_round severity_score 3;
     severity_level := severity_level;
     recommended_department := department;
     detected_symptoms := map fst detected_symptoms;
     needs_immediate_attention := needs_immediate;
     needs_ambulance := needs_ambulance;
     triage_notes := notes;
     first_aid_tips := first_aid |}.

(** ** Specification vocabulary *)

(** The entries of the symptom table that occur in the lower-cased message,
    in table order. *)
Definition matched (message : string) : list (string * float) :=
  List.filter (fun '(symptom, _) => contains symptom (lower message))
    SYMPTOM_SEVERITY_MAP.

(** What the record [r] must satisfy with respect to a score [s]: the score
    lies in [0, 1], the level is CRITICAL exactly from 0.8, URGENT exactly
    from 0.5 and below 0.8, NON_URGENT exactly below 0.5, and the two flags
    are the comparisons of the score with 0.8 and 0.9. *)
Definition thresholds (r : TriageResult) (s : float) : Prop :=
  (0 <=? s) = true ∧ (s <=? 1) = true ∧
  (severity_level r = "CRITICAL" ↔ (0.8 <=? s) = true) ∧
  (severity_level r = "URGENT" ↔ (0.5 <=? s) = true ∧ (s <? 0.8) = true) ∧
  (severity_level r = "NON_URGENT" ↔ (s <? 0.5) = true) ∧
  needs_immediate_attention r = (0.8 <=? s) ∧
  needs_ambulance r = (0.9 <=? s).

(** The score of a non-empty detection whose heaviest weight is [w] and whose
    length is [n]. *)
Definition severity_of (w : float) (n : nat) : float :=
  if (1 <? n)%nat
  then py_min 1.0 (w + py_min 0.15 (float_of_nat n * 0.03))
  else w.

(** The level as [assess] derives it from the score it computed. *)
Definition level_of (sc : float) : string :=
  if 0.8 <=? sc then "CRITICAL"
  else if 0.5 <=? sc then "URGENT"
  else "NON_URGENT".

(** The weights of the symptom table. *)
Definition weights : list float := map snd SYMPTOM_SEVERITY_MAP.

(** The comparisons a score must get right, as one boolean: range, agreement
    of the rounded score with the raw one at the three thresholds, and
    coherence of [<] with [<=] there. *)
Definition score_checks (sc : float) : bool :=
  let r := py_round sc 3 in
  (0 <=? r) && (r <=? 1) && (0 <=? sc) && (sc <=? 1)
  && Bool.eqb (0.8 <=? sc) (0.8 <=? r)
  && Bool.eqb (0.5 <=? sc) (0.5 <=? r)
  && Bool.eqb (0.9 <=? sc) (0.9 <=? r)
  && Bool.eqb (r <? 0.8) (negb (0.8 <=? r))
  && Bool.eqb (r <? 0.5) (negb (0.5 <=? r))
  && Bool.eqb (sc <? 0.8) (negb (0.8 <=? sc))
  && Bool.eqb (sc <? 0.5) (negb (0.5 <=? sc))
  && implb (0.8 <=? sc) (0.5 <=? sc).

(** The order laws of float comparison, at three given weights. *)
Definition order_checks (a b c : float) : bool :=
  (a <=? a)
  && implb (a <? b) (a <=? b)
  && implb (negb (a <? b)) (b <=? a)
  && implb ((a <=? b) && (b <=? c)) (a <=? c).

End Triage.

(* ===================================================================== *)
(** * Regular expressions, as [re] runs them *)
(* ===================================================================== *)

Module Regex.
Import Str.

(** One pattern character. *)
Inductive cclass :=
| CChar (c : ascii)   (** a literal, matched under [re.IGNORECASE] *)
| CWord               (** [\w] *)
| CDigit              (** [\d] *)
| CAny.               (** [.], anything but a newline *)

Definition is_digit (c : ascii) : bool :=
  let n := nat_of_ascii c in (48 <=? n)%nat && (n <=? 57)%nat.

Definition is_word (c : ascii) : bool :=
  let n := nat_of_ascii c in
  is_digit c || ((65 <=? n)%nat && (n <=? 90)%nat)
  || ((97 <=? n)%nat && (n <=? 122)%nat) || (n =? 95)%nat.

Definition accepts (k : cclass) (c : ascii) : bool :=
  match k with
  | CChar p => Ascii.eqb (lower_char p) (lower_char c)
  | CWord => is_word c
  | CDigit => is_digit c
  | CAny => negb (Ascii.eqb c nl)
  end.

(** The pattern language the guardrails use: literals, classes, sequence,
    alternation [(a|b)], greedy [k+] and greedy [k{0,n}] on one class. *)
Inductive regex :=
| Eps
| Cls (k : cclass)
| Seq (r1 r2 : regex)
| Alt (r1 r2 : regex)
| Plus (k : cclass)
| Upto (n : nat) (k : cclass).

Fixpoint lit (s : string) : regex :=
  match s with
  | EmptyString => Eps
  | String c s' => Seq (Cls (CChar c)) (lit s')
  end.

(** Greedy [k+] at the head of [s]: what is left after each possible run,
    longest run first. *)
Fixpoint plus_rem (k : cclass) (s : string) : list string :=
  match s with
  | EmptyString => []
  | String c s' => if accepts k c then (plus_rem k s' ++ [s'])%list else []
  end.

(** Greedy [k{0,n}] at the head of [s], longest run first. *)
Fixpoint upto_rem (n : nat) (k : cclass) (s : string) : list string :=
  match n, s with
  | S n', String c s' =>
      if accepts k c then (upto_rem n' k s' ++ [s])%list else [s]
  | _, _ => [s]
  end.

(** The backtracking matcher anchored at the head of [s]: the remainders of
    [s] after each way the pattern can match, in the order [re] tries them.
    The first one is the match [re] reports. *)
Fixpoint rmatch (r : regex) (s : string) : list string :=
  match r with
  | Eps => [s]
  | Cls k =>
      match s with
      | String c s' => if accepts k c then [s'] else []
      | EmptyString => []
      end
  | Seq r1 r2 => flat_map (rmatch r2) (rmatch r1 s)
  | Alt r1 r2 => (rmatch r1 s ++ rmatch r2 s)%list
  | Plus k => plus_rem k s
  | Upto n k => upto_rem n k s
  end.

(** [re.search(pattern, s, re.IGNORECASE)] as a truth value. *)
Fixpoint re_search (r : regex) (s : string) : bool :=
  match rmatch r s with
  | _ :: _ => true
  | [] =>
      match s with
      | EmptyString => false
      | String _ s' => re_search r s'
      end
  end.

(** [re.sub(pattern, repl, s, flags=re.IGNORECASE)] for a pattern that has no
    empty match and a replacement without escapes: a left-to-right scan that
    replaces the leftmost match, resumes right after it, and copies every
    character no match covers.  [skip] counts the characters of the current
    match still to pass over. *)
Fixpoint sub_go (r : regex) (repl : string) (skip : nat) (s : string)
    : string :=
  match s with
  | EmptyString => EmptyString
  | String c s' =>
      match skip with
      | S k => sub_go r repl k s'
      | O =>
          match rmatch r s with
          | rest :: _ =>
              if (String.length rest <? String.length s)%nat
              then repl +:+ sub_go r repl
                              (String.length s - String.length rest - 1) s'
              else String c (sub_go r repl 0 s')
          | [] => String c (sub_go r repl 0 s')
          end
      end
  end.

Definition re_sub (r : regex) (repl s : string) : string :=
  sub_go r repl 0 s.

Infix "⋅" := Seq (at level 40, left associativity).

(** ** Specification vocabulary *)

(** No character of the pattern can match a newline. *)
Fixpoint nl_free (r : regex) : bool :=
  match r with
  | Eps => true
  | Cls k | Plus k | Upto _ k => negb (accepts k nl)
  | Seq r1 r2 | Alt r1 r2 => nl_free r1 && nl_free r2
  end.

(** A remainder of the text [u], a newline, [v] that still holds the newline
    and what follows it. *)
Definition keeps (u v rest : string) : Prop :=
  ∃ u', rest = u' +:+ String nl v ∧ (String.length u' <= String.length u)%nat.

End Regex.

(* ===================================================================== *)
(** * Guardrails  ([ai_engine/guardrails.py]) *)
(* ===================================================================== *)

Module Guardrails.
Import Str Regex.

Definition DIAGNOSIS_PATTERNS : list regex :=
  [ lit "you have " ⋅ Plus CWord;
    lit "you are suffering from";
    lit "diagnosed with";
    lit "this is "
      ⋅ Alt (lit "likely") (Alt (lit "probably") (lit "definitely"))
      ⋅ lit " " ⋅ Plus CWord;
    lit "it sounds like you have";
    lit "you might have";
    lit "this could be " ⋅ Plus CWord ⋅ lit " disease" ].

Definition PRESCRIPTION_PATTERNS : list regex :=
  [ lit "take " ⋅ Plus CDigit ⋅ lit " mg";
    lit "you should take " ⋅ Plus CWord ⋅ lit " medication";
    lit "prescribe";
    lit "dosage";
    lit "take "
      ⋅ Alt (lit "aspirin")
          (Alt (lit "ibuprofen") (Alt (lit "paracetamol") (lit "acetaminophen")));
    lit "medication for " ⋅ Plus CWord;
    lit "i recommend taking" ].

Definition UNSAFE_CLAIM_PATTERNS : list regex :=
  [ lit "don't worry" ⋅ Upto 20 CAny ⋅ lit "not serious";
    lit "nothing to worry about";
    lit "this is not an emergency";
    lit "you don't need to see a doctor";
    lit "no need for hospital";
    lit "home remedy will cure";
    lit "guaranteed to work" ].

Definition MEDICAL_DISCLAIMER : string :=
  String nl (String nl
    "⚕️ *Please note: I'm an AI hospital assistant and cannot provide medical diagnosis or prescriptions. For medical concerns, please consult with a healthcare professional or visit the hospital.*").

Definition EMERGENCY_DISCLAIMER : string :=
  String nl (String nl
    "🚨 *If you are experiencing a medical emergency, please call emergency services (108) immediately or go to the nearest emergency room.*").

(** One [for pattern in ...] loop of [check_guardrails]: the test reads the
    original [response], the substitution rewrites [filtered]. *)
Definition apply_patterns (patterns : list regex) (placeholder : string)
    (response : string) (st : string * bool) : string * bool :=
  fold_left
    (fun '(filtered, was_modified) pattern =>
       if re_search pattern response
       then (re_sub pattern placeholder filtered, true)
       else (filtered, was_modified))
    patterns st.

(** The three loops in sequence. *)
Definition filter_patterns (response : string) : string * bool :=
  let st := (response, false) in
  let st := apply_patterns DIAGNOSIS_PATTERNS
              "[I cannot make diagnoses - please consult a doctor]"
              response st in
  let st := apply_patterns PRESCRIPTION_PATTERNS
              "[I cannot prescribe medications - please consult a doctor]"
              response st in
  apply_patterns UNSAFE_CLAIM_PATTERNS
    "[Please seek professional medical advice]" response st.

Definition symptom_keywords : list string :=
  ["pain"; "fever"; "bleeding"; "symptom"; "condition"; "suffer"].

(** The test that guards [filtered += MEDICAL_DISCLAIMER]. *)
Definition appends_disclaimer (response filtered : string) : bool :=
  any_in symptom_keywords (lower response)
  && negb (contains MEDICAL_DISCLAIMER filtered).

(** [check_guardrails] *)
Definition check_guardrails (response : string) : string * bool :=
  let '(filtered, was_modified) := filter_patterns response in
  if appends_disclaimer response filtered
  then (filtered +:+ MEDICAL_DISCLAIMER, true)
  else (filtered, was_modified).

(** [add_safety_disclaimer] *)
Definition add_safety_disclaimer (response : string) (is_emergency : bool)
    : string :=
  if is_emergency && negb (contains EMERGENCY_DISCLAIMER response)
  then response +:+ EMERGENCY_DISCLAIMER
  else response.

(** ** Specification vocabulary *)

(** A pattern that cannot match a newline and finds nothing to replace in
    the medical disclaimer. *)
Definition spares_disclaimer (placeholder : string) (pattern : regex) : bool :=
  nl_free pattern
  && String.eqb (re_sub pattern placeholder MEDICAL_DISCLAIMER)
       MEDICAL_DISCLAIMER.

End Guardrails.

(* ===================================================================== *)
(** * Emergency orchestrator  ([triage/emergency_orchestrator.py]) *)
(* ===================================================================== *)

Module Orchestrator.
Import Str Schemas Triage.

(** [ConversationContext], the fields the orchestrator reads. *)
Record ConversationContext := {
  session_id : string;
  patient_name : option string;
  patient_phone : option string;
  patient_id : option string;
}.

(** [@dataclass class EmergencyAction] *)
Record EmergencyAction := {
  is_emergency : bool;
  triage : TriageResult;
  dispatch_ambulance : bool;
  alert_staff : bool;
  escalation_message : string;
  patient_guidance : string;
  emergency_case_id : option string;
}.

(** The [data] of [db.emergencycase.create]. *)
Record case_data := {
  patientId : option string;
  severity : string;
  symptoms : string;
  contactNumber : string;
  notes : string;
}.

(** The collaborators of the orchestrator: the database handle and its
    [emergencycase.create] (which returns the new case, here its [id]) and
    [auditlog.create]; the clock reading [datetime.utcnow().isoformat()]; and
    Python's rendering [str(x)] of a float. *)
Record collaborators := {
  get_db : result unit;
  emergencycase_create : case_data → result string;
  auditlog_create : string → string → list (string * json) → result unit;
  utcnow_isoformat : string;
  str_float : float → string;
}.

(** [x or default] on an optional string: [None] and [""] are falsy. *)
Definition or_else (x : option string) (default : string) : string :=
  match x with
  | Some (String c s) => String c s
  | _ => default
  end.

Definition NL : string := String nl "".

(** [utils/audit_logger.py], [log_action]: the write is wrapped in
    [try ... except Exception], nothing escapes. *)
Definition log_action (env : collaborators) (action resource : string)
    (details : list (string * json)) : result unit :=
  try_except
    (_ ← get_db env; auditlog_create env action resource details)
    (fun _ => Ok ()).

(** [severity_map.get(level, "URGENT")] *)
Definition severity_map_get (level : string) : string :=
  let severity_map :=
    [("CRITICAL", "CRITICAL"); ("URGENT", "URGENT");
     ("NON_URGENT", "NON_URGENT")] in
  match find (fun '(k, _) => String.eqb k level) severity_map with
  | Some (_, v) => v
  | None => "URGENT"
  end.

(** [_create_emergency_case] *)
Definition _create_emergency_case (env : collaborators) (triage : TriageResult)
    (context : ConversationContext) (message : string)
    : result (option string) :=
  try_except
    (_ ← get_db env;
     case_id ← emergencycase_create env
       {| patientId := patient_id context;
          severity := severity_map_get (severity_level triage);
          symptoms := or_else (Some (join ", " (detected_symptoms triage)))
                              (take 500 message);
          contactNumber := or_else (patient_phone context) "UNKNOWN";
          notes := triage_notes triage |};
     _ ← log_action env "EMERGENCY_CASE_CREATED" "emergency_cases"
           [("case_id", JStr case_id);
            ("severity", JStr (severity_level triage));
            ("score", JFloat (severity_score triage));
            ("department", JStr (recommended_department triage));
            ("session_id", JStr (session_id context))];
     Ok (Some case_id))
    (fun _ => Ok None).

(** [_build_patient_guidance] *)
Definition _build_patient_guidance (triage : TriageResult) : string :=
  let parts : list string := [] in
  let parts :=
    if String.eqb (severity_level triage) "CRITICAL" then
      extend parts
        ["🚨 **EMERGENCY — IMMEDIATE ACTION REQUIRED**" +:+ NL +:+ NL
         +:+ "**Call 108 (Emergency Services) NOW.**" +:+ NL]
    else if String.eqb (severity_level triage) "URGENT" then
      extend parts
        ["⚠️ **URGENT — Please seek medical attention soon.**" +:+ NL]
    else parts in
  let parts :=
    extend parts
      ["**Severity Assessment:** " +:+ severity_level triage +:+ NL
       +:+ "**Recommended Department:** " +:+ recommended_department triage
       +:+ NL] in
  let parts :=
    if needs_ambulance triage then
      extend parts
        [NL +:+ "🚑 **Ambulance recommended.** "
         +:+ "Our team has been alerted. Please share your location." +:+ NL]
    else parts in
  let parts :=
    match first_aid_tips triage with
    | [] => parts
    | tips =>
        extend (extend parts [NL +:+ "**While waiting for help:**" +:+ NL])
          (map (fun tip => "• " +:+ tip +:+ NL) (firstn 5 tips))
    end in
  let parts :=
    extend parts
      [NL +:+ "⚕️ *This is an automated triage assessment. "
       +:+ "A healthcare professional will confirm the evaluation.*"] in
  join "" parts.

(** [_build_escalation_message] *)
Definition _build_escalation_message (env : collaborators)
    (triage : TriageResult) (context : ConversationContext)
    (emergency_id : option string) : string :=
  "🚨 EMERGENCY ALERT — Case #" +:+ or_else emergency_id "PENDING" +:+ NL
  +:+ "Severity: " +:+ severity_level triage
  +:+ " (Score: " +:+ str_float env (severity_score triage) +:+ ")" +:+ NL
  +:+ "Symptoms: " +:+ join ", " (detected_symptoms triage) +:+ NL
  +:+ "Department: " +:+ recommended_department triage +:+ NL
  +:+ "Patient: " +:+ or_else (patient_name context) "Unknown" +:+ NL
  +:+ "Phone: " +:+ or_else (patient_phone context) "Unknown" +:+ NL
  +:+ "Session: " +:+ session_id context +:+ NL
  +:+ "Ambulance Required: "
  +:+ (if needs_ambulance triage then "YES" else "No") +:+ NL
  +:+ "Time: " +:+ utcnow_isoformat env.

(** [EmergencyOrchestrator.evaluate_and_respond] *)
Definition evaluate_and_respond (env : collaborators) (message : string)
    (context : ConversationContext) : result EmergencyAction :=
  let triage := assess message in
  let is_emergency := String.eqb (severity_level triage) "CRITICAL" in
  let is_urgent := String.eqb (severity_level triage) "URGENT" in
  let guidance := _build_patient_guidance triage in
  emergency_id ←
    (if is_emergency || is_urgent
     then _create_emergency_case env triage context message
     else Ok None);
  let escalation :=
    if is_emergency
    then _build_escalation_message env triage context emergency_id
    else "" in
  Ok {| is_emergency := is_emergency;
        triage := triage;
        dispatch_ambulance := needs_ambulance triage;
        alert_staff := is_emergency;
        escalation_message := escalation;
        patient_guidance := guidance;
        emergency_case_id := emergency_id |}.

(** ** Specification vocabulary *)

(** The case written for an assessment: the [data] that
    [_create_emergency_case] hands to [db.emergencycase.create]. *)
Definition case_of (triage : TriageResult) (context : ConversationContext)
    (message : string) : case_data :=
  {| patientId := patient_id context;
     severity := severity_map_get (severity_level triage);
     symptoms := or_else (Some (join ", " (detected_symptoms triage)))
                         (take 500 message);
     contactNumber := or_else (patient_phone context) "UNKNOWN";
     notes := triage_notes triage |}.

(** The case-storage collaborator fails on the case at hand: the handle
    cannot be obtained, or the write of this case raises. *)
Definition storage_fails (env : collaborators) (triage : TriageResult)
    (context : ConversationContext) (message : string) : Prop :=
  (∃ e, get_db env = Raise e) ∨
  (∃ e, emergencycase_create env (case_of triage context message) = Raise e).

(** A database that refuses the cases of one severity only. *)
Definition refuses (level : string) : collaborators :=
  {| get_db := Ok ();
     emergencycase_create := fun data =>
       if String.eqb (severity data) level
       then Raise (PyException "PrismaError") else Ok "case-1";
     auditlog_create := fun _ _ _ => Ok ();
     utcnow_isoformat := "2025-01-01T10:00:00";
     str_float := fun _ => "1.0" |}.

(** A database that refuses every write. *)
Definition storage_down : collaborators :=
  {| get_db := Ok ();
     emergencycase_create := fun _ => Raise (PyException "PrismaError");
     auditlog_create := fun _ _ _ => Raise (PyException "PrismaError");
     utcnow_isoformat := "2025-01-01T10:00:00";
     str_float := fun _ => "1.0" |}.

Definition anonymous (session : string) : ConversationContext :=
  {| session_id := session; patient_name := None; patient_phone := None;
     patient_id := None |}.

End Orchestrator.

(* ===================================================================== *)
(** * Triage endpoints  ([api/triage.py]) *)
(* ===================================================================== *)

Module TriageApi.
Import Str Schemas Triage.

Local Open Scope float_scope.

(** [assess_symptoms]: the fields of the assessment as a JSON object. *)
Definition assess_symptoms (message : string) : json :=
  let result := assess message in
  JDict [("severity_score", JFloat (severity_score result));
         ("severity_level", JStr (severity_level result));
         ("recommended_department", JStr (recommended_department result));
         ("detected_symptoms", JList (map JStr (detected_symptoms result)));
         ("needs_immediate_attention",
          JBool (needs_immediate_attention result));
         ("needs_ambulance", JBool (needs_ambulance result));
         ("triage_notes", JStr (triage_notes result));
         ("first_aid_tips", JList (map JStr (first_aid_tips result)))].

(** [get_first_aid] *)
Definition get_first_aid (condition : string) : json :=
  let result := assess condition in
  match first_aid_tips result with
  | [] =>
      JDict [("condition", JStr condition);
             ("tips",
              JList [JStr "For this condition, please consult a healthcare professional.";
                     JStr "If symptoms are severe, call emergency services (108)."]);
             ("severity", JStr (severity_level result))]
  | tips =>
      JDict [("condition", JStr condition);
             ("tips", JList (map JStr tips));
             ("severity", JStr (severity_level result));
             ("recommended_department",
              JStr (recommended_department result))]
  end.

(** The [departments] dict of [get_triage_departments]. *)
Definition departments : list (string * string) :=
  [ ("Cardiology", "Heart and cardiovascular conditions");
    ("Pulmonology", "Breathing and lung conditions");
    ("Neurology", "Brain, nerve, and neurological conditions");
    ("Orthopedics", "Bone, joint, and muscle injuries");
    ("Pediatrics", "Children's health");
    ("Dermatology", "Skin conditions");
    ("Ophthalmology", "Eye conditions");
    ("ENT", "Ear, nose, and throat");
    ("Gastroenterology", "Digestive system");
    ("Psychiatry", "Mental health");
    ("Gynecology", "Women's health");
    ("General Medicine", "General health concerns");
    ("Emergency", "Life-threatening emergencies") ].

(** ** Specification vocabulary *)

(** The scores of all detections: for every table weight [wh] taken as the
    heaviest and every count [n] from 1 to 60, the weight, the score and the
    rounded score. *)
Definition scored : list (float * float * float) :=
  map (fun '(wh, n) => let sc := severity_of wh n in (wh, sc, py_round sc 3))
    (list_prod weights (seq 1 60)).

(** What a matched weight [w] forces on a detection whose heaviest weight is
    [wh]: the score, raw and rounded, is at least [w], and it clears every
    threshold [w] clears. *)
Definition weight_checks (w : float) (x : float * float * float) : bool :=
  let '(wh, sc, r) := x in
  implb (w <=? wh)
    ((w <=? sc) && (w <=? r)
     && implb (0.9 <=? w) (0.9 <=? sc)
     && implb (0.8 <=? w) (0.8 <=? sc)
     && implb (0.5 <=? w) (0.5 <=? sc)).

(** The ambulance threshold lies above the critical one. *)
Definition chain_checks (sc : float) : bool :=
  implb (0.9 <=? sc) (0.8 <=? sc).

(** Entries by descending weight. *)
Definition heavier (x y : string * float) : Prop := (snd y <=? snd x) = true.

End TriageApi.

(* ===================================================================== *)
(** * Appointment endpoints  ([api/appointments.py]) *)
(* ===================================================================== *)

Module Appointments.
Import SlotLock.

(** ** Dates

    A naive [datetime] is its number of microseconds since 1970-01-01T00:00;
    the type holds the instants from [datetime.min] (0001-01-01T00:00:00) to
    [datetime.max] (9999-12-31T23:59:59.999999). *)
Definition datetime_min : Z := -62135596800000000.
Definition datetime_max : Z := 253402300799999999.

(** [timedelta(minutes=n)], in microseconds: [OverflowError] when the number
    of days (rounded down) exceeds 999999999 in magnitude. *)
Definition timedelta_minutes (n : Z) : result Z :=
  let us := n * 60000000 in
  let days := us `div` 86400000000 in
  if (-999999999 <=? days) && (days <=? 999999999) then Ok us
  else Raise (PyException "OverflowError").

(** [dt + delta]: [OverflowError] outside the range of [datetime]. *)
Definition datetime_add (dt delta : Z) : result Z :=
  if (datetime_min <=? dt + delta) && (dt + delta <=? datetime_max)
  then Ok (dt + delta)
  else Raise (PyException "OverflowError").

(** [dt + timedelta(minutes=n)] *)
Definition plus_minutes (dt n : Z) : result Z :=
  delta ← timedelta_minutes n; datetime_add dt delta.

(** ** What an endpoint does: it returns a value, raises [HTTPException], or
    lets another exception escape (the framework answers 500). *)
Inductive response (A : Type) :=
| Returns (a : A)
| HTTPException (status_code : Z) (detail : string)
| Escapes (e : exn).
Arguments Returns {A} a.
Arguments HTTPException {A} status_code detail.
Arguments Escapes {A} e.

#[global] Instance response_ret : MRet response := λ A a, Returns a.
#[global] Instance response_bind : MBind response := λ A B k c,
  match c with
  | Returns a => k a
  | HTTPException s d => HTTPException s d
  | Escapes e => Escapes e
  end.

(** A call that can only raise an ordinary exception. *)
Definition lift {A} (c : result A) : response A :=
  match c with
  | Ok a => Returns a
  | Raise e => Escapes e
  end.

(** ** Rows and schemas *)

(** [class AppointmentStatus(str, Enum)] *)
Inductive AppointmentStatus :=
| SCHEDULED | CONFIRMED | COMPLETED | CANCELLED | RESCHEDULED | NO_SHOW.

Definition AppointmentStatus_members : list AppointmentStatus :=
  [SCHEDULED; CONFIRMED; COMPLETED; CANCELLED; RESCHEDULED; NO_SHOW].

Definition AppointmentStatus_value (s : AppointmentStatus) : string :=
  match s with
  | SCHEDULED => "SCHEDULED"
  | CONFIRMED => "CONFIRMED"
  | COMPLETED => "COMPLETED"
  | CANCELLED => "CANCELLED"
  | RESCHEDULED => "RESCHEDULED"
  | NO_SHOW => "NO_SHOW"
  end.

(** A row of the appointment table, as the storage client returns it. *)
Record Appointment := {
  id : string;
  patientId : string;
  doctorId : string;
  dateTime : Z;
  duration : Z;
  status : string;
  notes : option string;
  createdAt : Z;
}.

(** The fields of a doctor and of a patient row that the handlers read;
    [department] is the name of the included department, if any. *)
Record Doctor := {
  doctor_name : string;
  department : option string;
}.

Record Patient := {
  patient_name : string;
  patient_phone : string;
  patient_email : option string;
}.

(** [class AppointmentCreate(BaseModel)] *)
Record AppointmentCreate := {
  patient_id : string;
  doctor_id : string;
  date_time : Z;
  appt_duration : Z;
  appt_notes : option string;
}.

(** [class AppointmentResponse(BaseModel)] *)
Record AppointmentResponse := {
  r_id : string;
  r_patient_id : string;
  r_doctor_id : string;
  r_date_time : Z;
  r_duration : Z;
  r_status : AppointmentStatus;
  r_notes : option string;
  r_created_at : Z;
}.

(** The [where] (and [order]) argument of [db.appointment.find_many] as the
    two handlers build it. *)
Record query := {
  q_doctorId : string;
  q_status_in : list string;
  q_dateTime_gte : option Z;
  q_dateTime_lt : option Z;
  q_order_dateTime_asc : bool;
}.

(** The collaborators of the handlers: the storage client, the notification
    service, [datetime.isoformat], [datetime.strptime(_, "%Y-%m-%d")]
    ([None] for [ValueError]) and the readings of [datetime.utcnow()] taken
    inside the slot loop, by iteration.  [audit] holds [get_db] and the audit
    table used by [log_action]. *)
Record collaborators := {
  audit : Orchestrator.collaborators;
  isoformat : Z → string;
  strptime_date : string → option Z;
  utcnow : nat → Z;
  doctor_find_unique : string → result (option Doctor);
  patient_find_unique : string → result (option Patient);
  appointment_find_many : query → result (list Appointment);
  appointment_create : AppointmentCreate → result Appointment;
  send_appointment_confirmation :
    Patient → Doctor → string → Z → string → result unit;
}.

(** ** [book_appointment] *)

(** The comprehension
<<
    [c for c in conflicts
     if c.dateTime + timedelta(minutes=c.duration) > appt.date_time]
>> *)
Fixpoint real_conflicts (start : Z) (conflicts : list Appointment)
    : result (list Appointment) :=
  match conflicts with
  | [] => Ok []
  | c :: rest =>
      c_end ← plus_minutes (dateTime c) (duration c);
      kept ← real_conflicts start rest;
      Ok (if start <? c_end then c :: kept else kept)
  end.

(** The query of the conflict check. *)
Definition conflict_query (appt : AppointmentCreate) (end_time : Z) : query :=
  {| q_doctorId := doctor_id appt;
     q_status_in := ["SCHEDULED"; "CONFIRMED"];
     q_dateTime_gte := None;
     q_dateTime_lt := Some end_time;
     q_order_dateTime_asc := false |}.

(** [AppointmentResponse(...)] from a stored row; the status is validated
    against the enumeration. *)
Definition appointment_response (a : Appointment) : result AppointmentResponse :=
  match find (fun m => String.eqb (AppointmentStatus_value m) (status a))
          AppointmentStatus_members with
  | Some st =>
      Ok {| r_id := id a; r_patient_id := patientId a;
            r_doctor_id := doctorId a; r_date_time := dateTime a;
            r_duration := duration a; r_status := st; r_notes := notes a;
            r_created_at := createdAt a |}
  | None => Raise (PyException "ValidationError")
  end.

(** The body of the [try] block, run while the lock is held. *)
Definition booking (env : collaborators) (appt : AppointmentCreate)
    (doctor : Doctor) (patient : Patient) : response AppointmentResponse :=
  end_time ← lift (plus_minutes (date_time appt) (appt_duration appt));
  conflicts ← lift (appointment_find_many env (conflict_query appt end_time));
  clashes ← lift (real_conflicts (date_time appt) conflicts);
  match clashes with
  | _ :: _ =>
      HTTPException 409 "This time slot conflicts with an existing appointment"
  | [] =>
      appointment ← lift (appointment_create env appt);
      _ ← lift (Orchestrator.log_action (audit env) "BOOK_APPOINTMENT"
                  "appointments"
                  [("appointment_id", Schemas.JStr (id appointment));
                   ("doctor_id", Schemas.JStr (doctor_id appt));
                   ("patient_id", Schemas.JStr (patient_id appt))]);
      _ ← lift (try_except
                  (send_appointment_confirmation env patient doctor
                     (match department doctor with
                      | Some name => name
                      | None => "General"
                      end)
                     (date_time appt) (id appointment))
                  (fun _ => Ok ()));
      lift (appointment_response appointment)
  end.

(** [book_appointment]: the lookups, the lock, then the body under
    [try ... finally: _release_lock(...)].  [now] is the clock reading of
    [_acquire_lock]. *)
Definition book_appointment (env : collaborators) (appt : AppointmentCreate)
    (now : Z) (_slot_locks : gmap string Z)
    : response AppointmentResponse * gmap string Z :=
  match Orchestrator.get_db (audit env) with
  | Raise e => (Escapes e, _slot_locks)
  | Ok _ =>
  match doctor_find_unique env (doctor_id appt) with
  | Raise e => (Escapes e, _slot_locks)
  | Ok None => (HTTPException 400 "Doctor not found", _slot_locks)
  | Ok (Some doctor) =>
  match patient_find_unique env (patient_id appt) with
  | Raise e => (Escapes e, _slot_locks)
  | Ok None => (HTTPException 400 "Patient not found", _slot_locks)
  | Ok (Some patient) =>
      let '(acquired, locked) :=
        _acquire_lock (doctor_id appt) (isoformat env (date_time appt)) now
          _slot_locks in
      if acquired then
        (booking env appt doctor patient,
         _release_lock (doctor_id appt) (isoformat env (date_time appt)) locked)
      else
        (HTTPException 423
           "This time slot is currently being booked by another user. Please try again in a moment.",
         locked)
  end end end.

(** ** [lock_slot] and [release_slot] *)

Definition lock_slot (env : collaborators) (doctor_id : string) (date_time : Z)
    (now : Z) (_slot_locks : gmap string Z)
    : response Schemas.json * gmap string Z :=
  let '(acquired, locked) :=
    _acquire_lock doctor_id (isoformat env date_time) now _slot_locks in
  if acquired then
    (Returns (Schemas.JDict
       [("locked", Schemas.JBool true);
        ("expires_in_seconds", Schemas.JInt LOCK_DURATION_SECONDS);
        ("message", Schemas.JStr
           ("Slot locked for " +:+ pretty LOCK_DURATION_SECONDS
            +:+ " seconds. Complete booking before it expires."))]),
     locked)
  else
    (HTTPException 423 "This slot is currently reserved by another user",
     locked).

Definition release_slot (env : collaborators) (doctor_id : string)
    (date_time : Z) (_slot_locks : gmap string Z)
    : response Schemas.json * gmap string Z :=
  (Returns (Schemas.JDict [("released", Schemas.JBool true)]),
   _release_lock doctor_id (isoformat env date_time) _slot_locks).

(** ** [get_available_slots] *)

(** An entry of [slots]: the dict with keys [start], [end], [available] and,
    for a booked slot, [reason]. *)
Record slot := {
  slot_start : string;
  slot_end : string;
  available : bool;
  reason : option string;
}.

Definition slot_json (s : slot) : Schemas.json :=
  Schemas.JDict
    ([("start", Schemas.JStr (slot_start s));
      ("end", Schemas.JStr (slot_end s));
      ("available", Schemas.JBool (available s))]
     ++ match reason s with
        | Some r => [("reason", Schemas.JStr r)]
        | None => []
        end)%list.

(** The loop over [existing] that builds [occupied]. *)
Fixpoint occupied_of (existing : list Appointment) : result (list (Z * Z)) :=
  match existing with
  | [] => Ok []
  | a :: rest =>
      a_end ← plus_minutes (dateTime a) (duration a);
      more ← occupied_of rest;
      Ok ((dateTime a, a_end) :: more)
  end.

(** The inner [for ... break] loop: no occupied interval meets the slot. *)
Definition is_free (occupied : list (Z * Z)) (current slot_end : Z) : bool :=
  negb (existsb (fun '(occ_start, occ_end) =>
                   (current <? occ_end) && (occ_start <? slot_end)) occupied).

(** [lock_key in _slot_locks and _slot_locks[lock_key] > datetime.utcnow()] *)
Definition is_locked (env : collaborators) (doctor_id : string)
    (_slot_locks : gmap string Z) (i : nat) (current : Z) : bool :=
  match _slot_locks !! _get_lock_key doctor_id (isoformat env current) with
  | Some expiry => utcnow env i <? expiry
  | None => false
  end.

(** The [while] loop, [fuel] bounding its number of iterations; [None] when
    the bound is reached with the loop still running.  [i] counts the
    iterations done, [slots] is the list built so far.
<<
    while current + timedelta(minutes=duration) <= day_end:
        slot_end = current + timedelta(minutes=duration)
        ...
        current += timedelta(minutes=duration)
>> *)
Fixpoint slots_loop (env : collaborators) (doctor_id : string)
    (duration day_end : Z) (occupied : list (Z * Z))
    (_slot_locks : gmap string Z)
    (fuel i : nat) (current : Z) (slots : list slot)
    : option (result (list slot)) :=
  match fuel with
  | O => None
  | S fuel' =>
      match plus_minutes current duration with
      | Raise e => Some (Raise e)
      | Ok slot_end =>
          if slot_end <=? day_end then
            let free := is_free occupied current slot_end in
            let locked := is_locked env doctor_id _slot_locks i current in
            let slots' :=
              if free && negb locked then
                (slots ++ [{| slot_start := isoformat env current;
                              slot_end := isoformat env slot_end;
                              available := true; reason := None |}])%list
              else if negb free then
                (slots ++ [{| slot_start := isoformat env current;
                              slot_end := isoformat env slot_end;
                              available := false; reason := Some "booked" |}])%list
              else slots in
            slots_loop env doctor_id duration day_end occupied _slot_locks
              fuel' (S i) slot_end slots'
          else Some (Ok slots)
      end
  end.

(** [target_date.replace(hour=h, minute=0, second=0)] for a date at
    midnight. *)
Definition at_hour (target_date h : Z) : Z := target_date + h * 3600000000.

Definition day_query (doctor_id : string) (day_start day_end : Z) : query :=
  {| q_doctorId := doctor_id;
     q_status_in := ["SCHEDULED"; "CONFIRMED"; "RESCHEDULED"];
     q_dateTime_gte := Some day_start;
     q_dateTime_lt := Some day_end;
     q_order_dateTime_asc := true |}.

(** [get_available_slots]; [None] when the loop is still running after [fuel]
    iterations. *)
Definition get_available_slots (env : collaborators) (doctor_id date : string)
    (duration : Z) (_slot_locks : gmap string Z) (fuel : nat)
    : option (response Schemas.json) :=
  match Orchestrator.get_db (audit env) with
  | Raise e => Some (Escapes e)
  | Ok _ =>
  match doctor_find_unique env doctor_id with
  | Raise e => Some (Escapes e)
  | Ok None => Some (HTTPException 404 "Doctor not found")
  | Ok (Some _) =>
  match strptime_date env date with
  | None => Some (HTTPException 400 "Invalid date format. Use YYYY-MM-DD")
  | Some target_date =>
      let day_start := at_hour target_date 9 in
      let day_end := at_hour target_date 17 in
      match (existing ← appointment_find_many env
                           (day_query doctor_id day_start day_end);
             occupied_of existing) with
      | Raise e => Some (Escapes e)
      | Ok occupied =>
          match slots_loop env doctor_id duration day_end occupied
                  _slot_locks fuel 0 day_start [] with
          | None => None
          | Some (Raise e) => Some (Escapes e)
          | Some (Ok slots) =>
              Some (Returns (Schemas.JDict
                [("doctor_id", Schemas.JStr doctor_id);
                 ("date", Schemas.JStr date);
                 ("slot_duration_minutes", Schemas.JInt duration);
                 ("total_slots",
                  Schemas.JInt (Z.of_nat (length (List.filter available slots))));
                 ("slots", Schemas.JList (map slot_json slots))]))
          end
      end
  end end end.

(** ** Vocabulary of the statements *)

(** The rows a query selects: what the storage client returns for it when it
    holds [table]. *)
Definition selects (q : query) (a : Appointment) : bool :=
  String.eqb (doctorId a) (q_doctorId q)
  && existsb (String.eqb (status a)) (q_status_in q)
  && match q_dateTime_gte q with Some t => t <=? dateTime a | None => true end
  && match q_dateTime_lt q with Some t => dateTime a <? t | None => true end.

(** Minutes as microseconds. *)
Definition minutes (n : Z) : Z := n * 60000000.

(** An appointment whose end is a representable date. *)
Definition well_formed (a : Appointment) : Prop :=
  plus_minutes (dateTime a) (duration a)
    = Ok (dateTime a + minutes (duration a)).

(** No interval of [occupied] meets the time from [current] to [slot_end]:
    each of them has ended when the slot starts, or starts when the slot has
    ended. *)
Definition clear_of (occupied : list (Z * Z)) (current slot_end : Z) : Prop :=
  ∀ occ_start occ_end, In (occ_start, occ_end) occupied →
    occ_end ≤ current ∨ slot_end ≤ occ_start.

(** The key of the slot that starts at [current], the doctor's id and the
    ISO rendering of the start joined by a colon, holds no lock that outlasts
    the clock reading taken for it, the [i]-th of the loop. *)
Definition unlocked (env : collaborators) (doctor_id : string)
    (_slot_locks : gmap string Z) (i : nat) (current : Z) : Prop :=
  ∀ expiry,
    _slot_locks !! (doctor_id +:+ ":" +:+ isoformat env current) = Some expiry →
    expiry ≤ utcnow env i.

(** How a slot of the grid is listed, as available or as booked. *)
Definition entry (env : collaborators) (current slot_end : Z) (free : bool)
    : slot :=
  {| slot_start := isoformat env current;
     slot_end := isoformat env slot_end;
     available := free;
     reason := if free then None else Some "booked" |}.

(** What holds of a slot in the answer: it is the [k]-th slot of the grid
    that starts at [day_start] and it ends within the day; when marked
    available, no occupied interval meets it and its key held no unexpired
    lock when it was examined; when not, some occupied interval meets it. *)
Definition offered (env : collaborators) (doctor_id : string)
    (duration day_end : Z) (occupied : list (Z * Z))
    (_slot_locks : gmap string Z) (day_start : Z) (s : slot) : Prop :=
  ∃ (k : nat) (current : Z),
    current = day_start + Z.of_nat k * minutes duration ∧
    current + minutes duration ≤ day_end ∧
    s = entry env current (current + minutes duration) (available s) ∧
    if available s
    then clear_of occupied current (current + minutes duration)
         ∧ unlocked env doctor_id _slot_locks k current
    else ¬ clear_of occupied current (current + minutes duration).

(** What the answer does not leave out: every slot of the grid that ends
    within the day is listed as available when it is clear and unlocked, and
    as booked when an occupied interval meets it. *)
Definition listed (env : collaborators) (doctor_id : string)
    (duration day_end : Z) (occupied : list (Z * Z))
    (_slot_locks : gmap string Z) (day_start : Z) (slots : list slot) : Prop :=
  ∀ k : nat,
    let current := day_start + Z.of_nat k * minutes duration in
    current + minutes duration ≤ day_end →
    (clear_of occupied current (current + minutes duration) →
     unlocked env doctor_id _slot_locks k current →
     In (entry env current (current + minutes duration) true) slots) ∧
    (¬ clear_of occupied current (current + minutes duration) →
     In (entry env current (current + minutes duration) false) slots).

(** A day with one appointment from 10:00 to 11:00, a lock on the slot of
    11:00 that has not expired and one on the slot of 15:00 that has. *)
Definition busy_morning : list (Z * Z) := [(at_hour 0 10, at_hour 0 11)].

Definition two_locks : gmap string Z :=
  <["d1:39600000000" := 5]> (<["d1:54000000000" := -1]> ∅).

(** Collaborators that never fail and know every doctor and patient. *)
Definition calm (table : list Appointment) : collaborators :=
  {| audit := Orchestrator.storage_down;
     isoformat := pretty;
     strptime_date := fun _ => Some 0;
     utcnow := fun _ => 0;
     doctor_find_unique := fun _ =>
       Ok (Some {| doctor_name := "Rao"; department := None |});
     patient_find_unique := fun _ =>
       Ok (Some {| patient_name := "Asha"; patient_phone := "98";
                   patient_email := None |});
     appointment_find_many := fun q => Ok (List.filter (selects q) table);
     appointment_create := fun appt =>
       Ok {| id := "a1"; patientId := patient_id appt;
             doctorId := doctor_id appt; dateTime := date_time appt;
             duration := appt_duration appt; status := "SCHEDULED";
             notes := appt_notes appt; createdAt := 0 |};
     send_appointment_confirmation := fun _ _ _ _ _ =>
       Raise (PyException "TwilioRestException") |}.

End Appointments.

(* ===================================================================== *)
(** * Conversation state  ([ai_engine/conversation_manager.py]) *)
(* ===================================================================== *)

Module Conversation.

(** An entry of [messages]: the dict with keys [role], [content],
    [timestamp] and [metadata]. *)
Record Message := {
  role : string;
  content : string;
  timestamp : string;
  metadata : list (string * string);
}.

(** [@dataclass class ConversationContext] *)
Record ConversationContext := {
  session_id : string;
  patient_name : option string;
  patient_phone : option string;
  patient_id : option string;
  messages : list Message;
  current_intent : option string;
  pending_action : option string;
  emergency_mode : bool;
  created_at : Z;
  last_active : Z;
}.

(** [add_message]; [stamp] is [datetime.utcnow().isoformat()] and [now] the
    later reading stored in [last_active]. *)
Definition add_message (self : ConversationContext) (role content : string)
    (metadata : option (list (string * string))) (stamp : string) (now : Z)
    : ConversationContext :=
  {| session_id := session_id self;
     patient_name := patient_name self;
     patient_phone := patient_phone self;
     patient_id := patient_id self;
     messages :=
       (messages self ++
        [{| role := role; content := content; timestamp := stamp;
            metadata := match metadata with
                        | Some m => m
                        | None => []
                        end |}])%list;
     current_intent := current_intent self;
     pending_action := pending_action self;
     emergency_mode := emergency_mode self;
     created_at := created_at self;
     last_active := now |}.

(** The slice [l[k:]] of Python: a negative [k] counts from the end, and
    both ends are clamped. *)
Definition slice_from {A} (k : Z) (l : list A) : list A :=
  let n := Z.of_nat (length l) in
  let start := if k <? 0 then Z.max (n + k) 0 else Z.min k n in
  drop (Z.to_nat start) l.

(** [get_history]: [self.messages[-max_messages:]] *)
Definition get_history (self : ConversationContext) (max_messages : Z)
    : list Message :=
  slice_from (- max_messages) (messages self).

(** [to_llm_messages]; a message of the request is the pair of its role and
    its content. *)
Definition to_llm_messages (self : ConversationContext)
    (system_prompt : string) (max_messages : Z) : list (string * string) :=
  ("system", system_prompt)
  :: map (fun msg => (role msg, content msg)) (get_history self max_messages).

(** ** [class SessionManager]: [_sessions] is a [gmap] from session id to
    context; a context updated through the manager is written back, as the
    dict and the caller share the one object. *)

(** A [str] used as a condition. *)
Definition truthy (s : option string) : bool :=
  match s with
  | Some (String _ _) => true
  | _ => false
  end.

(** [create_session]; [fresh] is [str(uuid.uuid4())], [t1] and [t2] the clock
    readings of the two [default_factory] fields. *)
Definition create_session (session_id patient_name patient_phone : option string)
    (fresh : string) (t1 t2 : Z) (_sessions : gmap string ConversationContext)
    : ConversationContext * gmap string ConversationContext :=
  let session_id :=
    match session_id with
    | None => fresh
    | Some s => s
    end in
  let context :=
    {| session_id := session_id;
       patient_name := patient_name;
       patient_phone := patient_phone;
       patient_id := None;
       messages := [];
       current_intent := None;
       pending_action := None;
       emergency_mode := false;
       created_at := t1;
       last_active := t2 |} in
  (context, <[session_id := context]> _sessions).

(** [get_session] *)
Definition get_session (session_id : string)
    (_sessions : gmap string ConversationContext)
    : option ConversationContext :=
  _sessions !! session_id.

(** [get_or_create_session] *)
Definition get_or_create_session
    (session_id patient_name patient_phone : option string)
    (fresh : string) (t1 t2 : Z) (_sessions : gmap string ConversationContext)
    : ConversationContext * gmap string ConversationContext :=
  match (if truthy session_id
         then _sessions !! default "" session_id else None) with
  | Some ctx =>
      let ctx :=
        if truthy patient_name then
          {| session_id := Conversation.session_id ctx;
             patient_name := patient_name;
             patient_phone := Conversation.patient_phone ctx;
             patient_id := patient_id ctx;
             messages := messages ctx;
             current_intent := current_intent ctx;
             pending_action := pending_action ctx;
             emergency_mode := emergency_mode ctx;
             created_at := created_at ctx;
             last_active := last_active ctx |}
        else ctx in
      let ctx :=
        if truthy patient_phone then
          {| session_id := Conversation.session_id ctx;
             patient_name := Conversation.patient_name ctx;
             patient_phone := patient_phone;
             patient_id := patient_id ctx;
             messages := messages ctx;
             current_intent := current_intent ctx;
             pending_action := pending_action ctx;
             emergency_mode := emergency_mode ctx;
             created_at := created_at ctx;
             last_active := last_active ctx |}
        else ctx in
      (ctx, <[default "" session_id := ctx]> _sessions)
  | None =>
      create_session session_id patient_name patient_phone fresh t1 t2
        _sessions
  end.

(** [remove_session] *)
Definition remove_session (session_id : string)
    (_sessions : gmap string ConversationContext)
    : gmap string ConversationContext :=
  delete session_id _sessions.

(** [active_session_count] *)
Definition active_session_count (_sessions : gmap string ConversationContext)
    : nat :=
  size _sessions.

(** ** Vocabulary of the statements *)

(** A context that has seen nothing yet. *)
Definition blank (session : string) : ConversationContext :=
  {| session_id := session; patient_name := None; patient_phone := None;
     patient_id := None; messages := []; current_intent := None;
     pending_action := None; emergency_mode := false; created_at := 0;
     last_active := 0 |}.

End Conversation.

(* ===================================================================== *)
(** * Response generator  ([ai_engine/response_generator.py]) *)
(* ===================================================================== *)

Module ResponseGenerator.
Import Str Schemas Triage Guardrails Conversation.

(** [SYSTEM_PROMPT] *)
Definition SYSTEM_PROMPT : string :=
  "You are MedAssist AI, a helpful and professional hospital assistant chatbot. You work 24/7 to help patients with hospital-related queries.

YOUR CAPABILITIES:
- Provide hospital information (departments, services, visiting hours)
- Help with appointment booking and scheduling
- Share doctor information and availability
- Guide patients to the right department based on symptoms
- Provide general health information and test preparation instructions
- Answer insurance and billing questions
- Detect emergencies and escalate immediately

STRICT RULES (NEVER VIOLATE):
1. NEVER diagnose diseases or conditions
2. NEVER prescribe or recommend specific medications
3. NEVER downplay potential emergencies
4. ALWAYS recommend consulting a healthcare professional for medical concerns
5. ALWAYS be empathetic and professional
6. If unsure, say so and recommend seeing a doctor
7. For emergencies, IMMEDIATELY advise calling 108 (emergency services)

RESPONSE STYLE:
- Be warm, professional, and concise
- Use clear language, avoiding medical jargon when possible
- Provide actionable next steps
- Keep responses under 150 words unless detail is needed
- Use relevant emojis sparingly for friendliness

HOSPITAL INFO:
- Name: City General Hospital
- Emergency: 108
- Departments: Cardiology, Neurology, Orthopedics, Pediatrics, General Medicine, Dermatology, ENT, Ophthalmology, Psychiatry, Gynecology
- Visiting Hours: 10 AM - 8 PM daily
- Emergency Department: 24/7".

(** [settings.TEMPERATURE] and [settings.MAX_TOKENS], at the values
    [config.py] gives them. *)
Definition TEMPERATURE : float := 0.7%float.
Definition MAX_TOKENS : Z := 1000.

(** The collaborators: the text-generation service, and the knowledge
    retrieved for a message by [_get_rag_context], which catches every
    exception of the vector store and then answers the empty string. *)
Record collaborators := {
  llm_chat : list (string * string) → float → Z → result (option string);
  _get_rag_context : string → AIClassification → string;
}.

(** The templates of [_fallback_response], by intent. *)
Definition responses (intent : IntentType) : option string :=
  match intent with
  | GREETING => Some
      "ğŸ‘‹ Hello! Welcome to **MedAssist AI** - your hospital assistant.

I can help you with:
â€¢ ğŸ“… Booking appointments
â€¢ ğŸ‘¨â€âš•ï¸ Doctor information
â€¢ ğŸ¥ Department guidance
â€¢ ğŸ©º Symptom-based triage
â€¢ ğŸ“‹ Insurance & billing queries
â€¢ ğŸš¨ Emergency assistance

How can I assist you today?"
  | FAREWELL => Some
      "Thank you for using MedAssist AI! ğŸ™

Remember:
â€¢ For emergencies, always call **108**
â€¢ Our hospital is open 24/7 for emergencies
â€¢ Visiting hours: 10 AM - 8 PM

Take care and stay healthy! ğŸ’™"
  | APPOINTMENT_REQUEST => Some
      "ğŸ“… I'd be happy to help with your appointment!

To book an appointment, I'll need:
1. Your preferred **department** or **doctor**
2. **Preferred date and time**
3. Your **name** and **contact number**

Which department or doctor would you like to see?"
  | DOCTOR_INFO => Some
      "ğŸ‘¨â€âš•ï¸ I can help you find doctor information!

Our hospital has specialists in:
â€¢ Cardiology â€¢ Neurology â€¢ Orthopedics
â€¢ Pediatrics â€¢ Dermatology â€¢ ENT
â€¢ General Medicine â€¢ Ophthalmology

Which department or doctor would you like to know about?"
  | SYMPTOM_REPORT => Some
      "I understand you're not feeling well. I'm here to help guide you.

Based on your description, I recommend:
1. ğŸ¥ **Visit our hospital** for a proper consultation
2. ğŸ“ **Call us** if symptoms worsen
3. ğŸš¨ **Call 108** if it becomes an emergency

Would you like me to help book an appointment with a specialist?

âš•ï¸ *I'm an AI assistant and cannot diagnose conditions. Please consult a healthcare professional.*"
  | INSURANCE => Some
      "ğŸ“‹ For insurance and billing questions:

â€¢ **Insurance desk:** Available Mon-Sat, 9 AM - 5 PM
â€¢ **Billing support:** Ground floor, counter 3
â€¢ **Cashless claim:** Bring your insurance card and ID

Would you like to know about a specific insurance plan or billing query?"
  | COMPLAINT => Some
      "I'm sorry to hear about your experience. Your feedback is important to us.

To help resolve this:
1. Please describe your concern in detail
2. Include any relevant dates, department, or staff names
3. Our team will review and respond within 24 hours

You can also reach our Patient Relations team at the front desk."
  | GENERAL_QUERY => Some
      "Thank you for your question! Here's some useful hospital information:

ğŸ¥ **City General Hospital**
â€¢ Emergency: 24/7
â€¢ OPD: 9 AM - 5 PM (Mon-Sat)
â€¢ Visiting Hours: 10 AM - 8 PM
â€¢ Pharmacy: 24/7

Could you tell me more about what specific information you need?"
  | EMERGENCY => None
  end.

(** [_fallback_response]:
    [responses.get(classification.intent, responses[IntentType.GENERAL_QUERY])] *)
Definition _fallback_response (classification : AIClassification) : string :=
  match responses (intent classification) with
  | Some text => text
  | None =>
      match responses GENERAL_QUERY with
      | Some text => text
      | None => ""
      end
  end.

(** [_triage_response]; the assessment never raises, so the [except] branch
    is not taken. *)
Definition _triage_response (message : string)
    (classification : AIClassification) : string :=
  let result := assess message in
  let parts : list string := [] in
  let parts :=
    if String.eqb (severity_level result) "CRITICAL" then
      extend parts
        ["ğŸš¨ **This requires immediate medical attention.**
";
         "ğŸ“ **Call 108 (Emergency Services) NOW.**

"]
    else if String.eqb (severity_level result) "URGENT" then
      extend parts
        ["âš ï¸ **Your symptoms suggest you should see a doctor soon.**

"]
    else
      extend parts
        ["Thank you for describing your symptoms. Here's my assessment:

"] in
  let parts :=
    extend parts
      ["**Severity:** " +:+ severity_level result +:+ "
";
       "**Recommended Department:** " +:+ recommended_department result
       +:+ "

"] in
  let parts :=
    match first_aid_tips result with
    | [] => parts
    | tips =>
        extend
          (extend (extend parts ["**Helpful guidance:**
"])
             (map (fun tip => "â€¢ " +:+ tip +:+ "
")
                (firstn 4 tips)))
          ["
"]
    end in
  let parts :=
    extend parts
      ["Would you like me to **book an appointment** with our "
       +:+ recommended_department result
       +:+ " department?

âš•ï¸ *I cannot diagnose conditions. Please consult a healthcare professional.*"] in
  join "" parts.

(** The loop [for tip in tips: response += f"- {tip}\n"]. *)
Definition add_tips (response : string) (tips : list string) : string :=
  fold_left (fun response tip => response +:+ "- " +:+ tip +:+ "
")
    tips response.

(** [_emergency_response] *)
Definition _emergency_response (classification : AIClassification)
    (message : string) : string :=
  let dept := Orchestrator.or_else (Schemas.department classification) "Emergency" in
  let result := assess message in
  let first_aid_tips := first_aid_tips result in
  let dept :=
    if negb (String.eqb (recommended_department result) "General Medicine")
    then recommended_department result else dept in
  let response :=
    "ğŸš¨ **EMERGENCY ALERT** ğŸš¨

This appears to be a medical emergency. Your safety is our top priority.

**IMMEDIATE ACTIONS:**
1. ğŸ“ **Call 108 (Emergency Services) NOW**
2. If someone is with you, ask them to call while you stay with the patient
3. Do not move the patient unless they are in immediate danger

**Recommended Department:** "
    +:+ dept +:+ "

" in
  let response :=
    if Schemas.needs_ambulance classification then
      response +:+
      "ğŸš‘ **Ambulance has been flagged.** Our emergency team has been notified.

Please provide:
- Your current location
- Contact phone number
- Brief description of the patient's condition

"
    else response in
  let response :=
    match first_aid_tips with
    | _ :: _ =>
        add_tips (response +:+ "âš ï¸ *While waiting for help:*
") (firstn 5 first_aid_tips)
        +:+ "
"
    | [] =>
        response +:+
        "âš ï¸ *While waiting for help:*
- Keep the patient calm and comfortable
- Monitor their breathing
- Do not give food or water
- Note the time symptoms started

"
    end in
  response +:+ "ğŸ¥ *Our emergency staff has been alerted and are standing by.*".

(** The system prompt of a request: [SYSTEM_PROMPT], extended with the
    retrieved knowledge if there is any. *)
Definition system_prompt (rag_context : string) : string :=
  let system := SYSTEM_PROMPT in
  match rag_context with
  | EmptyString => system
  | _ => system +:+ "

RELEVANT HOSPITAL KNOWLEDGE:
" +:+ rag_context
  end.

(** The [messages] sent to the text-generation service: the system prompt,
    the last eight messages of the conversation and the message itself. *)
Definition llm_messages (rag_context message : string)
    (context : ConversationContext) : list (string * string) :=
  (to_llm_messages context (system_prompt rag_context) 8
   ++ [("user", message)])%list.

(** [generate_response] *)
Definition generate_response (env : collaborators) (message : string)
    (classification : AIClassification) (context : ConversationContext)
    : string :=
  match intent classification with
  | EMERGENCY => _emergency_response classification message
  | SYMPTOM_REPORT => _triage_response message classification
  | _ =>
      let rag_context := _get_rag_context env message classification in
      match llm_chat env (llm_messages rag_context message context)
              TEMPERATURE MAX_TOKENS with
      | Ok (Some ai_text) => (check_guardrails ai_text).1
      | Ok None => _fallback_response classification
      | Raise _ => _fallback_response classification
      end
  end.

(** ** Vocabulary of the statements *)

(** A classification that carries nothing but its intent. *)
Definition plain (i : IntentType) : AIClassification :=
  {| intent := i; urgency := NON_URGENT; department := None;
     Schemas.needs_ambulance := false; confidence := 0.5%float;
     entities := None |}.

(** A service that answers every request with the same text, and one that
    is absent. *)
Definition parrot (text : string) : collaborators :=
  {| llm_chat := fun _ _ _ => Ok (Some text);
     _get_rag_context := fun _ _ => "" |}.

Definition silent : collaborators :=
  {| llm_chat := fun _ _ _ => Ok None;
     _get_rag_context := fun _ _ => "" |}.

End ResponseGenerator.

(* ===================================================================== *)
(** * Chat endpoint  ([api/chat.py]) *)
(* ===================================================================== *)

Module Chat.
Import Str Schemas Conversation.

(** [c.upper()] on a character, and [s.upper()]. *)
Definition upper_char (c : ascii) : ascii :=
  let n := nat_of_ascii c in
  if (97 <=? n)%nat && (n <=? 122)%nat then ascii_of_nat (n - 32) else c.

Fixpoint upper (s : string) : string :=
  match s with
  | EmptyString => EmptyString
  | String c s' => String (upper_char c) (upper s')
  end.

(** [s.replace(c, "")] for a one-character [c]. *)
Fixpoint remove_char (c : ascii) (s : string) : string :=
  match s with
  | EmptyString => EmptyString
  | String a s' =>
      if Ascii.eqb a c then remove_char c s' else String a (remove_char c s')
  end.

(** [class EmergencySeverity(str, Enum)], the values. *)
Definition EmergencySeverity_values : list string :=
  ["NON_URGENT"; "URGENT"; "CRITICAL"].

(** [class ChatMessage(BaseModel)] *)
Record ChatMessage := {
  chat_message : string;
  chat_session_id : option string;
  chat_patient_name : option string;
  chat_patient_phone : option string;
}.

(** [class ChatResponse(BaseModel)] *)
Record ChatResponse := {
  message : string;
  response_session_id : string;
  response_intent : option IntentType;
  response_urgency : option UrgencyLevel;
  is_emergency : bool;
  suggestions : option (list string);
  response_timestamp : Z;
}.

(** The [data] of [db.emergencycase.create] in [_handle_emergency]. *)
Record emergency_data := {
  severity : string;
  symptoms : string;
  contactNumber : string;
  location : option string;
  notes : string;
}.

(** The [data] of [db.conversation.create]. *)
Record conversation_data := {
  sessionId : string;
  patientId : option string;
  saved_message : string;
  aiResponse : string;
  saved_intent : string;
  saved_urgency : string;
}.

(** The collaborators of the endpoint.  A websocket is known by a number;
    [send_json ws message] is the outcome of [ws.send_json(message)].
    [utcnow] gives the clock reading taken at each place of the code that
    reads the clock (each is reached at most once in a request):
    0 and 1 the two fields of a new context, 2 and 3 the user message, 4 and
    5 the assistant message, 6 the alert, 7 the response. *)
Record collaborators := {
  classifier : Classifier.collaborators;
  generator : ResponseGenerator.collaborators;
  audit : Orchestrator.collaborators;
  emergencycase_create : emergency_data → result string;
  conversation_create : conversation_data → result unit;
  send_json : nat → json → result unit;
  uuid4 : string;
  utcnow : nat → Z;
  isoformat : Z → string;
}.

(** The state the endpoint shares with the other requests: the sessions of
    [session_manager], the admin sockets of [manager], and, as a record of
    what was done, the messages delivered to admin sockets, latest last. *)
Record world := {
  _sessions : gmap string ConversationContext;
  admin_connections : list nat;
  delivered : list (nat * json);
}.

(** [ConnectionManager.broadcast_to_admins]: every admin socket is tried, in
    the order the set yields them; those whose send raises are dropped. *)
Fixpoint broadcast (env : collaborators) (message : json) (sockets : list nat)
    : list nat * list (nat * json) :=
  match sockets with
  | [] => ([], [])
  | ws :: rest =>
      let '(disconnected, sent) := broadcast env message rest in
      match send_json env ws message with
      | Ok _ => (disconnected, (ws, message) :: sent)
      | Raise _ => (ws :: disconnected, sent)
      end
  end.

Definition broadcast_to_admins (env : collaborators) (message : json)
    (w : world) : world :=
  let '(disconnected, sent) := broadcast env message (admin_connections w) in
  {| _sessions := _sessions w;
     admin_connections :=
       List.filter (fun ws => negb (existsb (Nat.eqb ws) disconnected))
         (admin_connections w);
     delivered := (delivered w ++ sent)%list |}.

(** [classification.urgency.value.upper().replace("_", "")] *)
Definition case_severity (classification : AIClassification) : string :=
  remove_char "_" (upper (UrgencyLevel_value (urgency classification))).

Definition json_option (s : option string) : json :=
  match s with
  | Some v => JStr v
  | None => JNull
  end.

(** The alert sent to the admin dashboards. *)
Definition alert (env : collaborators) (emergency_id session_id message : string)
    (classification : AIClassification) (context : ConversationContext)
    : json :=
  JDict
    [("type", JStr "EMERGENCY_ALERT");
     ("data", JDict
        [("id", JStr emergency_id);
         ("session_id", JStr session_id);
         ("severity", JStr (UrgencyLevel_value (urgency classification)));
         ("symptoms", JStr (take 200 message));
         ("department", json_option (department classification));
         ("patient_name",
          JStr (Orchestrator.or_else (patient_name context) "Unknown"));
         ("patient_phone",
          JStr (Orchestrator.or_else (patient_phone context) "Unknown"));
         ("timestamp", JStr (isoformat env (utcnow env 6)));
         ("needs_ambulance", JBool (needs_ambulance classification))])].

(** The [data] of the emergency case. *)
Definition emergency_case (session_id message : string)
    (classification : AIClassification) (context : ConversationContext)
    : emergency_data :=
  {| severity := case_severity classification;
     symptoms := take 500 message;
     contactNumber := Orchestrator.or_else (patient_phone context) "UNKNOWN";
     location := None;
     notes := "Auto-detected from chat session " +:+ session_id |}.

(** [get_db()] followed by [db.emergencycase.create(data=...)]; the value is
    the [id] of the new case. *)
Definition create_emergency_case (env : collaborators)
    (session_id message : string) (classification : AIClassification)
    (context : ConversationContext) : result string :=
  _ ← Orchestrator.get_db (audit env);
  emergencycase_create env
    (emergency_case session_id message classification context).

(** [_handle_emergency]: the whole body is under [try ... except Exception],
    so nothing escapes; the alert is built from the stored case. *)
Definition _handle_emergency (env : collaborators)
    (session_id message : string) (classification : AIClassification)
    (context : ConversationContext) (w : world) : world :=
  match create_emergency_case env session_id message classification context
  with
  | Raise _ => w
  | Ok emergency_id =>
      let w := broadcast_to_admins env
                 (alert env emergency_id session_id message classification
                    context) w in
      match Orchestrator.log_action (audit env) "EMERGENCY_DETECTED"
              "emergency_cases"
              [("emergency_id", JStr emergency_id);
               ("session_id", JStr session_id);
               ("severity", JStr (UrgencyLevel_value (urgency classification)))]
      with
      | Ok _ => w
      | Raise _ => w
      end
  end.

(** [_save_conversation]: nothing escapes. *)
Definition _save_conversation (env : collaborators) (session_id : string)
    (context : ConversationContext) (message ai_response : string)
    (classification : AIClassification) : result unit :=
  try_except
    (_ ← Orchestrator.get_db (audit env);
     conversation_create env
       {| sessionId := session_id;
          patientId := patient_id context;
          saved_message := take 2000 message;
          aiResponse := take 2000 ai_response;
          saved_intent := IntentType_value (intent classification);
          saved_urgency := UrgencyLevel_value (urgency classification) |})
    (fun _ => Ok ()).

(** [_get_suggestions] *)
Definition _get_suggestions (classification : AIClassification) : list string :=
  match intent classification with
  | GREETING =>
      ["Book an appointment"; "Find a doctor"; "I have a symptom";
       "Hospital information"]
  | APPOINTMENT_REQUEST =>
      ["Cardiology"; "General Medicine"; "Orthopedics";
       "Show all departments"]
  | DOCTOR_INFO =>
      ["Show available doctors"; "Book appointment";
       "Department information"]
  | SYMPTOM_REPORT =>
      ["Book appointment now"; "Find a specialist"; "Is this an emergency?"]
  | EMERGENCY => ["Share my location"; "Call 108"; "Contact family"]
  | INSURANCE => ["Check coverage"; "Billing query"; "Cashless process"]
  | FAREWELL => []
  | GENERAL_QUERY | COMPLAINT => ["Help"; "Contact us"]
  end.

(** [context.emergency_mode = True] *)
Definition set_emergency_mode (self : ConversationContext)
    : ConversationContext :=
  {| session_id := session_id self;
     patient_name := patient_name self;
     patient_phone := patient_phone self;
     patient_id := patient_id self;
     messages := messages self;
     current_intent := current_intent self;
     pending_action := pending_action self;
     emergency_mode := true;
     created_at := created_at self;
     last_active := last_active self |}.

(** The world with the context of a session replaced: the context is the
    object the session table holds, so each change to it shows there. *)
Definition store (session_id : string) (context : ConversationContext)
    (w : world) : world :=
  {| _sessions := <[session_id := context]> (_sessions w);
     admin_connections := admin_connections w;
     delivered := delivered w |}.

(** [send_message], the REST endpoint. *)
Definition send_message (env : collaborators) (chat : ChatMessage) (w : world)
    : result ChatResponse * world :=
  let session_id := Orchestrator.or_else (chat_session_id chat) (uuid4 env) in
  let '(context, sessions) :=
    get_or_create_session (Some session_id) (chat_patient_name chat)
      (chat_patient_phone chat) (uuid4 env) (utcnow env 0) (utcnow env 1)
      (_sessions w) in
  let w := {| _sessions := sessions;
              admin_connections := admin_connections w;
              delivered := delivered w |} in
  let context :=
    add_message context "user" (chat_message chat) None
      (isoformat env (utcnow env 2)) (utcnow env 3) in
  let w := store session_id context w in
  match Classifier.classify_intent (classifier env) (chat_message chat) with
  | Raise e => (Raise e, w)
  | Ok classification =>
      let ai_response :=
        ResponseGenerator.generate_response (generator env)
          (chat_message chat) classification context in
      let context :=
        add_message context "assistant" ai_response
          (Some [("intent", IntentType_value (intent classification));
                 ("urgency", UrgencyLevel_value (urgency classification))])
          (isoformat env (utcnow env 4)) (utcnow env 5) in
      let w := store session_id context w in
      let is_emergency :=
        match intent classification with
        | EMERGENCY => true
        | _ => false
        end in
      let '(context, w) :=
        if is_emergency then
          let context := set_emergency_mode context in
          (context,
           _handle_emergency env session_id (chat_message chat)
             classification context (store session_id context w))
        else (context, w) in
      match _save_conversation env session_id context (chat_message chat)
              ai_response classification with
      | Raise e => (Raise e, w)
      | Ok _ =>
          (Ok {| message := ai_response;
                 response_session_id := session_id;
                 response_intent := Some (intent classification);
                 response_urgency := Some (urgency classification);
                 is_emergency := is_emergency;
                 suggestions := Some (_get_suggestions classification);
                 response_timestamp := utcnow env 7 |},
           w)
      end
  end.

(** ** Vocabulary of the statements *)

(** An admin socket that takes a message. *)
Definition accepts (env : collaborators) (message : json) (ws : nat) : bool :=
  match send_json env ws message with
  | Ok _ => true
  | Raise _ => false
  end.

(** Collaborators with no model and no storage. *)
Definition offline : collaborators :=
  {| classifier := Classifier.unavailable;
     generator :=
       {| ResponseGenerator.llm_chat := fun _ _ _ => Ok None;
          ResponseGenerator._get_rag_context := fun _ _ => "" |};
     audit := Orchestrator.storage_down;
     emergencycase_create := fun _ => Raise (PyException "PrismaError");
     conversation_create := fun _ => Raise (PyException "PrismaError");
     send_json := fun _ _ => Ok ();
     uuid4 := "7f1c";
     utcnow := fun _ => 0;
     isoformat := fun _ => "1970-01-01T00:00:00" |}.

Definition no_sessions : world :=
  {| _sessions := ∅; admin_connections := [1%nat; 2%nat]; delivered := [] |}.

End Chat.

(* ===================================================================== *)
(** * Rate limiter  ([utils/rate_limiter.py]) *)
(* ===================================================================== *)

Module RateLimiter.
Import Str Appointments.

(** [settings.RATE_LIMIT_PER_MINUTE], at the value [config.py] gives it. *)
Definition RATE_LIMIT_PER_MINUTE : Z := 60.

(** The fields of [RateLimitMiddleware] set by [__init__]:
    [max_requests or settings.RATE_LIMIT_PER_MINUTE] and the window. *)
Record RateLimitMiddleware := {
  max_requests : Z;
  window_seconds : float;
}.

Definition __init__ (max_requests : option Z) : RateLimitMiddleware :=
  {| max_requests :=
       match max_requests with
       | None | Some 0 => RATE_LIMIT_PER_MINUTE
       | Some n => n
       end;
     window_seconds := 60%float |}.

(** What the middleware reads of a request. *)
Record Request := {
  path : string;
  x_forwarded_for : option string;
  client_host : option string;
}.

(** [s.split(",")[0]] *)
Fixpoint before_comma (s : string) : string :=
  match s with
  | EmptyString => EmptyString
  | String a s' =>
      if Ascii.eqb a "," then EmptyString else String a (before_comma s')
  end.

(** [_get_client_ip] *)
Definition _get_client_ip (request : Request) : string :=
  match x_forwarded_for request with
  | Some (String c s) => strip (before_comma (String c s))
  | _ =>
      match client_host request with
      | Some host => host
      | None => "unknown"
      end
  end.

(** [self._requests[ip]] on the [defaultdict(list)]. *)
Definition stamps (ip : string) (_requests : gmap string (list float))
    : list float :=
  default [] (_requests !! ip).

(** [_clean_old_entries] *)
Definition _clean_old_entries (self : RateLimitMiddleware) (ip : string)
    (now : float) (_requests : gmap string (list float))
    : gmap string (list float) :=
  let cutoff := (now - window_seconds self)%float in
  <[ip := List.filter (fun t => (cutoff <? t)%float) (stamps ip _requests)]>
    _requests.

Definition exempt (path : string) : bool :=
  existsb (String.eqb path)
    ["/"; "/health"; "/api/docs"; "/api/redoc"; "/openapi.json"].

(** What [dispatch] hands back when the request is let through: the response
    of [call_next] with the two headers set to these values. *)
Record limited (R : Type) := {
  response_of : R;
  X_RateLimit_Limit : option string;
  X_RateLimit_Remaining : option string;
}.
Arguments response_of {R} _.
Arguments X_RateLimit_Limit {R} _.
Arguments X_RateLimit_Remaining {R} _.

(** [dispatch]; [now] is the reading of [time.time()]. *)
Definition dispatch {R} (self : RateLimitMiddleware)
    (call_next : Request → result R) (request : Request) (now : float)
    (_requests : gmap string (list float))
    : response (limited R) * gmap string (list float) :=
  if exempt (path request) then
    (lift (r ← call_next request;
           Ok {| response_of := r; X_RateLimit_Limit := None;
                 X_RateLimit_Remaining := None |}),
     _requests)
  else
    let ip := _get_client_ip request in
    let _requests := _clean_old_entries self ip now _requests in
    if max_requests self <=? Z.of_nat (length (stamps ip _requests)) then
      (HTTPException 429
         ("Rate limit exceeded. Max " +:+ pretty (max_requests self)
          +:+ " requests per minute."),
       _requests)
    else
      let _requests :=
        <[ip := (stamps ip _requests ++ [now])%list]> _requests in
      (lift (r ← call_next request;
             Ok {| response_of := r;
                   X_RateLimit_Limit := Some (pretty (max_requests self));
                   X_RateLimit_Remaining :=
                     Some (pretty (max_requests self
                                   - Z.of_nat (length (stamps ip _requests)))) |}),
       _requests).

(** A run of the middleware over the requests in the order they arrive, each
    with its clock reading. *)
Fixpoint serve {R} (self : RateLimitMiddleware)
    (call_next : Request → result R) (arrivals : list (Request * float))
    (_requests : gmap string (list float))
    : list (response (limited R)) * gmap string (list float) :=
  match arrivals with
  | [] => ([], _requests)
  | (request, now) :: rest =>
      let '(r, _requests) := dispatch self call_next request now _requests in
      let '(rs, _requests) := serve self call_next rest _requests in
      (r :: rs, _requests)
  end.

(** ** Vocabulary of the statements *)

(** Every list of the table holds at most [bound] stamps. *)
Definition within (bound : Z) (_requests : gmap string (list float)) : Prop :=
  ∀ ip l, _requests !! ip = Some l → Z.of_nat (length l) ≤ bound.

(** What a response let through says of the remaining quota. *)
Definition remaining_ok {R} (self : RateLimitMiddleware)
    (r : response (limited R)) : Prop :=
  match r with
  | Returns x =>
      match X_RateLimit_Remaining x with
      | Some text => ∃ k, 0 ≤ k < max_requests self ∧ text = pretty k
      | None => X_RateLimit_Limit x = None
      end
  | _ => True
  end.

End RateLimiter.

(* ===================================================================== *)
(** * The orchestrator with its storage calls on record
      ([triage/emergency_orchestrator.py], [utils/audit_logger.py]) *)
(* ===================================================================== *)

(** The same code as in [Orchestrator], followed once more with the calls it
    makes on the storage client written down, so that what it writes can be
    stated and not only what it returns. *)

Module Recorded.
Import Str Schemas Triage Orchestrator.

(** A call on the storage client: [db.emergencycase.create(data=...)] or
    [db.auditlog.create(data=...)]. *)
Inductive storage_call :=
| EmergencyCaseCreate (data : case_data)
| AuditLogCreate (action resource : string) (details : list (string * json)).

(** A computation with the calls made while it ran, in order; the calls made
    before an exception was raised stay on record. *)
Record recorded (A : Type) := Recording {
  outcome : result A;
  calls : list storage_call;
}.
Arguments Recording {A} outcome calls.
Arguments outcome {A} _.
Arguments calls {A} _.

#[global] Instance recorded_ret : MRet recorded := λ A a, Recording (Ok a) [].
#[global] Instance recorded_bind : MBind recorded := λ A B k c,
  match outcome c with
  | Ok a => Recording (outcome (k a)) (calls c ++ calls (k a))
  | Raise e => Recording (Raise e) (calls c)
  end.

(** A step that makes no call on the storage. *)
Definition quiet {A} (r : result A) : recorded A := Recording r [].

(** [try: body  except Exception as e: handler(e)] *)
Definition try_except {A} (body : recorded A) (handler : exn → recorded A)
    : recorded A :=
  match outcome body with
  | Ok a => body
  | Raise e =>
      Recording (outcome (handler e)) (calls body ++ calls (handler e))
  end.

(** [await db.emergencycase.create(data=data)] *)
Definition emergencycase_create (env : collaborators) (data : case_data)
    : recorded string :=
  Recording (Orchestrator.emergencycase_create env data)
    [EmergencyCaseCreate data].

(** [await db.auditlog.create(data=...)] *)
Definition auditlog_create (env : collaborators) (action resource : string)
    (details : list (string * json)) : recorded unit :=
  Recording (Orchestrator.auditlog_create env action resource details)
    [AuditLogCreate action resource details].

(** [log_action] *)
Definition log_action (env : collaborators) (action resource : string)
    (details : list (string * json)) : recorded unit :=
  try_except
    (_ ← quiet (get_db env); auditlog_create env action resource details)
    (fun _ => mret ()).

(** [_create_emergency_case] *)
Definition _create_emergency_case (env : collaborators) (triage : TriageResult)
    (context : ConversationContext) (message : string)
    : recorded (option string) :=
  try_except
    (_ ← quiet (get_db env);
     case_id ← emergencycase_create env
       {| patientId := patient_id context;
          severity := severity_map_get (severity_level triage);
          symptoms := or_else (Some (join ", " (detected_symptoms triage)))
                              (take 500 message);
          contactNumber := or_else (patient_phone context) "UNKNOWN";
          notes := triage_notes triage |};
     _ ← log_action env "EMERGENCY_CASE_CREATED" "emergency_cases"
           [("case_id", JStr case_id);
            ("severity", JStr (severity_level triage));
            ("score", JFloat (severity_score triage));
            ("department", JStr (recommended_department triage));
            ("session_id", JStr (session_id context))];
     mret (Some case_id))
    (fun _ => mret None).

(** [EmergencyOrchestrator.evaluate_and_respond] *)
Definition evaluate_and_respond (env : collaborators) (message : string)
    (context : ConversationContext) : recorded EmergencyAction :=
  let triage := assess message in
  let is_emergency := String.eqb (severity_level triage) "CRITICAL" in
  let is_urgent := String.eqb (severity_level triage) "URGENT" in
  let guidance := _build_patient_guidance triage in
  emergency_id ←
    (if is_emergency || is_urgent
     then _create_emergency_case env triage context message
     else mret None);
  let escalation :=
    if is_emergency
    then _build_escalation_message env triage context emergency_id
    else "" in
  mret {| is_emergency := is_emergency;
          triage := triage;
          dispatch_ambulance := needs_ambulance triage;
          alert_staff := is_emergency;
          escalation_message := escalation;
          patient_guidance := guidance;
          emergency_case_id := emergency_id |}.

(** ** Vocabulary of the statements *)

(** A storage on which every call succeeds. *)
Definition storage_up : collaborators :=
  {| get_db := Ok ();
     Orchestrator.emergencycase_create := fun _ => Ok "case-1";
     Orchestrator.auditlog_create := fun _ _ _ => Ok ();
     utcnow_isoformat := "2030-06-01T00:00:00";
     str_float := fun _ => "0.1" |}.

End Recorded.

(* ===================================================================== *)
(** * Facts about Python strings *)
(* ===================================================================== *)

Module StrFacts.
Import Str.

Example lower_mixed : lower "Chest PAIN!" = "chest pain!".
Proof. reflexivity. Qed.
Example contains_mid : contains "pain" "chest pain now" = true.
Proof. reflexivity. Qed.
Example contains_not : contains "pain" "pai n" = false.
Proof. reflexivity. Qed.
Example strip_both : strip "  a b  " = "a b".
Proof. reflexivity. Qed.
Example rsplit_overlap : rsplit1_first "```" "x````" = "x`".
Proof. reflexivity. Qed.
Example join3 : join ", " ["a"; "b"; "c"] = "a, b, c".
Proof. reflexivity. Qed.

(** ** Facts about concatenation and containment *)

Lemma app_nil_r (s : string) : s +:+ "" = s.
Proof. induction s; simpl; congruence. Qed.

Lemma app_assoc (a b c : string) : (a +:+ b) +:+ c = a +:+ (b +:+ c).
Proof. induction a; simpl; congruence. Qed.

Lemma startswith_app (p s : string) : startswith p (p +:+ s) = true.
Proof.
  induction p as [|a p IH]; simpl; [done|].
  by rewrite Ascii.eqb_refl, IH.
Qed.

Lemma startswith_spec (p s : string) :
  startswith p s = true ↔ ∃ r, s = p +:+ r.
Proof.
  split.
  - revert s. induction p as [|a p IH]; intros s H; simpl in *.
    + by exists s.
    + destruct s as [|b s]; [discriminate|].
      apply andb_true_iff in H as [Hab Hp].
      apply Ascii.eqb_eq in Hab. subst b.
      destruct (IH s Hp) as [r ->]. by exists r.
  - intros [r ->]. apply startswith_app.
Qed.

Lemma contains_startswith (sub s : string) :
  startswith sub s = true → contains sub s = true.
Proof. intros H. destruct s; simpl; by rewrite H. Qed.

Lemma contains_spec (sub s : string) :
  contains sub s = true ↔ ∃ l r, s = l +:+ sub +:+ r.
Proof.
  split.
  - induction s as [|c s IH]; simpl; intros H.
    + apply orb_true_iff in H as [H|H]; [|discriminate].
      apply startswith_spec in H as [r Hr]. by exists "", r.
    + apply orb_true_iff in H as [H|H].
      * apply startswith_spec in H as [r Hr]. by exists "", r.
      * destruct (IH H) as (l & r & ->). by exists (String c l), r.
  - intros (l & r & ->). induction l as [|c l IH]; simpl.
    + apply contains_startswith, startswith_app.
    + rewrite IH. apply orb_true_r.
Qed.

Lemma contains_app_r (sub l : string) : contains sub (l +:+ sub) = true.
Proof.
  apply contains_spec. exists l, "". by rewrite app_nil_r.
Qed.

Lemma endswith_spec (p s : string) :
  endswith p s = true ↔ ∃ l, s = l +:+ p.
Proof.
  split.
  - induction s as [|c s IH]; simpl; intros H.
    + apply orb_true_iff in H as [H|H]; [|discriminate].
      apply String.eqb_eq in H. subst. by exists "".
    + apply orb_true_iff in H as [H|H].
      * apply String.eqb_eq in H. subst. by exists "".
      * destruct (IH H) as [l ->]. by exists (String c l).
  - intros [l ->]. induction l as [|c l IH]; simpl.
    + destruct p; simpl; [done|]. by rewrite Ascii.eqb_refl, String.eqb_refl.
    + rewrite IH. apply orb_true_r.
Qed.

End StrFacts.

(* ===================================================================== *)
(** * The slot lock excludes *)
(* ===================================================================== *)

Module SlotLockSpec.
Import SlotLock.

Lemma acquire_held d t now (locks : gmap string Z) expiry :
  locks !! _get_lock_key d t = Some expiry →
  now ≤ expiry →
  _acquire_lock d t now locks = (false, locks).
Proof.
  intros Hk Hle. unfold _acquire_lock. rewrite Hk.
  destruct (Z.ltb_spec expiry now) as [Hlt|_]; [lia|].
  by rewrite Hk.
Qed.

Lemma acquire_other d t now (locks : gmap string Z) key :
  _get_lock_key d t ≠ key →
  (_acquire_lock d t now locks).2 !! key = locks !! key.
Proof.
  intros Hne. unfold _acquire_lock.
  destruct (locks !! _get_lock_key d t) as [e|] eqn:Hk.
  - destruct (e <? now).
    + rewrite lookup_delete_eq. simpl.
      rewrite lookup_insert_ne by done. by rewrite lookup_delete_ne.
    + rewrite Hk. done.
  - rewrite Hk. simpl. by rewrite lookup_insert_ne.
Qed.

Lemma step_keeps_lock key expiry c (locks : gmap string Z) :
  locks !! key = Some expiry →
  undisturbed key expiry c →
  refused key c (step c locks).1 ∧ (step c locks).2 !! key = Some expiry.
Proof.
  intros Hk Hu. destruct c as [d t now | d t]; simpl in *.
  - destruct (decide (_get_lock_key d t = key)) as [He|Hne].
    + subst key. rewrite (acquire_held d t now locks expiry Hk (Hu eq_refl)).
      simpl. split; [done|exact Hk].
    + pose proof (acquire_other d t now locks key Hne) as Ho.
      destruct (_acquire_lock d t now locks) as [b l']. simpl in *.
      split; [intros; contradiction | congruence].
  - split; [done|]. unfold _release_lock. by rewrite lookup_delete_ne.
Qed.

Lemma run_keeps_lock key expiry cs : ∀ (locks : gmap string Z),
  locks !! key = Some expiry →
  Forall (undisturbed key expiry) cs →
  Forall2 (refused key) cs (run cs locks).1 ∧
  (run cs locks).2 !! key = Some expiry.
Proof.
  induction cs as [|c cs IH]; intros locks Hk Hall; simpl.
  - split; [constructor | exact Hk].
  - inversion Hall as [|? ? Hc Hcs]; subst.
    destruct (step_keeps_lock key expiry c locks Hk Hc) as [Hr Hk1].
    destruct (step c locks) as [r locks1]. simpl in *.
    destruct (IH locks1 Hk1 Hcs) as [Hrs Hk2].
    destruct (run cs locks1) as [rs locks2]. simpl in *.
    split; [by constructor | exact Hk2].
Qed.

(** C2.  After a successful acquire of a key at time [now0], and for every
    sequence of later acquire and release calls (on any keys) that contains no
    release of that key and no acquire of it after the expiry
    [now0 + 120 s] has elapsed: every acquire of the key in the sequence
    returns [False], and the table still holds the one entry installed by the
    successful acquire. *)
Theorem acquire_excludes_until_release_or_expiry
    (d t : string) (now0 : Z) (locks locks1 : gmap string Z) (cs : list call) :
  _acquire_lock d t now0 locks = (true, locks1) →
  let key := _get_lock_key d t in
  let expiry := now0 + timedelta_seconds LOCK_DURATION_SECONDS in
  Forall (undisturbed key expiry) cs →
  Forall2 (refused key) cs (run cs locks1).1 ∧
  (run cs locks1).2 !! key = Some expiry.
Proof.
  intros Hacq key expiry Hall.
  apply run_keeps_lock; [|exact Hall].
  unfold _acquire_lock in Hacq. fold key in Hacq.
  destruct (locks !! key) as [e|] eqn:Hk.
  - destruct (e <? now0).
    + rewrite lookup_delete_eq in Hacq. inversion Hacq; subst.
      apply lookup_insert_eq.
    + rewrite Hk in Hacq. discriminate.
  - rewrite Hk in Hacq. inversion Hacq; subst. apply lookup_insert_eq.
Qed.

Lemma acquire_excludes_witness :
  let key := "doc1:2025-01-01T10:00:00" in
  let locks1 := <[key := 5 + 120000000]> (∅ : gmap string Z) in
  let cs := [Acquire "doc1" "2025-01-01T10:00:00" 7;
             Acquire "doc1" "2025-01-01T10:30:00" 8;
             Release "doc1" "2025-01-01T10:30:00";
             Acquire "doc1" "2025-01-01T10:00:00" 120000005] in
  _acquire_lock "doc1" "2025-01-01T10:00:00" 5 ∅ = (true, locks1) ∧
  Forall (undisturbed key (5 + 120000000)) cs ∧
  Forall2 (refused key) cs (run cs locks1).1 ∧
  (run cs locks1).2 !! key = Some (5 + 120000000).
Proof.
  intros key locks1 cs.
  assert (_acquire_lock "doc1" "2025-01-01T10:00:00" 5 ∅ = (true, locks1))
    as Hacq by reflexivity.
  assert (Forall (undisturbed key (5 + 120000000)) cs) as Hcs.
  { repeat constructor; simpl; try (intros _; lia); try discriminate. }
  split; [exact Hacq|]. split; [exact Hcs|].
  exact (acquire_excludes_until_release_or_expiry
           "doc1" "2025-01-01T10:00:00" 5 ∅ locks1 cs Hacq Hcs).
Defined.

Example same_slot_refused_other_slot_granted :
  (run [Acquire "doc1" "2025-01-01T10:00:00" 5;
        Acquire "doc1" "2025-01-01T10:00:00" 6;
        Acquire "doc1" "2025-01-01T10:30:00" 7;
        Release "doc1" "2025-01-01T10:00:00";
        Acquire "doc1" "2025-01-01T10:00:00" 8] ∅).1
  = [Some true; Some false; Some true; None; Some true].
Proof. reflexivity. Qed.

(** C9.  When the stored expiry of a key has elapsed at the time of the call,
    acquire returns [True] without any release: the stale entry is purged and
    a fresh one with expiry [now + 120 s] is installed; nothing else in the
    table changes. *)
Theorem acquire_after_expiry
    (d t : string) (now expiry : Z) (locks : gmap string Z) :
  locks !! _get_lock_key d t = Some expiry →
  expiry < now →
  _acquire_lock d t now locks =
    (true, <[_get_lock_key d t := now + timedelta_seconds LOCK_DURATION_SECONDS]>
             (delete (_get_lock_key d t) locks))
  ∧ (_acquire_lock d t now locks).2 !! _get_lock_key d t = Some (now + 120000000)
  ∧ ∀ k, k ≠ _get_lock_key d t →
         (_acquire_lock d t now locks).2 !! k = locks !! k.
Proof.
  intros Hk Hlt. unfold _acquire_lock. rewrite Hk.
  destruct (Z.ltb_spec expiry now) as [_|Hge]; [|lia].
  rewrite lookup_delete_eq. simpl. split; [done|]. split.
  - by rewrite lookup_insert_eq.
  - intros k Hne. rewrite lookup_insert_ne by done. by rewrite lookup_delete_ne.
Qed.

Lemma acquire_after_expiry_witness :
  let key := "doc2:2025-01-01T11:00:00" in
  let locks := <[key := 1000]> (∅ : gmap string Z) in
  locks !! key = Some 1000 ∧ 1000 < 1001 ∧
  _acquire_lock "doc2" "2025-01-01T11:00:00" 1001 locks =
    (true, <[key := 1001 + 120000000]> (delete key locks))
  ∧ (_acquire_lock "doc2" "2025-01-01T11:00:00" 1001 locks).2 !! key
      = Some (1001 + 120000000)
  ∧ ∀ k, k ≠ key →
         (_acquire_lock "doc2" "2025-01-01T11:00:00" 1001 locks).2 !! k
         = locks !! k.
Proof.
  intros key locks.
  assert (locks !! key = Some 1000) as Hk by reflexivity.
  assert (1000 < 1001) as Hlt by lia.
  split; [exact Hk|]. split; [exact Hlt|].
  exact (acquire_after_expiry "doc2" "2025-01-01T11:00:00" 1001 1000 locks
           Hk Hlt).
Defined.

(** C10.  An acquire that returns [False] leaves the lock table exactly as it
    was: no key is inserted or removed and no expiry changes. *)
Theorem failed_acquire_leaves_table
    (d t : string) (now : Z) (locks : gmap string Z) :
  (_acquire_lock d t now locks).1 = false →
  (_acquire_lock d t now locks).2 = locks.
Proof.
  unfold _acquire_lock.
  destruct (locks !! _get_lock_key d t) as [e|] eqn:Hk.
  - destruct (e <? now).
    + rewrite lookup_delete_eq. discriminate.
    + by rewrite Hk.
  - rewrite Hk. discriminate.
Qed.

Lemma failed_acquire_witness :
  let locks := <["doc1:2025-01-01T10:00:00" := 120000005]>
                 (<["doc3:2025-01-01T09:00:00" := 3]> (∅ : gmap string Z)) in
  (_acquire_lock "doc1" "2025-01-01T10:00:00" 7 locks).1 = false ∧
  (_acquire_lock "doc1" "2025-01-01T10:00:00" 7 locks).2 = locks.
Proof.
  intros locks.
  assert ((_acquire_lock "doc1" "2025-01-01T10:00:00" 7 locks).1 = false)
    as Hf by reflexivity.
  split; [exact Hf|].
  exact (failed_acquire_leaves_table "doc1" "2025-01-01T10:00:00" 7 locks Hf).
Defined.

End SlotLockSpec.

(* ===================================================================== *)
(** * The classifier cascade *)
(* ===================================================================== *)

Module ClassifierSpec.
Import Str Schemas Classifier.

Local Open Scope float_scope.

Lemma first_trigger_found (msg_lower trigger specialty : string) :
  In (trigger, specialty) emergency_triggers →
  contains trigger msg_lower = true →
  ∃ t d, first_trigger msg_lower = Some (t, d).
Proof.
  intros Hin Hc. unfold first_trigger.
  destruct (find _ emergency_triggers) as [[t d]|] eqn:Hf.
  - by exists t, d.
  - pose proof (find_none _ _ Hf _ Hin) as Hn. simpl in Hn. congruence.
Qed.

Lemma first_trigger_sound (msg_lower t d : string) :
  first_trigger msg_lower = Some (t, d) →
  In (t, d) emergency_triggers ∧ contains t msg_lower = true.
Proof. intros Hf. apply find_some in Hf. exact Hf. Qed.

(** The rule layer and the keyword fallback never pair the emergency intent
    with another urgency than critical. *)
Lemma rule_layer_invariant (message : string) (c : AIClassification) :
  _check_emergency_rules message = Some c →
  intent c = EMERGENCY ∧ urgency c = CRITICAL.
Proof.
  unfold _check_emergency_rules.
  destruct (first_trigger (lower message)) as [[t d]|]; [|discriminate].
  intros [= <-]. done.
Qed.

Lemma fallback_never_emergency (message : string) :
  intent (_fallback_classification message) ≠ EMERGENCY.
Proof.
  unfold _fallback_classification.
  repeat match goal with
         | |- context [if ?b then _ else _] => destruct b
         end; simpl; discriminate.
Qed.

(** C1.  When the lower-cased message contains a phrase of the emergency
    trigger table, [classify_intent] returns, whatever the text-generation
    service, the JSON decoder and the validators do, the classification with
    intent emergency, urgency critical, the ambulance flag set and confidence
    1.0; its department is the specialty the table maps to the trigger that
    fired, which is the first entry of the table whose phrase occurs in the
    message. *)
Theorem trigger_phrase_is_emergency
    (env : collaborators) (message trigger specialty : string) :
  In (trigger, specialty) emergency_triggers →
  contains trigger (lower message) = true →
  ∃ t d,
    first_trigger (lower message) = Some (t, d) ∧
    In (t, d) emergency_triggers ∧
    contains t (lower message) = true ∧
    classify_intent env message =
      Ok {| intent := EMERGENCY;
            urgency := CRITICAL;
            department := Some d;
            needs_ambulance := true;
            confidence := 1.0;
            entities := Some [("trigger", JStr t)] |}.
Proof.
  intros Hin Hc.
  destruct (first_trigger_found _ _ _ Hin Hc) as (t & d & Hf).
  destruct (first_trigger_sound _ _ _ Hf) as [Ht Hct].
  exists t, d. repeat split; try done.
  unfold classify_intent, _check_emergency_rules. by rewrite Hf.
Qed.

Lemma trigger_phrase_witness :
  let message := "Help, my father has CHEST PAIN and then a stroke" in
  In ("stroke", "neurology") emergency_triggers ∧
  contains "stroke" (lower message) = true ∧
  ∃ t d,
    first_trigger (lower message) = Some (t, d) ∧
    In (t, d) emergency_triggers ∧
    contains t (lower message) = true ∧
    classify_intent unavailable message =
      Ok {| intent := EMERGENCY;
            urgency := CRITICAL;
            department := Some d;
            needs_ambulance := true;
            confidence := 1.0;
            entities := Some [("trigger", JStr t)] |}.
Proof.
  intros message.
  assert (In ("stroke", "neurology") emergency_triggers) as Hin
    by (simpl; tauto).
  assert (contains "stroke" (lower message) = true) as Hc by reflexivity.
  split; [exact Hin|]. split; [exact Hc|].
  exact (trigger_phrase_is_emergency unavailable message
           "stroke" "neurology" Hin Hc).
Defined.

Example chest_pain_then_stroke :
  classify_intent unavailable
    "Help, my father has CHEST PAIN and then a stroke" =
    Ok {| intent := EMERGENCY; urgency := CRITICAL;
          department := Some "cardiology"; needs_ambulance := true;
          confidence := 1.0;
          entities := Some [("trigger", JStr "chest pain")] |}.
Proof. reflexivity. Qed.

(** ** Failures of the model call *)

Lemma enum_of_value_member {E} (members : list E) (value : E → string)
    (v : string) (m : E) :
  enum_of_value members value v = Ok m → value m = v.
Proof.
  unfold enum_of_value.
  destruct (find _ members) as [m'|] eqn:Hf; [|discriminate].
  intros [= ->]. apply find_some in Hf as [_ Hv].
  by apply String.eqb_eq in Hv.
Qed.

Lemma enum_field_outside {E} (members : list E) (value : E → string)
    (default : E) (v : json) :
  (∀ m, v ≠ JStr (value m)) →
  ∃ e, enum_field members value default (Some v) = Raise e.
Proof.
  intros Hout. destruct v; simpl; try by eexists.
  destruct (enum_of_value members value s) as [m|e] eqn:He; [|by eexists].
  apply enum_of_value_member in He. subst s. by destruct (Hout m).
Qed.

(** Every failure of the model call makes the body of the [try] block raise,
    except an absent reply, which returns the fallback at once. *)
Lemma llm_failure_outcome (env : collaborators) (message : string) :
  llm_failure env message →
  llm_classification env message = Ok (_fallback_classification message) ∨
  ∃ e, llm_classification env message = Raise e.
Proof.
  intros Hfail. unfold llm_classification.
  destruct Hfail as
    [ e Hc | Hc | text e Hc Hj | text doc Hc Hj Hd
    | text items v Hc Hj Hl Ho | text items v Hc Hj Hl Ho
    | text items v e Hc Hj Hl Hv | text items v e Hc Hj Hl Hv
    | text items v e Hc Hj Hl Hv | text items v e Hc Hj Hl Hv ];
    rewrite Hc; simpl; try (by left); try (by right; eexists);
    rewrite Hj; simpl; try (by right; eexists).
  - right. destruct doc; try (by eexists). by destruct (Hd items).
  - right. rewrite Hl.
    destruct (enum_field_outside IntentType_members IntentType_value
                GENERAL_QUERY v Ho) as [e ->]. by eexists.
  - right.
    destruct (enum_field IntentType_members _ _ _); simpl; [|by eexists].
    rewrite Hl.
    destruct (enum_field_outside UrgencyLevel_members UrgencyLevel_value
                NON_URGENT v Ho) as [e ->]. by eexists.
  - right.
    destruct (enum_field IntentType_members _ _ _); simpl; [|by eexists].
    destruct (enum_field UrgencyLevel_members _ _ _); simpl; [|by eexists].
    rewrite Hl. simpl. rewrite Hv. by eexists.
  - right.
    destruct (enum_field IntentType_members _ _ _); simpl; [|by eexists].
    destruct (enum_field UrgencyLevel_members _ _ _); simpl; [|by eexists].
    destruct (validated_field (validate_department env) _ _); simpl;
      [|by eexists].
    rewrite Hl. simpl. rewrite Hv. by eexists.
  - right.
    destruct (enum_field IntentType_members _ _ _); simpl; [|by eexists].
    destruct (enum_field UrgencyLevel_members _ _ _); simpl; [|by eexists].
    destruct (validated_field (validate_department env) _ _); simpl;
      [|by eexists].
    destruct (validated_field (validate_needs_ambulance env) _ _); simpl;
      [|by eexists].
    rewrite Hl. simpl. rewrite Hv. by eexists.
  - right.
    destruct (enum_field IntentType_members _ _ _); simpl; [|by eexists].
    destruct (enum_field UrgencyLevel_members _ _ _); simpl; [|by eexists].
    destruct (validated_field (validate_department env) _ _); simpl;
      [|by eexists].
    destruct (validated_field (validate_needs_ambulance env) _ _); simpl;
      [|by eexists].
    destruct (validated_field (validate_confidence env) _ _); simpl;
      [|by eexists].
    rewrite Hl. simpl. rewrite Hv. by eexists.
Qed.

(** Absent keys of a decoded object take the defaults written in the
    [result.get] calls. *)
Lemma llm_classification_defaults (env : collaborators)
    (message text : string) (items : list (string * json))
    (c : AIClassification) :
  llm_chat env (request message) 0.1 200%Z = Ok (Some text) →
  json_loads env (clean_text text) = Ok (JDict items) →
  llm_classification env message = Ok c →
  (lookup_key items "intent" = None → intent c = GENERAL_QUERY) ∧
  (lookup_key items "urgency" = None → urgency c = NON_URGENT) ∧
  (lookup_key items "department" = None → department c = None) ∧
  (lookup_key items "needs_ambulance" = None → needs_ambulance c = false) ∧
  (lookup_key items "confidence" = None → confidence c = 0.8) ∧
  (lookup_key items "entities" = None → entities c = None).
Proof.
  intros Hc Hj. unfold llm_classification. rewrite Hc. simpl.
  rewrite Hj. simpl.
  destruct (enum_field IntentType_members _ _ _) as [i|] eqn:Hi;
    simpl; [|discriminate].
  destruct (enum_field UrgencyLevel_members _ _ _) as [u|] eqn:Hu;
    simpl; [|discriminate].
  destruct (validated_field (validate_department env) _ _) as [d|] eqn:Hd;
    simpl; [|discriminate].
  destruct (validated_field (validate_needs_ambulance env) _ _) as [a|] eqn:Ha;
    simpl; [|discriminate].
  destruct (validated_field (validate_confidence env) _ _) as [f|] eqn:Hf;
    simpl; [|discriminate].
  destruct (validated_field (validate_entities env) _ _) as [en|] eqn:He;
    simpl; [|discriminate].
  intros [= <-]. simpl.
  repeat split; intros Hl; rewrite Hl in *; simpl in *; congruence.
Qed.




(** C6 at the failing input.  On the model path the classification carries
    the intent and urgency the reply names, unchecked: the reply
    [{"intent": "emergency"}] to a message without trigger phrase yields an
    emergency whose urgency is the default, non_urgent. *)
Theorem llm_emergency_keeps_default_urgency :
  _check_emergency_rules "I feel strange" = None ∧
  classify_intent (replying reply_emergency_only doc_emergency_only)
    "I feel strange" =
    Ok {| intent := EMERGENCY; urgency := NON_URGENT;
          department := None; needs_ambulance := false;
          confidence := 0.8; entities := None |}.
Proof. split; reflexivity. Qed.

End ClassifierSpec.
(* ===================================================================== *)
(** * The triage engine *)
(* ===================================================================== *)

Module TriageSpec.
Import Str Triage.

Local Open Scope float_scope.

(** ** Sorting keeps the detected entries *)

Lemma insert_desc_In (x y : string * float) (l : list (string * float)) :
  In y (insert_desc x l) ↔ y = x ∨ In y l.
Proof.
  induction l as [|z l IH]; simpl.
  - intuition.
  - destruct (snd x <? snd z); simpl; rewrite ?IH; intuition.
Qed.

Lemma sort_desc_In (y : string * float) (l : list (string * float)) :
  In y (sort_desc l) ↔ In y l.
Proof.
  induction l as [|x l IH]; simpl; [done|].
  rewrite insert_desc_In, IH. intuition.
Qed.

Lemma insert_desc_length (x : string * float) (l : list (string * float)) :
  length (insert_desc x l) = S (length l).
Proof.
  induction l as [|z l IH]; simpl; [done|].
  destruct (snd x <? snd z); simpl; by rewrite ?IH.
Qed.

Lemma sort_desc_length (l : list (string * float)) :
  length (sort_desc l) = length l.
Proof.
  induction l as [|x l IH]; simpl; [done|].
  by rewrite insert_desc_length, IH.
Qed.

Lemma detect_is_sorted_matched (message : string) :
  _detect_symptoms (lower message) = sort_desc (matched message).
Proof. unfold _detect_symptoms, matched. exact eq_refl. Qed.

Lemma matched_in_table (message : string) (x : string * float) :
  In x (matched message) → In x SYMPTOM_SEVERITY_MAP.
Proof. unfold matched. intros H. by apply filter_In in H as [H _]. Qed.

Lemma filter_length_le {A} (f : A → bool) (l : list A) :
  (length (List.filter f l) <= length l)%nat.
Proof.
  induction l as [|x l IH]; simpl; [lia|]. destruct (f x); simpl; lia.
Qed.

Lemma table_length : length SYMPTOM_SEVERITY_MAP = 60%nat.
Proof. vm_compute. reflexivity. Qed.

Lemma matched_length (message : string) :
  (length (matched message) <= 60)%nat.
Proof.
  unfold matched.
  pose proof (filter_length_le
                (fun '(symptom, _) => contains symptom (lower message))
                SYMPTOM_SEVERITY_MAP) as H.
  by rewrite table_length in H.
Qed.

(** ** The finite checks *)

Lemma all_scores_checked :
  forallb (fun w => forallb (fun n => score_checks (severity_of w n))
                      (seq 1 60)) weights = true.
Proof. vm_compute. reflexivity. Qed.

Lemma baseline_checked : score_checks 0.1 = true.
Proof. vm_compute. reflexivity. Qed.

Lemma weights_ordered :
  forallb (fun a => forallb (fun b => forallb (order_checks a b) weights)
                      weights) weights = true.
Proof. vm_compute. reflexivity. Qed.

Lemma score_checked (w : float) (n : nat) :
  In w weights → (1 <= n <= 60)%nat → score_checks (severity_of w n) = true.
Proof.
  intros Hw Hn.
  pose proof all_scores_checked as H.
  rewrite forallb_forall in H. specialize (H w Hw).
  rewrite forallb_forall in H. apply H. apply in_seq. lia.
Qed.

Lemma order_checked (a b c : float) :
  In a weights → In b weights → In c weights → order_checks a b c = true.
Proof.
  intros Ha Hb Hc.
  pose proof weights_ordered as H.
  rewrite forallb_forall in H. specialize (H a Ha).
  rewrite forallb_forall in H. specialize (H b Hb).
  rewrite forallb_forall in H. exact (H c Hc).
Qed.

(** ** The head of the sorted detection *)

Lemma matched_weight (message : string) (x : string * float) :
  In x (matched message) → In (snd x) weights.
Proof. intros H. apply in_map. by apply (matched_in_table message). Qed.

Lemma le_refl_weight (a : float) : In a weights → (a <=? a) = true.
Proof.
  intros Ha. pose proof (order_checked a a a Ha Ha Ha) as H.
  unfold order_checks in H. by repeat (apply andb_true_iff in H as [H _]).
Qed.

Lemma lt_le_weight (a b : float) :
  In a weights → In b weights → (a <? b) = true → (a <=? b) = true.
Proof.
  intros Ha Hb Hlt. pose proof (order_checked a b b Ha Hb Hb) as H.
  unfold order_checks in H.
  apply andb_true_iff in H as [H _]. apply andb_true_iff in H as [H _].
  apply andb_true_iff in H as [_ H]. by rewrite Hlt in H.
Qed.

Lemma not_lt_ge_weight (a b : float) :
  In a weights → In b weights → (a <? b) = false → (b <=? a) = true.
Proof.
  intros Ha Hb Hlt. pose proof (order_checked a b b Ha Hb Hb) as H.
  unfold order_checks in H.
  apply andb_true_iff in H as [H _]. apply andb_true_iff in H as [_ H].
  by rewrite Hlt in H.
Qed.

Lemma le_trans_weight (a b c : float) :
  In a weights → In b weights → In c weights →
  (a <=? b) = true → (b <=? c) = true → (a <=? c) = true.
Proof.
  intros Ha Hb Hc Hab Hbc. pose proof (order_checked a b c Ha Hb Hc) as H.
  unfold order_checks in H. apply andb_true_iff in H as [_ H].
  by rewrite Hab, Hbc in H.
Qed.

(** The first entry of the sorted list is one of the entries and carries the
    greatest weight. *)
Lemma sort_desc_head (l : list (string * float)) :
  (∀ x, In x l → In (snd x) weights) →
  l ≠ [] →
  ∃ s w rest,
    sort_desc l = (s, w) :: rest ∧ In (s, w) l ∧
    ∀ y, In y l → (snd y <=? w) = true.
Proof.
  induction l as [|x l IH]; intros Hw Hne; [done|].
  destruct l as [|x' l'].
  - destruct x as [s w]. exists s, w, []. simpl. split; [done|].
    split; [by left|]. intros y [<-|[]]. apply le_refl_weight.
    apply (Hw (s, w)). by left.
  - destruct IH as (s & w & rest & Hs & Hin & Hmax).
    { intros y Hy. apply Hw. by right. }
    { done. }
    change (sort_desc (x :: x' :: l')) with
      (insert_desc x (sort_desc (x' :: l'))).
    rewrite Hs. simpl.
    assert (In (snd x) weights) as Hx by (apply Hw; by left).
    assert (In w weights) as Hww by (apply (Hw (s, w)); by right).
    destruct (snd x <? w) eqn:Hlt.
    + exists s, w, (insert_desc x rest). split; [done|].
      split; [by right|]. intros y [<-|Hy].
      * by apply lt_le_weight.
      * by apply Hmax.
    + destruct x as [sx wx]. simpl in *.
      exists sx, wx, ((s, w) :: rest). split; [done|].
      split; [by left|]. intros y [<-|Hy].
      * by apply le_refl_weight.
      * apply (le_trans_weight (snd y) w wx); auto.
        -- destruct Hy as [<-|Hy]; apply Hw; right; [by left | by right].
        -- by apply not_lt_ge_weight.
Qed.

Lemma calculate_severity_cons (s : string) (w : float)
    (rest : list (string * float)) :
  _calculate_severity ((s, w) :: rest) = severity_of w (S (length rest)).
Proof. unfold _calculate_severity, severity_of. exact eq_refl. Qed.

(** The detection is empty when nothing matched, and otherwise headed by a
    heaviest matched entry; sorting keeps the count. *)
Lemma detect_shape (message : string) :
  (matched message = [] ∧ _detect_symptoms (lower message) = []) ∨
  (∃ s w rest,
     _detect_symptoms (lower message) = (s, w) :: rest ∧
     In (s, w) (matched message) ∧
     (∀ y, In y (matched message) → (snd y <=? w) = true) ∧
     S (length rest) = length (matched message)).
Proof.
  rewrite detect_is_sorted_matched.
  destruct (matched message) as [|x l] eqn:Hm.
  - left. done.
  - right.
    destruct (sort_desc_head (x :: l)) as (s & w & rest & Hs & Hin & Hmax).
    { intros y Hy. apply (matched_weight message). by rewrite Hm. }
    { done. }
    exists s, w, rest. repeat split; try done.
    rewrite <- (sort_desc_length (x :: l)), Hs. done.
Qed.

Lemma detected_score_checked (message : string) :
  score_checks (_calculate_severity (_detect_symptoms (lower message))) = true.
Proof.
  destruct (detect_shape message) as
    [[_ ->] | (s & w & rest & -> & Hin & _ & Hlen)].
  - exact baseline_checked.
  - rewrite calculate_severity_cons. apply score_checked.
    + by apply (matched_weight message (s, w)).
    + pose proof (matched_length message). lia.
Qed.

(** ** Levels and flags follow the score *)

Lemma assess_fields (message : string) :
  let sc := _calculate_severity (_detect_symptoms (lower message)) in
  severity_score (assess message) = py_round sc 3 ∧
  severity_level (assess message) = level_of sc ∧
  needs_immediate_attention (assess message) = (0.8 <=? sc) ∧
  needs_ambulance (assess message) = (0.9 <=? sc).
Proof. unfold assess, level_of. cbn [severity_score severity_level
  needs_immediate_attention needs_ambulance]. repeat split; exact eq_refl. Qed.

Lemma level_of_cases (sc : float) :
  implb (0.8 <=? sc) (0.5 <=? sc) = true →
  (level_of sc = "CRITICAL" ↔ (0.8 <=? sc) = true) ∧
  (level_of sc = "URGENT" ↔ (0.5 <=? sc) = true ∧ negb (0.8 <=? sc) = true) ∧
  (level_of sc = "NON_URGENT" ↔ negb (0.5 <=? sc) = true).
Proof.
  unfold level_of.
  destruct (0.8 <=? sc), (0.5 <=? sc); simpl; intros Himp;
    try discriminate; repeat split; try done; try discriminate;
    intros [? ?]; discriminate.
Qed.

Lemma checks_give_thresholds (r : TriageResult) (sc : float) :
  score_checks sc = true →
  severity_level r = level_of sc →
  needs_immediate_attention r = (0.8 <=? sc) →
  needs_ambulance r = (0.9 <=? sc) →
  thresholds r sc ∧ thresholds r (py_round sc 3).
Proof.
  intros Hc Hl Hi Ha. unfold score_checks in Hc.
  repeat match type of Hc with
         | (_ && _) = true =>
             let H := fresh "H" in apply andb_true_iff in Hc as [Hc H]
         end.
  repeat match goal with
         | H : Bool.eqb _ _ = true |- _ => apply eqb_prop in H
         end.
  match goal with H : implb _ _ = true |- _ =>
    destruct (level_of_cases sc H) as (Lc & Lu & Ln) end.
  unfold thresholds. rewrite Hl, Hi, Ha.
  repeat match goal with
         | H : (_ <? _) = negb _ |- _ => rewrite H in *; clear H
         end.
  split.
  - repeat split; try done; try tauto.
  - repeat match goal with
           | H : (_ <=? sc) = (_ <=? py_round sc 3) |- _ =>
               rewrite <- H in *; clear H
           end.
    repeat split; try done; try tauto.
Qed.

(** C3.  For every message the triage result satisfies the thresholds, with
    respect to the rounded score it returns as well as to the score it
    computed: the score lies in [0, 1]; the level is CRITICAL exactly when
    the score is at least 0.8, URGENT exactly when it is at least 0.5 and
    below 0.8, NON_URGENT exactly when it is below 0.5; the attention flag is
    the comparison of the score with 0.8 and the ambulance flag the
    comparison with 0.9.  The returned score is the computed one rounded to
    three decimals. *)
Theorem assess_respects_thresholds (message : string) :
  let raw := _calculate_severity (_detect_symptoms (lower message)) in
  severity_score (assess message) = py_round raw 3 ∧
  thresholds (assess message) (severity_score (assess message)) ∧
  thresholds (assess message) raw.
Proof.
  intros raw.
  destruct (assess_fields message) as (Hs & Hl & Hi & Ha). fold raw in Hs, Hl, Hi, Ha.
  destruct (checks_give_thresholds (assess message) raw
              (detected_score_checked message) Hl Hi Ha) as [Hraw Hround].
  split; [exact Hs|]. rewrite Hs. split; [exact Hround | exact Hraw].
Qed.

(** The boundary scores: five matched symptoms with heaviest weight 0.65 give
    exactly 0.8, hence CRITICAL without ambulance; with heaviest weight 0.35
    they give exactly 0.5, hence URGENT. *)
Example score_exactly_08 :
  let r := assess "fainting, blurred vision, a cold, cough and a rash" in
  severity_score r = 0.8 ∧ severity_level r = "CRITICAL" ∧
  needs_immediate_attention r = true ∧ needs_ambulance r = false.
Proof. vm_compute. repeat split. Qed.

Example score_exactly_05 :
  let r := assess "headache, nausea, a cold, cough and a rash" in
  severity_score r = 0.5 ∧ severity_level r = "URGENT" ∧
  needs_immediate_attention r = false ∧ needs_ambulance r = false.
Proof. vm_compute. repeat split. Qed.

Example score_just_below_05 :
  let r := assess "fever, cough and a rash" in
  severity_score r = 0.49 ∧ severity_level r = "NON_URGENT".
Proof. vm_compute. repeat split. Qed.

(** ** The score formula *)

Lemma bonus_commutes (n : nat) :
  (n <= 60)%nat → float_of_nat n * 0.03 = 0.03 * float_of_nat n.
Proof.
  intros Hn.
  assert (Forall (fun k => float_of_nat k * 0.03 = 0.03 * float_of_nat k)
            (seq 0 61)) as Hall.
  { cbv [seq]. repeat (constructor; [vm_compute; reflexivity|]). constructor. }
  rewrite List.Forall_forall in Hall. apply Hall. apply List.in_seq. lia.
Qed.

(** C4.  The score computed for a message is 0.1 when no entry of the symptom
    table occurs in the lower-cased message.  Otherwise it is built from the
    greatest weight [m] among the matched entries: [m] itself when one entry
    matched, and, when more than one matched, [m] plus the bonus
    [min(0.15, 0.03 * count)], the sum capped at 1.0. *)
Theorem severity_score_formula (message : string) :
  let score := _calculate_severity (_detect_symptoms (lower message)) in
  let count := length (matched message) in
  (matched message = [] → score = 0.1) ∧
  (matched message ≠ [] →
   ∃ m, In m (map snd (matched message)) ∧
        (∀ w, In w (map snd (matched message)) → (w <=? m) = true) ∧
        score = if (1 <? count)%nat
                then py_min 1.0 (m + py_min 0.15 (0.03 * float_of_nat count))
                else m).
Proof.
  intros score count. subst score count.
  destruct (detect_shape message) as
    [[Hm ->] | (s & w & rest & -> & Hin & Hmax & Hlen)].
  - split; [done|]. intros Hne. by destruct Hne.
  - split.
    + intros Hm. rewrite Hm in Hin. destruct Hin.
    + intros _. exists w. split; [|split].
      * change w with (snd (s, w)). by apply in_map.
      * intros w' Hw'. apply in_map_iff in Hw' as (y & <- & Hy).
        by apply Hmax.
      * rewrite calculate_severity_cons, Hlen. unfold severity_of.
        rewrite bonus_commutes by apply matched_length. done.
Qed.

Lemma severity_score_formula_witness :
  let message := "High FEVER and a rash" in
  let score := _calculate_severity (_detect_symptoms (lower message)) in
  matched message ≠ [] ∧
  ∃ m, In m (map snd (matched message)) ∧
       (∀ w, In w (map snd (matched message)) → (w <=? m) = true) ∧
       score = if (1 <? length (matched message))%nat
               then py_min 1.0
                      (m + py_min 0.15
                             (0.03 * float_of_nat (length (matched message))))
               else m.
Proof.
  intros message score.
  assert (matched message ≠ []) as Hne by (vm_compute; discriminate).
  split; [exact Hne|].
  exact (proj2 (severity_score_formula message) Hne).
Defined.

Example score_no_symptom :
  _calculate_severity (_detect_symptoms (lower "where is the pharmacy?")) = 0.1.
Proof. vm_compute. reflexivity. Qed.

Example score_two_symptoms :
  _calculate_severity (_detect_symptoms (lower "High FEVER and a rash"))
  = 0.7 + 0.09.
Proof. vm_compute. reflexivity. Qed.

End TriageSpec.
(* ===================================================================== *)
(** * The guardrails *)
(* ===================================================================== *)

Module RegexFacts.
Import Str StrFacts Regex.

Lemma length_app (a b : string) :
  String.length (a +:+ b) = (String.length a + String.length b)%nat.
Proof. induction a; simpl; congruence. Qed.

Lemma keeps_self (u v : string) : keeps u v (u +:+ String nl v).
Proof. by exists u. Qed.

Lemma keeps_tail (c : ascii) (u v rest : string) :
  keeps u v rest → keeps (String c u) v rest.
Proof. intros (u' & -> & Hl). exists u'. split; [done|]. simpl. lia. Qed.

Lemma plus_rem_keeps (k : cclass) (u v rest : string) :
  accepts k nl = false →
  In rest (plus_rem k (u +:+ String nl v)) → keeps u v rest.
Proof.
  intros Hk. induction u as [|c u IH]; simpl.
  - rewrite Hk. intros [].
  - destruct (accepts k c); [|intros []].
    rewrite in_app_iff. intros [H|[<-|[]]].
    + by apply keeps_tail, IH.
    + apply keeps_tail, keeps_self.
Qed.

Lemma upto_rem_keeps (n : nat) (k : cclass) (u v rest : string) :
  accepts k nl = false →
  In rest (upto_rem n k (u +:+ String nl v)) → keeps u v rest.
Proof.
  intros Hk. revert u. induction n as [|n IH]; intros u.
  - destruct u as [|c u]; simpl; intros [<-|[]];
      [by exists "" | by exists (String c u)].
  - destruct u as [|c u]; simpl.
    + rewrite Hk. intros [<-|[]]. by exists "".
    + destruct (accepts k c).
      * rewrite in_app_iff. intros [H|[<-|[]]].
        -- by apply keeps_tail, IH.
        -- by exists (String c u).
      * intros [<-|[]]. by exists (String c u).
Qed.

(** A pattern that cannot match a newline never matches across one: every
    remainder still holds the newline and all that follows it. *)
Lemma rmatch_keeps (r : regex) :
  nl_free r = true →
  ∀ u v rest, In rest (rmatch r (u +:+ String nl v)) → keeps u v rest.
Proof.
  induction r as [|k|r1 IH1 r2 IH2|r1 IH1 r2 IH2|k|n k]; simpl; intros Hf u v rest.
  - intros [<-|[]]. apply keeps_self.
  - apply negb_true_iff in Hf. destruct u as [|c u]; simpl.
    + rewrite Hf. intros [].
    + destruct (accepts k c); [|intros []].
      intros [<-|[]]. apply keeps_tail, keeps_self.
  - apply andb_true_iff in Hf as [Hf1 Hf2].
    rewrite in_flat_map. intros (mid & Hmid & Hrest).
    destruct (IH1 Hf1 u v mid Hmid) as (u1 & -> & Hl1).
    destruct (IH2 Hf2 u1 v rest Hrest) as (u2 & -> & Hl2).
    exists u2. split; [done|lia].
  - apply andb_true_iff in Hf as [Hf1 Hf2].
    rewrite in_app_iff. intros [H|H]; [by apply IH1 | by apply IH2].
  - apply negb_true_iff in Hf. by apply plus_rem_keeps.
  - apply negb_true_iff in Hf. by apply upto_rem_keeps.
Qed.

(** Substitution with such a pattern leaves a suffix alone that starts with a
    newline and holds no match itself. *)
Lemma sub_go_keeps_suffix (r : regex) (repl d : string) :
  nl_free r = true →
  sub_go r repl 0 (String nl d) = String nl d →
  ∀ t skip, (skip <= String.length t)%nat →
    ∃ x, sub_go r repl skip (t +:+ String nl d) = x +:+ String nl d.
Proof.
  intros Hf Hd. induction t as [|c t IH]; intros skip Hs.
  - assert (skip = 0%nat) as -> by (simpl in Hs; lia).
    exists "". exact Hd.
  - change (String c t +:+ String nl d) with (String c (t +:+ String nl d)).
    destruct skip as [|k].
    + cbn [sub_go].
      destruct (rmatch r (String c (t +:+ String nl d))) as [|rest ?] eqn:Hm.
      * destruct (IH 0%nat) as [x Hx]; [lia|].
        exists (String c x). by rewrite Hx.
      * destruct (rmatch_keeps r Hf (String c t) d rest) as (u' & -> & Hl).
        { change (String c t +:+ String nl d)
            with (String c (t +:+ String nl d)). rewrite Hm. by left. }
        destruct (_ <? _)%nat.
        -- destruct (IH (String.length (String c (t +:+ String nl d))
                         - String.length (u' +:+ String nl d) - 1)%nat)
             as [x Hx].
           { simpl in *. rewrite !length_app. simpl. lia. }
           exists (repl +:+ x). rewrite Hx. by rewrite app_assoc.
        -- destruct (IH 0%nat) as [x Hx]; [lia|].
           exists (String c x). by rewrite Hx.
    + cbn [sub_go]. destruct (IH k) as [x Hx]; [simpl in Hs; lia|].
      by exists x.
Qed.

End RegexFacts.

Module GuardrailsSpec.
Import Str StrFacts Regex RegexFacts Guardrails.

Lemma disclaimer_starts_with_newline :
  ∃ d, MEDICAL_DISCLAIMER = String nl d.
Proof. unfold MEDICAL_DISCLAIMER. by eexists. Qed.

Lemma families_spare_disclaimer :
  forallb (spares_disclaimer
             "[I cannot make diagnoses - please consult a doctor]")
    DIAGNOSIS_PATTERNS = true ∧
  forallb (spares_disclaimer
             "[I cannot prescribe medications - please consult a doctor]")
    PRESCRIPTION_PATTERNS = true ∧
  forallb (spares_disclaimer "[Please seek professional medical advice]")
    UNSAFE_CLAIM_PATTERNS = true.
Proof. repeat split; vm_compute; reflexivity. Qed.

Lemma re_sub_keeps_disclaimer (placeholder : string) (pattern : regex)
    (x : string) :
  spares_disclaimer placeholder pattern = true →
  ∃ x', re_sub pattern placeholder (x +:+ MEDICAL_DISCLAIMER)
        = x' +:+ MEDICAL_DISCLAIMER.
Proof.
  unfold spares_disclaimer, re_sub. intros H.
  apply andb_true_iff in H as [Hf Hd]. apply String.eqb_eq in Hd.
  destruct disclaimer_starts_with_newline as [d Hnl].
  rewrite Hnl in *.
  apply (sub_go_keeps_suffix pattern placeholder d Hf Hd x 0). lia.
Qed.

Lemma apply_patterns_keeps_disclaimer (patterns : list regex)
    (placeholder response : string) :
  forallb (spares_disclaimer placeholder) patterns = true →
  ∀ st, (∃ x, fst st = x +:+ MEDICAL_DISCLAIMER) →
        ∃ x, fst (apply_patterns patterns placeholder response st)
             = x +:+ MEDICAL_DISCLAIMER.
Proof.
  unfold apply_patterns.
  induction patterns as [|p ps IH]; intros Hall st Hst; [exact Hst|].
  cbn [forallb] in Hall. apply andb_true_iff in Hall as [Hp Hps].
  cbn [fold_left]. apply (IH Hps).
  destruct st as [filtered was_modified]. destruct Hst as [x Hx].
  cbn [fst] in Hx. subst filtered.
  destruct (re_search p response); cbn [fst].
  - by apply re_sub_keeps_disclaimer.
  - by exists x.
Qed.

(** The three substitution loops leave a disclaimer at the end in place. *)
Lemma filter_patterns_keeps_disclaimer (x : string) :
  ∃ x', fst (filter_patterns (x +:+ MEDICAL_DISCLAIMER))
        = x' +:+ MEDICAL_DISCLAIMER.
Proof.
  destruct families_spare_disclaimer as (Hd & Hp & Hu).
  unfold filter_patterns.
  apply (apply_patterns_keeps_disclaimer _ _ _ Hu).
  apply (apply_patterns_keeps_disclaimer _ _ _ Hp).
  apply (apply_patterns_keeps_disclaimer _ _ _ Hd).
  by exists x.
Qed.

Lemma check_guardrails_unfold (response : string) :
  check_guardrails response =
    if appends_disclaimer response (fst (filter_patterns response))
    then (fst (filter_patterns response) +:+ MEDICAL_DISCLAIMER, true)
    else filter_patterns response.
Proof.
  unfold check_guardrails. destruct (filter_patterns response) as [f m].
  cbn [fst]. done.
Qed.

(** C8.  A check that appends the medical disclaimer returns a text ending
    with it; and when the text returned by a check ends with the disclaimer,
    checking that text again does not append the disclaimer: the second
    result is the text after the pattern substitutions alone, and it still
    ends with the disclaimer that was there. *)
Theorem disclaimer_not_appended_twice (response : string) :
  let out := fst (check_guardrails response) in
  (appends_disclaimer response (fst (filter_patterns response)) = true →
   endswith MEDICAL_DISCLAIMER out = true) ∧
  (endswith MEDICAL_DISCLAIMER out = true →
   appends_disclaimer out (fst (filter_patterns out)) = false ∧
   fst (check_guardrails out) = fst (filter_patterns out) ∧
   endswith MEDICAL_DISCLAIMER (fst (check_guardrails out)) = true).
Proof.
  intros out. split.
  - intros Happ. subst out. rewrite check_guardrails_unfold, Happ. cbn [fst].
    apply endswith_spec. by eexists.
  - intros Hend. apply endswith_spec in Hend as [x Hx].
    destruct (filter_patterns_keeps_disclaimer x) as [x' Hx'].
    rewrite <- Hx in Hx'.
    assert (appends_disclaimer out (fst (filter_patterns out)) = false) as Hno.
    { unfold appends_disclaimer. rewrite Hx', contains_app_r. simpl.
      apply andb_false_r. }
    split; [exact Hno|].
    rewrite check_guardrails_unfold, Hno. split; [done|].
    rewrite Hx'. apply endswith_spec. by eexists.
Qed.

Lemma disclaimer_not_appended_twice_witness :
  let out := fst (check_guardrails "You have flu, which causes fever.") in
  endswith MEDICAL_DISCLAIMER out = true ∧
  appends_disclaimer out (fst (filter_patterns out)) = false ∧
  fst (check_guardrails out) = fst (filter_patterns out) ∧
  endswith MEDICAL_DISCLAIMER (fst (check_guardrails out)) = true.
Proof.
  intros out.
  assert (endswith MEDICAL_DISCLAIMER out = true) as Hend
    by (vm_compute; reflexivity).
  split; [exact Hend|].
  exact (proj2 (disclaimer_not_appended_twice
                  "You have flu, which causes fever.") Hend).
Defined.

Example checked_once :
  check_guardrails "You have flu, which causes fever." =
    ("[I cannot make diagnoses - please consult a doctor], which causes fever."
     +:+ MEDICAL_DISCLAIMER, true).
Proof. vm_compute. reflexivity. Qed.

Example checked_twice :
  fst (check_guardrails (fst (check_guardrails
         "You have flu, which causes fever."))) =
    "[I cannot make diagnoses - please consult a doctor], which causes fever."
    +:+ MEDICAL_DISCLAIMER.
Proof. vm_compute. reflexivity. Qed.

End GuardrailsSpec.
(* ===================================================================== *)
(** * The emergency orchestrator *)
(* ===================================================================== *)

Module OrchestratorSpec.
Import Str Schemas Triage Orchestrator.

Lemma log_action_total (env : collaborators) (action resource : string)
    (details : list (string * json)) :
  log_action env action resource details = Ok ().
Proof.
  unfold log_action.
  destruct (get_db env) as [[]|e]; simpl; [|done].
  by destruct (auditlog_create env action resource details) as [[]|e].
Qed.

(** Case creation never raises, and yields no id when the storage fails on
    the case it writes. *)
Lemma create_case_total (env : collaborators) (t : TriageResult)
    (context : ConversationContext) (message : string) :
  ∃ id, _create_emergency_case env t context message = Ok id ∧
        (storage_fails env t context message → id = None).
Proof.
  unfold _create_emergency_case, storage_fails.
  fold (case_of t context message).
  destruct (get_db env) as [[]|e] eqn:Hdb; simpl.
  - destruct (emergencycase_create env (case_of t context message))
      as [case_id|e] eqn:Hc; simpl.
    + rewrite log_action_total. simpl. exists (Some case_id).
      split; [done|]. intros [[e He]|[e He]]; congruence.
    + by exists None.
  - by exists None.
Qed.

(** C7.  For every message, session context and behaviour of the storage,
    [evaluate_and_respond] returns an action: built on the triage of the
    message, with the staff alert raised exactly when the severity level is
    CRITICAL and the ambulance dispatch equal to the triage's ambulance flag;
    and when the case storage fails on the case of this message (the handle
    cannot be obtained, or the write of this very case raises, whatever the
    storage does with other cases), the action is still returned, its case
    id absent. *)
Theorem evaluate_and_respond_flags (env : collaborators) (message : string)
    (context : ConversationContext) :
  ∃ action,
    evaluate_and_respond env message context = Ok action ∧
    triage action = assess message ∧
    (alert_staff action = true ↔ severity_level (triage action) = "CRITICAL") ∧
    dispatch_ambulance action = needs_ambulance (triage action) ∧
    (storage_fails env (assess message) context message →
     emergency_case_id action = None).
Proof.
  unfold evaluate_and_respond. cbv zeta.
  generalize (assess message). intros t.
  destruct (create_case_total env t context message) as (id & Hid & Hfail).
  destruct (String.eqb (severity_level t) "CRITICAL") eqn:Hcrit;
    destruct (String.eqb (severity_level t) "URGENT") eqn:Hurg;
    cbn [orb]; rewrite ?Hid; cbn [mbind result_bind];
    eexists; (split; [reflexivity|]); cbn [triage alert_staff
      dispatch_ambulance emergency_case_id];
    (split; [reflexivity|]); (split; [|split; [reflexivity|]]);
    try exact Hfail; try done;
    try (apply String.eqb_eq in Hcrit; by rewrite Hcrit);
    try (apply String.eqb_neq in Hcrit; split; [discriminate | done]).
Qed.

Lemma evaluate_and_respond_witness :
  ∃ action,
    evaluate_and_respond (refuses "CRITICAL") "I have severe chest pain"
      (anonymous "s1") = Ok action ∧
    triage action = assess "I have severe chest pain" ∧
    (alert_staff action = true ↔ severity_level (triage action) = "CRITICAL") ∧
    dispatch_ambulance action = needs_ambulance (triage action) ∧
    emergency_case_id action = None.
Proof.
  destruct (evaluate_and_respond_flags (refuses "CRITICAL")
              "I have severe chest pain" (anonymous "s1"))
    as (action & Hret & Ht & Ha & Hd & Hid).
  exists action. repeat split; try tauto.
  apply Hid. right. exists (PyException "PrismaError").
  vm_compute. reflexivity.
Defined.

Example chest_pain_alerts_staff :
  ∃ action,
    evaluate_and_respond storage_down "I have severe chest pain"
      (anonymous "s1") = Ok action ∧
    alert_staff action = true ∧ dispatch_ambulance action = true ∧
    emergency_case_id action = None.
Proof. eexists. vm_compute. repeat split. Qed.

Example runny_nose_creates_no_case :
  ∃ action,
    evaluate_and_respond storage_down "I have a slight runny nose"
      (anonymous "s1") = Ok action ∧
    alert_staff action = false ∧ dispatch_ambulance action = false ∧
    emergency_case_id action = None.
Proof. eexists. vm_compute. repeat split. Qed.

End OrchestratorSpec.
(* ===================================================================== *)
(** * Further laws of the slot lock *)
(* ===================================================================== *)

Module SlotLockLaws.
Import SlotLock.

(** An acquire is granted exactly when the key has no entry or its entry's
    expiry lies strictly before the clock reading; an entry that expires at
    this very instant still refuses. *)
Theorem acquire_granted_iff (d t : string) (now : Z) (locks : gmap string Z) :
  (_acquire_lock d t now locks).1 = true ↔
  match locks !! _get_lock_key d t with
  | None => True
  | Some expiry => expiry < now
  end.
Proof.
  unfold _acquire_lock.
  destruct (locks !! _get_lock_key d t) as [e|] eqn:Hk.
  - destruct (Z.ltb_spec e now) as [Hlt|Hge].
    + rewrite lookup_delete_eq. simpl. tauto.
    + rewrite Hk. simpl. split; [discriminate | lia].
  - rewrite Hk. simpl. tauto.
Qed.

Lemma acquire_granted_iff_witness :
  let locks := <["doc1:2025-01-01T10:00:00" := 500]> (∅ : gmap string Z) in
  (_acquire_lock "doc1" "2025-01-01T10:00:00" 500 locks).1 = false ∧
  (_acquire_lock "doc1" "2025-01-01T10:00:00" 501 locks).1 = true.
Proof.
  intros locks. split.
  - destruct (_acquire_lock "doc1" "2025-01-01T10:00:00" 500 locks).1 eqn:E;
      [|reflexivity].
    apply (acquire_granted_iff "doc1" "2025-01-01T10:00:00" 500 locks) in E.
    simpl in E. vm_compute in E. discriminate.
  - apply (acquire_granted_iff "doc1" "2025-01-01T10:00:00" 501 locks).
    simpl. reflexivity.
Defined.

(** No lock outlives the clock by more than the reservation window: when
    every entry of the table expires at most 120 s after [T] and every
    acquire of a sequence of calls reads a clock not past [T], the same bound
    holds for every entry after the sequence. *)
Theorem expiries_bounded (cs : list call) : ∀ (locks : gmap string Z) (T : Z),
  (∀ k e, locks !! k = Some e → e ≤ T + 120 * 1000000) →
  Forall (fun c => match c with Acquire _ _ now => now ≤ T | _ => True end) cs →
  ∀ k e, (run cs locks).2 !! k = Some e → e ≤ T + 120 * 1000000.
Proof.
  induction cs as [|c cs IH]; intros locks T Hinv Hall; [exact Hinv|].
  inversion Hall as [|? ? Hc Hcs]; subst. simpl.
  destruct (step c locks) as [r locks1] eqn:Hstep.
  assert (∀ k e, locks1 !! k = Some e → e ≤ T + 120 * 1000000) as Hinv1.
  { change locks1 with (r, locks1).2. rewrite <- Hstep. clear Hstep.
    destruct c as [d t now | d t]; simpl.
    - destruct (_acquire_lock d t now locks) as [b l'] eqn:Ha. simpl.
      change l' with (b, l').2. rewrite <- Ha. unfold _acquire_lock.
      intros k e.
      destruct (locks !! _get_lock_key d t) as [e0|] eqn:Hk.
      + destruct (e0 <? now).
        * rewrite lookup_delete_eq. simpl.
          destruct (decide (_get_lock_key d t = k)) as [<-|Hne].
          -- rewrite lookup_insert_eq. intros [= <-].
             unfold timedelta_seconds, LOCK_DURATION_SECONDS. lia.
          -- rewrite lookup_insert_ne by done.
             rewrite lookup_delete_ne by done. apply Hinv.
        * rewrite Hk. simpl. apply Hinv.
      + rewrite Hk. simpl.
        destruct (decide (_get_lock_key d t = k)) as [<-|Hne].
        * rewrite lookup_insert_eq. intros [= <-].
          unfold timedelta_seconds, LOCK_DURATION_SECONDS. lia.
        * rewrite lookup_insert_ne by done. apply Hinv.
    - unfold _release_lock. intros k e.
      destruct (decide (_get_lock_key d t = k)) as [<-|Hne].
      + by rewrite lookup_delete_eq.
      + rewrite lookup_delete_ne by done. apply Hinv. }
  specialize (IH locks1 T Hinv1 Hcs).
  destruct (run cs locks1) as [rs locks2]. exact IH.
Qed.

Lemma expiries_bounded_witness :
  let cs := [Acquire "doc1" "2025-01-01T10:00:00" 5;
             Acquire "doc2" "2025-01-01T10:00:00" 9;
             Release "doc1" "2025-01-01T10:00:00";
             Acquire "doc1" "2025-01-01T10:00:00" 7] in
  (run cs ∅).2 !! "doc2:2025-01-01T10:00:00" = Some 120000009 ∧
  120000009 ≤ 9 + 120 * 1000000.
Proof.
  intros cs.
  assert ((run cs ∅).2 !! "doc2:2025-01-01T10:00:00" = Some 120000009) as Hk
    by (vm_compute; reflexivity).
  split; [exact Hk|].
  apply (expiries_bounded cs ∅ 9) with (k := "doc2:2025-01-01T10:00:00").
  - intros k e. rewrite lookup_empty. discriminate.
  - repeat constructor; lia.
  - exact Hk.
Defined.

(** After a release the slot is free at once: the next acquire of the key is
    granted at any clock reading, however long the released lock had still to
    run, and a release of a key that holds no lock changes nothing. *)
Theorem release_then_acquire (d t : string) (now : Z) (locks : gmap string Z) :
  _acquire_lock d t now (_release_lock d t locks) =
    (true, <[_get_lock_key d t := now + timedelta_seconds LOCK_DURATION_SECONDS]>
             (delete (_get_lock_key d t) locks))
  ∧ (locks !! _get_lock_key d t = None → _release_lock d t locks = locks).
Proof.
  unfold _acquire_lock, _release_lock. split.
  - by rewrite !lookup_delete_eq.
  - apply delete_id.
Qed.

(** Acquire and release touch the entry of their own key only: the entry of
    every other key is the same before and after, whether the acquire is
    granted, refused, or purges a stale lock. *)
Theorem other_keys_untouched (c : call) (locks : gmap string Z) (k : string) :
  k ≠ (match c with Acquire d t _ | Release d t => _get_lock_key d t end) →
  (step c locks).2 !! k = locks !! k.
Proof.
  intros Hne. destruct c as [d t now | d t]; simpl.
  - destruct (_acquire_lock d t now locks) as [b l'] eqn:Ha. simpl.
    change l' with (b, l').2. rewrite <- Ha. unfold _acquire_lock.
    destruct (locks !! _get_lock_key d t) as [e|] eqn:Hk.
    + destruct (e <? now).
      * rewrite lookup_delete_eq. simpl.
        rewrite lookup_insert_ne by done. by rewrite lookup_delete_ne.
      * by rewrite Hk.
    + rewrite Hk. simpl. by rewrite lookup_insert_ne.
  - unfold _release_lock. by rewrite lookup_delete_ne.
Qed.

Lemma other_keys_untouched_witness :
  let locks := <["doc9:2025-01-01T09:00:00" := 3]> (∅ : gmap string Z) in
  "doc9:2025-01-01T09:00:00" ≠ "doc1:2025-01-01T10:00:00" ∧
  (step (Acquire "doc1" "2025-01-01T10:00:00" 100) locks).2
    !! "doc9:2025-01-01T09:00:00" = locks !! "doc9:2025-01-01T09:00:00".
Proof.
  intros locks.
  assert ("doc9:2025-01-01T09:00:00" ≠ "doc1:2025-01-01T10:00:00") as Hne
    by discriminate.
  split; [exact Hne|].
  exact (other_keys_untouched (Acquire "doc1" "2025-01-01T10:00:00" 100)
           locks "doc9:2025-01-01T09:00:00" Hne).
Defined.

(** A release does not ask whose lock it removes.  When a holder lets its
    lock expire, a second request acquires the slot, and the first holder
    then releases, the slot is free again: a third request is granted at
    once, although the second request's lock has not expired. *)
Theorem late_release_frees_newer_lock (d t : string) (t0 t1 t2 : Z)
    (locks : gmap string Z) :
  (_acquire_lock d t t0 locks).1 = true →
  t0 + 120 * 1000000 < t1 →
  (run [Acquire d t t0; Acquire d t t1; Release d t; Acquire d t t2] locks).1
    = [Some true; Some true; None; Some true].
Proof.
  intros Hfirst Hlate.
  pose (key := _get_lock_key d t).
  assert (∀ now l e, l !! key = Some e → e < now →
            _acquire_lock d t now l
              = (true, <[key := now + timedelta_seconds LOCK_DURATION_SECONDS]>
                         (delete key l))) as Hstale.
  { intros now l e Hk Hlt. unfold _acquire_lock. fold key. rewrite Hk.
    destruct (Z.ltb_spec e now); [|lia]. by rewrite lookup_delete_eq. }
  assert (∀ now l, l !! key = None →
            _acquire_lock d t now l
              = (true, <[key := now + timedelta_seconds LOCK_DURATION_SECONDS]> l))
    as Hfree.
  { intros now l Hk. unfold _acquire_lock. fold key. by rewrite !Hk. }
  assert (∃ l0, _acquire_lock d t t0 locks = (true, l0)
                ∧ l0 !! key = Some (t0 + 120 * 1000000)) as (l0 & Ha0 & Hk0).
  { destruct (_acquire_lock d t t0 locks) as [b l0] eqn:Ha.
    cbn [fst] in Hfirst. subst b. exists l0. split; [done|].
    unfold _acquire_lock in Ha. fold key in Ha.
    destruct (match locks !! key with
              | Some expiry => if expiry <? t0 then delete key locks else locks
              | None => locks
              end !! key); [discriminate|].
    injection Ha as <-. apply lookup_insert_eq. }
  cbn [run step]. rewrite Ha0.
  rewrite (Hstale t1 l0 _ Hk0 Hlate).
  unfold _release_lock. fold key.
  rewrite (Hfree t2) by apply lookup_delete_eq.
  reflexivity.
Qed.

Lemma late_release_witness :
  (run [Acquire "doc1" "2025-01-01T10:00:00" 0;
        Acquire "doc1" "2025-01-01T10:00:00" 120000001;
        Release "doc1" "2025-01-01T10:00:00";
        Acquire "doc1" "2025-01-01T10:00:00" 120000002] ∅).1
    = [Some true; Some true; None; Some true].
Proof.
  apply (late_release_frees_newer_lock "doc1" "2025-01-01T10:00:00" 0
           120000001 120000002 ∅).
  - vm_compute. reflexivity.
  - lia.
Defined.

End SlotLockLaws.
(* ===================================================================== *)
(** * Further laws of the classifier cascade *)
(* ===================================================================== *)

Module ClassifierLaws.
Import Str StrFacts Schemas Classifier ClassifierSpec.

Local Open Scope float_scope.

(** ** The enums *)

(** [IntentType(v)] and [UrgencyLevel(v)] yield a member exactly for the
    member's own value, letter case included; so a member's value names the
    member again, and no two members share a value. *)
Theorem enum_lookup_iff :
  (∀ v i, enum_of_value IntentType_members IntentType_value v = Ok i
          ↔ v = IntentType_value i) ∧
  (∀ v u, enum_of_value UrgencyLevel_members UrgencyLevel_value v = Ok u
          ↔ v = UrgencyLevel_value u).
Proof.
  split; intros v m;
    (split; [intros H; symmetry; by apply enum_of_value_member in H|]);
    intros ->; by destruct m.
Qed.

Example enum_is_case_sensitive :
  enum_of_value IntentType_members IntentType_value "EMERGENCY"
  = Raise (PyException "ValueError").
Proof. reflexivity. Qed.

(** ** The keyword fallback *)

(** Whatever the message, the keyword fallback never reports an emergency,
    never a critical urgency and never asks for an ambulance; it names no
    department and no entities; its urgency is urgent exactly for a symptom
    report; and its confidence lies between 0.5 and 0.9. *)
Theorem fallback_is_never_alarming (message : string) :
  let c := _fallback_classification message in
  intent c ≠ EMERGENCY ∧ urgency c ≠ CRITICAL ∧
  needs_ambulance c = false ∧ department c = None ∧ entities c = None ∧
  (urgency c = URGENT ↔ intent c = SYMPTOM_REPORT) ∧
  (0.5 <=? confidence c) = true ∧ (confidence c <=? 0.9) = true.
Proof.
  unfold _fallback_classification.
  repeat match goal with
         | |- context [if ?b then _ else _] => destruct b
         end; cbn [intent urgency needs_ambulance department entities
                   confidence AIClassification_default];
    repeat split; try discriminate; try reflexivity.
Qed.

Lemma contains_trans (a b c : string) :
  contains a b = true → contains b c = true → contains a c = true.
Proof.
  rewrite !contains_spec. intros (l1 & r1 & ->) (l2 & r2 & ->).
  exists (l2 +:+ l1), (r1 +:+ r2). by rewrite !app_assoc.
Qed.

Lemma any_in_mono (ws : list string) (phrase s : string) :
  any_in ws phrase = true → contains phrase s = true → any_in ws s = true.
Proof.
  unfold any_in. rewrite !existsb_exists. intros (w & Hw & Hc) Hp.
  exists w. split; [done|]. by apply (contains_trans w phrase s).
Qed.

(** The greeting test comes first and works on substrings: a message whose
    lower-case text contains any phrase in which a greeting word occurs
    (such as "hi" in "child", "this" or "high fever") is classified as a
    non-urgent greeting, whatever symptom words it also contains. *)
Theorem greeting_words_shadow_symptoms (message phrase : string) :
  any_in ["hello"; "hi"; "hey"; "good morning"; "good evening"] phrase = true →
  contains phrase (lower message) = true →
  _fallback_classification message = AIClassification_default GREETING 0.9.
Proof.
  intros Hw Hp. unfold _fallback_classification.
  by rewrite (any_in_mono _ phrase (lower message) Hw Hp).
Qed.

Lemma greeting_words_shadow_witness :
  any_in ["hello"; "hi"; "hey"; "good morning"; "good evening"] "high fever"
    = true ∧
  contains "high fever" (lower "My child has a HIGH FEVER and a cough") = true ∧
  _fallback_classification "My child has a HIGH FEVER and a cough"
    = AIClassification_default GREETING 0.9.
Proof.
  assert (any_in ["hello"; "hi"; "hey"; "good morning"; "good evening"]
            "high fever" = true) as Hw by reflexivity.
  assert (contains "high fever"
            (lower "My child has a HIGH FEVER and a cough") = true) as Hp
    by reflexivity.
  split; [exact Hw|]. split; [exact Hp|].
  exact (greeting_words_shadow_symptoms
           "My child has a HIGH FEVER and a cough" "high fever" Hw Hp).
Defined.

(** ** The cascade when the model call fails *)

(** When the model call fails, the cascade reports an emergency exactly for
    the messages that contain a trigger phrase: the rule layer alone decides,
    the fallback never adds an emergency of its own. *)
Theorem emergency_iff_trigger_when_model_fails
    (env : collaborators) (message : string) :
  llm_failure env message →
  ∃ c, classify_intent env message = Ok c ∧
       (intent c = EMERGENCY ↔
        ∃ t d, In (t, d) emergency_triggers ∧
               contains t (lower message) = true).
Proof.
  intros Hfail. unfold classify_intent.
  destruct (_check_emergency_rules message) as [r|] eqn:Hrule.
  - exists r. split; [done|].
    destruct (rule_layer_invariant message r Hrule) as [Hi _].
    split; [intros _|done].
    unfold _check_emergency_rules in Hrule.
    destruct (first_trigger (lower message)) as [[t d]|] eqn:Hf;
      [|discriminate].
    exists t, d. by apply first_trigger_sound.
  - exists (_fallback_classification message). split.
    + by destruct (llm_failure_outcome env message Hfail) as [-> | [e ->]].
    + split.
      * intros Hi. by destruct (fallback_never_emergency message).
      * intros (t & d & Hin & Hc).
        destruct (first_trigger_found _ _ _ Hin Hc) as (t' & d' & Hf).
        unfold _check_emergency_rules in Hrule. by rewrite Hf in Hrule.
Qed.

Lemma emergency_iff_trigger_witness :
  llm_failure unavailable "my stomach hurts" ∧
  ∃ c, classify_intent unavailable "my stomach hurts" = Ok c ∧
       (intent c = EMERGENCY ↔
        ∃ t d, In (t, d) emergency_triggers ∧
               contains t (lower "my stomach hurts") = true).
Proof.
  assert (llm_failure unavailable "my stomach hurts") as Hfail.
  { apply (service_raises _ _ (PyException "ConnectError")). reflexivity. }
  split; [exact Hfail|].
  exact (emergency_iff_trigger_when_model_fails unavailable
           "my stomach hurts" Hfail).
Defined.

(** ** The code fence around a reply *)

Lemma after_first_app (c : ascii) (l r : string) :
  contains (String c "") l = false →
  after_first c (l +:+ String c r) = Some r.
Proof.
  induction l as [|a l IH]; simpl.
  - by rewrite Ascii.eqb_refl.
  - intros H. apply orb_false_iff in H as [Hs Hc].
    assert (Ascii.eqb a c = false) as ->.
    { rewrite Ascii.eqb_sym. destruct (Ascii.eqb c a); [|done].
      simpl in Hs. by destruct l. }
    apply IH. by destruct l.
Qed.

Lemma before_last_short (sep s : string) :
  (String.length s < String.length sep)%nat → before_last sep s = None.
Proof.
  induction s as [|a s IH]; intros Hl; [done|].
  cbn [before_last]. rewrite IH by (simpl in Hl; lia).
  destruct (startswith sep (String a s)) eqn:Hs; [|done].
  apply startswith_spec in Hs as [r Hr].
  apply (f_equal String.length) in Hr.
  rewrite RegexFacts.length_app in Hr. lia.
Qed.

Lemma before_last_app (sep body : string) :
  sep ≠ "" → before_last sep (body +:+ sep) = Some body.
Proof.
  intros Hne. induction body as [|c body IH].
  - destruct sep as [|a sep']; [done|].
    change ("" +:+ String a sep') with (String a sep').
    cbn [before_last]. rewrite before_last_short by (simpl; lia).
    change (startswith (String a sep') (String a sep'))
      with (Ascii.eqb a a && startswith sep' sep').
    rewrite Ascii.eqb_refl.
    rewrite <- (app_nil_r sep') at 2. by rewrite startswith_app.
  - change (String c body +:+ sep) with (String c (body +:+ sep)).
    cbn [before_last]. by rewrite IH.
Qed.

(** A reply wrapped in a markdown code fence is unwrapped: when the stripped
    reply is an opening fence with a language tag on its first line, a body,
    and a closing fence, the text handed to the JSON decoder is exactly the
    body, whatever the body holds (further fences included). *)
Theorem fenced_reply_is_unwrapped (response lang body : string) :
  strip response = "```" +:+ lang +:+ String nl (body +:+ "```") →
  contains (String nl "") lang = false →
  clean_text response = body.
Proof.
  intros Hs Hl. unfold clean_text. rewrite Hs.
  rewrite startswith_app.
  unfold split1_last, rsplit1_first.
  change (after_first nl ("```" +:+ lang +:+ String nl (body +:+ "```")))
    with (after_first nl (lang +:+ String nl (body +:+ "```"))).
  rewrite (after_first_app nl lang _ Hl).
  by rewrite before_last_app.
Qed.

Lemma fenced_reply_witness :
  let body := "{}" +:+ String nl "" in
  let response :=
    " ```json" +:+ String nl (body +:+ "```") +:+ String nl "" in
  strip response = "```" +:+ "json" +:+ String nl (body +:+ "```") ∧
  contains (String nl "") "json" = false ∧
  clean_text response = body.
Proof.
  intros body response.
  assert (strip response = "```" +:+ "json" +:+ String nl (body +:+ "```"))
    as Hs by reflexivity.
  assert (contains (String nl "") "json" = false) as Hl by reflexivity.
  split; [exact Hs|]. split; [exact Hl|].
  exact (fenced_reply_is_unwrapped response "json" body Hs Hl).
Defined.

Example fence_on_one_line_is_kept :
  clean_text ("```{}```") = "```{}".
Proof. reflexivity. Qed.

End ClassifierLaws.
(* ===================================================================== *)
(** * Further laws of the triage engine *)
(* ===================================================================== *)

Module TriageLaws.
Import Str StrFacts Schemas Triage TriageSpec TriageApi.

Local Open Scope float_scope.

(** ** The detection is the sorted list of matches *)

Lemma insert_desc_perm (x : string * float) (l : list (string * float)) :
  insert_desc x l ≡ₚ x :: l.
Proof.
  induction l as [|y l IH]; simpl; [done|].
  destruct (snd x <? snd y); [|done].
  rewrite IH. apply Permutation_swap.
Qed.

Lemma sort_desc_perm (l : list (string * float)) : sort_desc l ≡ₚ l.
Proof.
  induction l as [|x l IH]; simpl; [done|].
  by rewrite insert_desc_perm, IH.
Qed.

Lemma insert_desc_sorted (x : string * float) (l : list (string * float)) :
  In (snd x) weights →
  (∀ y, In y l → In (snd y) weights) →
  StronglySorted heavier l →
  StronglySorted heavier (insert_desc x l).
Proof.
  intros Hx Hl Hs. induction Hs as [|y l Hs IH Hy]; simpl.
  - constructor; [constructor|constructor].
  - assert (In (snd y) weights) as Hyw by (apply Hl; by left).
    destruct (snd x <? snd y) eqn:Hlt.
    + constructor.
      * apply IH. intros z Hz. apply Hl. by right.
      * rewrite List.Forall_forall. intros z Hz.
        apply insert_desc_In in Hz as [->|Hz].
        -- unfold heavier. by apply lt_le_weight.
        -- rewrite List.Forall_forall in Hy. by apply Hy.
    + constructor; [by constructor|].
      assert (heavier x y) as Hxy by (by apply not_lt_ge_weight).
      constructor; [exact Hxy|].
      rewrite List.Forall_forall in Hy |- *. intros z Hz.
      unfold heavier in *.
      apply (le_trans_weight (snd z) (snd y) (snd x)); auto.
      apply Hl. by right.
Qed.

Lemma sort_desc_sorted (l : list (string * float)) :
  (∀ y, In y l → In (snd y) weights) →
  StronglySorted heavier (sort_desc l).
Proof.
  induction l as [|x l IH]; intros Hl; simpl; [constructor|].
  apply insert_desc_sorted.
  - apply Hl. by left.
  - intros y Hy. rewrite sort_desc_In in Hy. apply Hl. by right.
  - apply IH. intros y Hy. apply Hl. by right.
Qed.

(** The detected symptoms are exactly the table entries that occur in the
    lower-cased message, each once, arranged so that every entry weighs at
    least as much as all entries after it. *)
Theorem detection_is_sorted_matches (message : string) :
  _detect_symptoms (lower message) ≡ₚ matched message ∧
  StronglySorted heavier (_detect_symptoms (lower message)) ∧
  (∀ symptom w, In (symptom, w) (_detect_symptoms (lower message)) ↔
                In (symptom, w) SYMPTOM_SEVERITY_MAP ∧
                contains symptom (lower message) = true).
Proof.
  rewrite detect_is_sorted_matched. split; [apply sort_desc_perm|]. split.
  - apply sort_desc_sorted. intros y Hy. by apply (matched_weight message).
  - intros symptom w. rewrite sort_desc_In. unfold matched.
    rewrite filter_In. done.
Qed.

(** ** A matched symptom bounds the score from below *)

Lemma all_weights_checked :
  (let scs := scored in
   forallb (fun w => forallb (weight_checks w) scs) weights) = true.
Proof. vm_compute. reflexivity. Qed.

Lemma weight_checked (w wh : float) (n : nat) :
  In w weights → In wh weights → (1 <= n <= 60)%nat →
  weight_checks w (wh, severity_of wh n, py_round (severity_of wh n) 3) = true.
Proof.
  intros Hw Hwh Hn. pose proof all_weights_checked as H. cbv zeta in H.
  rewrite forallb_forall in H. specialize (H w Hw).
  rewrite forallb_forall in H. apply H.
  unfold scored. apply in_map_iff. exists (wh, n). split; [done|].
  apply in_prod; [done|]. apply List.in_seq. lia.
Qed.

(** Every symptom of the table that occurs in the message bounds the
    assessment from below: the returned score is at least the symptom's
    weight, and further matches never dilute it; a symptom of weight 0.9 or
    more forces the ambulance flag, one of 0.8 or more the CRITICAL level and
    the attention flag, one of 0.5 or more rules out NON_URGENT. *)
Theorem matched_symptom_bounds_assessment
    (message symptom : string) (w : float) :
  In (symptom, w) SYMPTOM_SEVERITY_MAP →
  contains symptom (lower message) = true →
  let r := assess message in
  (w <=? severity_score r) = true ∧
  ((0.9 <=? w) = true → needs_ambulance r = true) ∧
  ((0.8 <=? w) = true →
   severity_level r = "CRITICAL" ∧ needs_immediate_attention r = true) ∧
  ((0.5 <=? w) = true → severity_level r ≠ "NON_URGENT").
Proof.
  intros Hin Hc r.
  assert (In (symptom, w) (matched message)) as Hm.
  { unfold matched. apply filter_In. by split. }
  destruct (assess_fields message) as (Hs & Hl & Hi & Ha).
  destruct (detect_shape message) as
    [[Hnil _] | (s & wh & rest & Hd & Hh & Hmax & Hlen)].
  { rewrite Hnil in Hm. destruct Hm. }
  rewrite Hd, calculate_severity_cons in Hs, Hl, Hi, Ha.
  pose proof (matched_length message) as Hlen60.
  pose proof (weight_checked w wh (S (length rest))
                (matched_weight message (symptom, w) Hm)
                (matched_weight message (s, wh) Hh) ltac:(lia)) as Hchk.
  unfold weight_checks in Hchk.
  pose proof (Hmax (symptom, w) Hm) as Hle. cbn [snd] in Hle.
  rewrite Hle in Hchk. cbn [implb] in Hchk.
  apply andb_true_iff in Hchk as [Hchk H5].
  apply andb_true_iff in Hchk as [Hchk H8].
  apply andb_true_iff in Hchk as [Hchk H9].
  apply andb_true_iff in Hchk as [Hsc Hr].
  subst r. rewrite Hs, Hl, Hi, Ha. unfold level_of.
  split; [exact Hr|]. split; [|split].
  - intros H. by rewrite H in H9.
  - intros H. rewrite H in H8. cbn [implb] in H8. by rewrite H8.
  - intros H. rewrite H in H5. cbn [implb] in H5. rewrite H5.
    by destruct (0.8 <=? severity_of wh (S (length rest))).
Qed.

Lemma matched_symptom_witness :
  let message := "He is STABLE now, just a cough" in
  In ("stab", 1.0) SYMPTOM_SEVERITY_MAP ∧
  contains "stab" (lower message) = true ∧
  (1.0 <=? severity_score (assess message)) = true ∧
  needs_ambulance (assess message) = true ∧
  severity_level (assess message) = "CRITICAL".
Proof.
  intros message.
  assert (In ("stab", 1.0) SYMPTOM_SEVERITY_MAP) as Hin
    by (unfold SYMPTOM_SEVERITY_MAP; simpl; tauto).
  assert (contains "stab" (lower message) = true) as Hc by reflexivity.
  split; [exact Hin|]. split; [exact Hc|].
  destruct (matched_symptom_bounds_assessment message "stab" 1.0 Hin Hc)
    as (Hs & Ha & Hl & _).
  split; [exact Hs|]. split; [by apply Ha|]. by apply Hl.
Defined.

(** ** The flags and the level agree *)

Lemma all_chains_checked :
  forallb (fun w => forallb (fun n => chain_checks (severity_of w n))
                      (seq 1 60)) weights = true
  ∧ chain_checks 0.1 = true.
Proof. split; vm_compute; reflexivity. Qed.

Lemma detected_chain_checked (message : string) :
  chain_checks (_calculate_severity (_detect_symptoms (lower message))) = true.
Proof.
  destruct all_chains_checked as [Hall Hbase].
  destruct (detect_shape message) as
    [[_ ->] | (s & w & rest & -> & Hin & _ & Hlen)].
  - exact Hbase.
  - rewrite calculate_severity_cons.
    rewrite forallb_forall in Hall.
    specialize (Hall w (matched_weight message (s, w) Hin)).
    rewrite forallb_forall in Hall. apply Hall. apply List.in_seq.
    pose proof (matched_length message). lia.
Qed.

Lemma chain_gives_agreement (r : TriageResult) (sc : float) :
  chain_checks sc = true →
  severity_level r = level_of sc →
  needs_immediate_attention r = (0.8 <=? sc) →
  needs_ambulance r = (0.9 <=? sc) →
  (needs_immediate_attention r = true ↔ severity_level r = "CRITICAL") ∧
  (needs_ambulance r = true → needs_immediate_attention r = true) ∧
  (needs_ambulance r = true → severity_level r = "CRITICAL").
Proof.
  unfold chain_checks, level_of. intros Hc -> -> ->.
  destruct (0.9 <=? sc), (0.8 <=? sc), (0.5 <=? sc); simpl in Hc;
    try discriminate; repeat split; try done; try discriminate.
Qed.

(** The two flags and the level never disagree: immediate attention is
    flagged exactly for the CRITICAL level, and an ambulance is requested
    only when immediate attention is flagged, hence only for CRITICAL. *)
Theorem ambulance_only_when_critical (message : string) :
  (needs_immediate_attention (assess message) = true
   ↔ severity_level (assess message) = "CRITICAL") ∧
  (needs_ambulance (assess message) = true
   → needs_immediate_attention (assess message) = true) ∧
  (needs_ambulance (assess message) = true
   → severity_level (assess message) = "CRITICAL").
Proof.
  destruct (assess_fields message) as (_ & Hl & Hi & Ha).
  exact (chain_gives_agreement (assess message) _
           (detected_chain_checked message) Hl Hi Ha).
Qed.

(** ** Unrecognised text *)

(** A message in which no symptom of the table occurs gets the baseline
    assessment: score 0.1, level NON_URGENT, no flag, no symptom, the three
    generic tips and the no-symptoms note; only the department still depends
    on the text. *)
Theorem unrecognised_text_gets_baseline (message : string) :
  matched message = [] →
  assess message =
    {| severity_score := 0.1;
       severity_level := "NON_URGENT";
       recommended_department := _determine_department (lower message);
       detected_symptoms := [];
       needs_immediate_attention := false;
       needs_ambulance := false;
       triage_notes :=
         "No specific symptoms detected. Recommended: "
         +:+ _determine_department (lower message) +:+ " consultation.";
       first_aid_tips :=
         ["Rest and stay hydrated";
          "Monitor symptoms and note any changes";
          "Seek medical attention if symptoms worsen"] |}.
Proof.
  intros Hm. unfold assess. rewrite detect_is_sorted_matched, Hm.
  cbn [sort_desc]. exact eq_refl.
Qed.

Lemma unrecognised_text_witness :
  matched "Where can I park? My baby is with me" = [] ∧
  severity_level (assess "Where can I park? My baby is with me")
    = "NON_URGENT" ∧
  recommended_department (assess "Where can I park? My baby is with me")
    = "Pediatrics".
Proof.
  assert (matched "Where can I park? My baby is with me" = []) as Hm
    by (vm_compute; reflexivity).
  split; [exact Hm|].
  rewrite (unrecognised_text_gets_baseline _ Hm).
  split; reflexivity.
Defined.

(** ** First aid *)

Lemma step_keeps_prefix (pre tips more : list string) (b : bool) :
  (∃ rest, tips = (pre ++ rest)%list) →
  ∃ rest, (if b then extend tips more else tips) = (pre ++ rest)%list.
Proof.
  intros [rest ->]. destruct b; [|by exists rest].
  exists (rest ++ more)%list. unfold extend. by rewrite List.app_assoc.
Qed.

Lemma get_first_aid_nonempty (symptoms : list (string * float))
    (severity : string) :
  _get_first_aid symptoms severity ≠ [].
Proof.
  unfold _get_first_aid. cbv zeta.
  match goal with
  | |- match ?t with [] => _ | _ :: _ => _ end ≠ [] => destruct t
  end; discriminate.
Qed.

(** The first-aid list is never empty, whatever the symptoms and the level;
    and for the CRITICAL level it opens with the three emergency
    instructions, the call to the emergency services first. *)
Theorem first_aid_never_empty (symptoms : list (string * float))
    (severity : string) :
  _get_first_aid symptoms severity ≠ [] ∧
  (severity = "CRITICAL" →
   ∃ rest, _get_first_aid symptoms severity =
     "🚨 Call emergency services (108) IMMEDIATELY"
     :: "Do NOT move the patient unless in immediate danger"
     :: "Monitor consciousness and breathing" :: rest).
Proof.
  split; [apply get_first_aid_nonempty|].
  unfold _get_first_aid. cbv zeta.
  intros ->. rewrite String.eqb_refl.
    match goal with
    | |- ∃ rest, match ?t with [] => _ | _ :: _ => _ end = ?a :: ?b :: ?c :: rest =>
        assert (∃ rest, t = ([a; b; c] ++ rest)%list) as [rest Hr]
    end.
    { do 8 apply step_keeps_prefix. by exists []. }
    rewrite Hr. by exists rest.
Qed.

(** The first-aid endpoint therefore never takes its branch for an empty
    list: for every condition it answers with the engine's tips, the level
    and the recommended department. *)
Theorem first_aid_endpoint_always_detailed (condition : string) :
  get_first_aid condition =
    JDict [("condition", JStr condition);
           ("tips", JList (map JStr (first_aid_tips (assess condition))));
           ("severity", JStr (severity_level (assess condition)));
           ("recommended_department",
            JStr (recommended_department (assess condition)))]
  ∧ first_aid_tips (assess condition) ≠ [].
Proof.
  assert (first_aid_tips (assess condition) ≠ []) as Hne.
  { unfold assess. cbn [first_aid_tips]. apply get_first_aid_nonempty. }
  split; [|exact Hne]. unfold get_first_aid.
  destruct (first_aid_tips (assess condition)); [done|reflexivity].
Qed.

(** ** Departments *)

Lemma table_departments_listed :
  forallb (fun '(_, d) => existsb (fun '(name, _) => String.eqb name d)
                            departments) SYMPTOM_DEPARTMENT_MAP = true.
Proof. vm_compute. reflexivity. Qed.

(** The recommended department is always one of the departments the
    departments endpoint lists; it is General Medicine when no routing
    keyword occurs in the message, and otherwise the department of a routing
    keyword that does occur. *)
Theorem department_is_listed (message : string) :
  let d := recommended_department (assess message) in
  (∃ description, In (d, description) departments) ∧
  ((∀ keyword dep, In (keyword, dep) SYMPTOM_DEPARTMENT_MAP →
                   contains keyword (lower message) = false) →
   d = "General Medicine") ∧
  (∀ keyword dep, In (keyword, dep) SYMPTOM_DEPARTMENT_MAP →
                  contains keyword (lower message) = true →
                  ∃ keyword', In (keyword', d) SYMPTOM_DEPARTMENT_MAP ∧
                              contains keyword' (lower message) = true).
Proof.
  intros d. subst d. unfold assess. cbn [recommended_department].
  unfold _determine_department.
  destruct (find _ SYMPTOM_DEPARTMENT_MAP) as [[k dep]|] eqn:Hf.
  - apply find_some in Hf as [Hin Hc]. split; [|split].
    + pose proof table_departments_listed as H.
      rewrite forallb_forall in H. specialize (H _ Hin). cbv beta iota in H.
      apply existsb_exists in H as ([name descr] & Hd & He).
      apply String.eqb_eq in He. subst name. by exists descr.
    + intros Hnone. rewrite (Hnone k dep Hin) in Hc. discriminate.
    + intros _ _ _ _. by exists k.
  - split; [|split].
    + eexists. unfold departments. do 11 right. left. reflexivity.
    + done.
    + intros keyword dep Hin Hc.
      pose proof (find_none _ _ Hf _ Hin) as Hn. cbv beta iota in Hn.
      congruence.
Qed.

End TriageLaws.
(* ===================================================================== *)
(** * Further laws of the guardrails *)
(* ===================================================================== *)

Module GuardrailsLaws.
Import Str StrFacts Regex RegexFacts Guardrails GuardrailsSpec.

Lemma apply_patterns_flag_stays (patterns : list regex)
    (placeholder response : string) : ∀ st,
  snd st = true →
  snd (apply_patterns patterns placeholder response st) = true.
Proof.
  unfold apply_patterns.
  induction patterns as [|p ps IH]; intros [f m] Hm; [exact Hm|].
  cbn [fold_left]. apply IH. by destruct (re_search p response).
Qed.

Lemma apply_patterns_unflagged (patterns : list regex)
    (placeholder response : string) : ∀ st,
  snd (apply_patterns patterns placeholder response st) = false →
  apply_patterns patterns placeholder response st = st ∧
  Forall (fun p => re_search p response = false) patterns.
Proof.
  unfold apply_patterns.
  induction patterns as [|p ps IH]; intros [f m] Hm; [by split|].
  cbn [fold_left] in *.
  destruct (re_search p response) eqn:Hs.
  - pose proof (apply_patterns_flag_stays ps placeholder response
                  (re_sub p placeholder f, true) eq_refl) as Ht.
    unfold apply_patterns in Ht. congruence.
  - destruct (IH _ Hm) as [-> Hall]. split; [done|by constructor].
Qed.

Lemma apply_patterns_no_match (patterns : list regex)
    (placeholder response : string) (st : string * bool) :
  Forall (fun p => re_search p response = false) patterns →
  apply_patterns patterns placeholder response st = st.
Proof.
  unfold apply_patterns. revert st.
  induction patterns as [|p ps IH]; intros [f m] Hall; [done|].
  inversion Hall as [|? ? Hp Hps]; subst.
  cbn [fold_left]. rewrite Hp. by apply IH.
Qed.

(** The modified flag is honest in both directions.  A check that reports no
    modification returns the response itself, and then none of the twenty-one
    patterns is found in the response and no disclaimer was due; conversely a
    response in which no pattern is found and that names no symptom keyword
    comes back unchanged and unflagged. *)
Theorem unmodified_iff_untouched (response : string) :
  (snd (check_guardrails response) = false →
   fst (check_guardrails response) = response ∧
   Forall (fun p => re_search p response = false)
     (DIAGNOSIS_PATTERNS ++ PRESCRIPTION_PATTERNS ++ UNSAFE_CLAIM_PATTERNS) ∧
   appends_disclaimer response response = false) ∧
  (Forall (fun p => re_search p response = false)
     (DIAGNOSIS_PATTERNS ++ PRESCRIPTION_PATTERNS ++ UNSAFE_CLAIM_PATTERNS) →
   any_in symptom_keywords (lower response) = false →
   check_guardrails response = (response, false)).
Proof.
  split.
  - rewrite check_guardrails_unfold.
    destruct (appends_disclaimer response (fst (filter_patterns response)))
      eqn:Happ; [discriminate|].
    intros Hm. unfold filter_patterns in *.
    apply apply_patterns_unflagged in Hm as Hu. destruct Hu as [Hu HU].
    rewrite Hu in Hm, Happ |- *.
    apply apply_patterns_unflagged in Hm as Hp. destruct Hp as [Hp HP].
    rewrite Hp in Hm, Happ |- *.
    apply apply_patterns_unflagged in Hm as Hd. destruct Hd as [Hd HD].
    rewrite Hd in Happ |- *. cbn [fst] in *.
    split; [done|]. split; [|done].
    apply Forall_app. split; [done|]. apply Forall_app. by split.
  - intros Hall Hkw.
    apply Forall_app in Hall as [HD Hall].
    apply Forall_app in Hall as [HP HU].
    rewrite check_guardrails_unfold. unfold filter_patterns.
    rewrite (apply_patterns_no_match DIAGNOSIS_PATTERNS _ _ _ HD).
    rewrite (apply_patterns_no_match PRESCRIPTION_PATTERNS _ _ _ HP).
    rewrite (apply_patterns_no_match UNSAFE_CLAIM_PATTERNS _ _ _ HU).
    cbn [fst]. unfold appends_disclaimer. by rewrite Hkw.
Qed.

Lemma unmodified_witness :
  let response :=
    "Our cardiology department is open 9 AM to 5 PM on weekdays." in
  snd (check_guardrails response) = false ∧
  fst (check_guardrails response) = response.
Proof.
  intros response.
  assert (snd (check_guardrails response) = false) as Hm
    by (vm_compute; reflexivity).
  split; [exact Hm|].
  exact (proj1 (proj1 (unmodified_iff_untouched response) Hm)).
Defined.

(** Whenever the response names a symptom keyword, the checked text carries
    the medical disclaimer, whether the check appended it or found it. *)
Theorem symptom_talk_carries_disclaimer (response : string) :
  any_in symptom_keywords (lower response) = true →
  contains MEDICAL_DISCLAIMER (fst (check_guardrails response)) = true.
Proof.
  intros Hkw. rewrite check_guardrails_unfold. unfold appends_disclaimer.
  rewrite Hkw. cbn [andb].
  destruct (contains MEDICAL_DISCLAIMER (fst (filter_patterns response)))
    eqn:Hc; cbn [negb fst].
  - exact Hc.
  - apply contains_app_r.
Qed.

Lemma symptom_talk_witness :
  any_in symptom_keywords (lower "Chest PAIN can have many causes.") = true ∧
  contains MEDICAL_DISCLAIMER
    (fst (check_guardrails "Chest PAIN can have many causes.")) = true.
Proof.
  assert (any_in symptom_keywords
            (lower "Chest PAIN can have many causes.") = true) as Hkw
    by reflexivity.
  split; [exact Hkw|].
  exact (symptom_talk_carries_disclaimer _ Hkw).
Defined.

(** [add_safety_disclaimer] leaves a response alone outside an emergency; in
    an emergency its result carries the emergency notice; and applying it
    twice is applying it once. *)
Theorem emergency_notice_added_once (response : string) (is_emergency : bool) :
  add_safety_disclaimer response false = response ∧
  contains EMERGENCY_DISCLAIMER (add_safety_disclaimer response true) = true ∧
  add_safety_disclaimer (add_safety_disclaimer response is_emergency)
    is_emergency = add_safety_disclaimer response is_emergency.
Proof.
  unfold add_safety_disclaimer. split; [done|]. split.
  - cbn [andb].
    destruct (contains EMERGENCY_DISCLAIMER response) eqn:Hc; cbn [negb].
    + exact Hc.
    + apply contains_app_r.
  - destruct is_emergency; cbn [andb]; [|done].
    destruct (contains EMERGENCY_DISCLAIMER response) eqn:Hc; cbn [negb].
    + by rewrite Hc.
    + by rewrite contains_app_r.
Qed.

End GuardrailsLaws.
(* ===================================================================== *)
(** * Further laws of the emergency orchestrator *)
(* ===================================================================== *)

Module OrchestratorLaws.
Import Str StrFacts Schemas Triage TriageSpec TriageLaws Orchestrator
  OrchestratorSpec.

Local Open Scope float_scope.

Lemma level_is_one_of_three (message : string) :
  severity_level (assess message) = "CRITICAL" ∨
  severity_level (assess message) = "URGENT" ∨
  severity_level (assess message) = "NON_URGENT".
Proof.
  destruct (assess_fields message) as (_ & -> & _). unfold level_of.
  generalize (_calculate_severity (_detect_symptoms (lower message))).
  intros sc. destruct (0.8 <=? sc); [by left|].
  destruct (0.5 <=? sc); [right; by left | right; by right].
Qed.

(** ** The recorded orchestrator returns what the orchestrator returns *)

Lemma recorded_log_action (env : collaborators) (action resource : string)
    (details : list (string * json)) :
  Recorded.outcome (Recorded.log_action env action resource details)
    = log_action env action resource details.
Proof.
  unfold Recorded.log_action, log_action, Recorded.try_except, try_except,
    Recorded.quiet, Recorded.auditlog_create.
  destruct (get_db env) as [[]|e]; cbn; [|reflexivity].
  by destruct (auditlog_create env action resource details) as [[]|e].
Qed.

Lemma recorded_create_case (env : collaborators) (t : TriageResult)
    (context : ConversationContext) (message : string) :
  Recorded.outcome (Recorded._create_emergency_case env t context message)
    = _create_emergency_case env t context message.
Proof.
  unfold Recorded._create_emergency_case, _create_emergency_case,
    Recorded.try_except, try_except, Recorded.quiet,
    Recorded.emergencycase_create, Recorded.log_action, log_action,
    Recorded.auditlog_create, Recorded.try_except, try_except,
    Recorded.quiet.
  fold (case_of t context message).
  destruct (get_db env) as [[]|e]; cbn; [|reflexivity].
  destruct (emergencycase_create env (case_of t context message))
    as [case_id|e]; cbn; [|reflexivity].
  by destruct (auditlog_create env _ _ _) as [[]|e].
Qed.

Lemma recorded_outcome (env : collaborators) (message : string)
    (context : ConversationContext) :
  Recorded.outcome (Recorded.evaluate_and_respond env message context)
    = evaluate_and_respond env message context.
Proof.
  unfold Recorded.evaluate_and_respond, evaluate_and_respond. cbv zeta.
  generalize (assess message). intros t.
  destruct (String.eqb (severity_level t) "CRITICAL" ||
            String.eqb (severity_level t) "URGENT"); [|reflexivity].
  pose proof (recorded_create_case env t context message) as Hc.
  destruct (create_case_total env t context message) as (id & Hid & _).
  rewrite Hid in Hc. rewrite Hid.
  destruct (Recorded._create_emergency_case env t context message) as [o l].
  cbn in Hc. subst o. reflexivity.
Qed.

(** What is on record for an assessment that calls for a case: nothing when
    the handle cannot be obtained; otherwise the write of the case, followed
    by the audit entry when that write succeeded. *)
Lemma case_write_is_recorded (env : collaborators) (message : string)
    (context : ConversationContext) :
  severity_level (assess message) = "CRITICAL" ∨
  severity_level (assess message) = "URGENT" →
  Recorded.calls (Recorded.evaluate_and_respond env message context)
    = match get_db env with
      | Raise _ => []
      | Ok _ =>
          Recorded.EmergencyCaseCreate (case_of (assess message) context message)
          :: match emergencycase_create env
                     (case_of (assess message) context message) with
             | Ok case_id =>
                 [Recorded.AuditLogCreate "EMERGENCY_CASE_CREATED"
                    "emergency_cases"
                    [("case_id", JStr case_id);
                     ("severity", JStr (severity_level (assess message)));
                     ("score", JFloat (severity_score (assess message)));
                     ("department",
                      JStr (recommended_department (assess message)));
                     ("session_id", JStr (session_id context))]]
             | Raise _ => []
             end
      end.
Proof.
  unfold Recorded.evaluate_and_respond. cbv zeta.
  generalize (assess message). intros t Hl.
  assert (String.eqb (severity_level t) "CRITICAL" ||
          String.eqb (severity_level t) "URGENT" = true) as ->.
  { destruct Hl as [-> | ->]; reflexivity. }
  unfold Recorded._create_emergency_case, Recorded.try_except,
    Recorded.quiet, Recorded.emergencycase_create, Recorded.log_action,
    Recorded.auditlog_create.
  fold (case_of t context message).
  destruct (get_db env) as [[]|e]; cbn; [|reflexivity].
  destruct (emergencycase_create env (case_of t context message))
    as [case_id|e]; cbn; [|reflexivity].
  by destruct (auditlog_create env _ _ _) as [[]|e].
Qed.

(** For a NON_URGENT assessment nothing is written and nobody is alerted: the
    orchestrator makes no call on the storage, neither for a case nor for
    the audit log; the action it returns is the same whatever the storage,
    the audit log and the clock do, and it carries no case id, no escalation
    text, no staff alert and no ambulance dispatch. *)
Theorem non_urgent_touches_nothing (env env' : collaborators)
    (message : string) (context : ConversationContext) :
  severity_level (assess message) = "NON_URGENT" →
  Recorded.calls (Recorded.evaluate_and_respond env message context) = [] ∧
  Recorded.outcome (Recorded.evaluate_and_respond env message context)
    = evaluate_and_respond env message context ∧
  evaluate_and_respond env message context
    = evaluate_and_respond env' message context ∧
  ∃ action,
    evaluate_and_respond env message context = Ok action ∧
    emergency_case_id action = None ∧ escalation_message action = "" ∧
    alert_staff action = false ∧ is_emergency action = false ∧
    dispatch_ambulance action = false.
Proof.
  intros Hl.
  split; [|split; [apply recorded_outcome|]].
  { unfold Recorded.evaluate_and_respond. cbv zeta. rewrite Hl.
    change (String.eqb "NON_URGENT" "CRITICAL") with false.
    change (String.eqb "NON_URGENT" "URGENT") with false.
    reflexivity. }
  destruct (assess_fields message) as (_ & Hlv & Him & Ham).
  destruct (chain_gives_agreement (assess message) _
              (detected_chain_checked message) Hlv Him Ham) as (_ & _ & Hamb).
  assert (needs_ambulance (assess message) = false) as Ha.
  { destruct (needs_ambulance (assess message)); [|done].
    rewrite (Hamb eq_refl) in Hl. discriminate. }
  unfold evaluate_and_respond. cbv zeta. rewrite Hl, Ha.
  change (String.eqb "NON_URGENT" "CRITICAL") with false.
  change (String.eqb "NON_URGENT" "URGENT") with false.
  cbn [orb]. split; [reflexivity|].
  eexists. split; [reflexivity|]. by cbn.
Qed.

Lemma non_urgent_witness :
  severity_level (assess "I have a slight runny nose") = "NON_URGENT" ∧
  Recorded.calls
    (Recorded.evaluate_and_respond Recorded.storage_up
       "I have a slight runny nose" (anonymous "s1")) = [] ∧
  evaluate_and_respond Recorded.storage_up "I have a slight runny nose"
    (anonymous "s1")
  = evaluate_and_respond storage_down "I have a slight runny nose"
      (anonymous "s1").
Proof.
  assert (severity_level (assess "I have a slight runny nose") = "NON_URGENT")
    as Hl by (vm_compute; reflexivity).
  split; [exact Hl|].
  destruct (non_urgent_touches_nothing Recorded.storage_up storage_down
              "I have a slight runny nose" (anonymous "s1") Hl)
    as (Hcalls & _ & Hsame & _).
  split; [exact Hcalls | exact Hsame].
Defined.

(** On the same storage a message that is assessed CRITICAL leaves the case
    and its audit entry on record. *)
Example chest_pain_is_recorded :
  length (Recorded.calls
            (Recorded.evaluate_and_respond Recorded.storage_up
               "I have severe chest pain" (anonymous "s1"))) = 2%nat.
Proof. vm_compute. reflexivity. Qed.

(** For a CRITICAL or URGENT assessment with the database handle at hand, one
    case is written: it carries the patient id, the level as severity, the
    detected symptoms joined by commas (or, without any, the first 500
    characters of the message), the phone or UNKNOWN, and the triage notes.
    The action's case id is the id of the written case when the write
    succeeds, also when the audit log then fails, and absent when the write
    raises. *)
Theorem case_written_for_urgent_levels (env : collaborators)
    (message : string) (context : ConversationContext) :
  get_db env = Ok () →
  severity_level (assess message) = "CRITICAL" ∨
  severity_level (assess message) = "URGENT" →
  ∃ action,
    evaluate_and_respond env message context = Ok action ∧
    emergency_case_id action =
      match emergencycase_create env
              {| patientId := patient_id context;
                 severity := severity_level (assess message);
                 symptoms :=
                   match detected_symptoms (assess message) with
                   | [] => take 500 message
                   | names =>
                       or_else (Some (join ", " names)) (take 500 message)
                   end;
                 contactNumber := or_else (patient_phone context) "UNKNOWN";
                 notes := triage_notes (assess message) |} with
      | Ok case_id => Some case_id
      | Raise _ => None
      end.
Proof.
  intros Hdb Hl. unfold evaluate_and_respond. cbv zeta.
  generalize (assess message) Hl. clear Hl. intros t Hl.
  assert (String.eqb (severity_level t) "CRITICAL"
          || String.eqb (severity_level t) "URGENT" = true) as ->.
  { destruct Hl as [-> | ->]; reflexivity. }
  assert (severity_map_get (severity_level t) = severity_level t) as Hsev.
  { destruct Hl as [-> | ->]; reflexivity. }
  assert (or_else (Some (join ", " (detected_symptoms t))) (take 500 message)
          = match detected_symptoms t with
            | [] => take 500 message
            | names => or_else (Some (join ", " names)) (take 500 message)
            end) as Hsym.
  { by destruct (detected_symptoms t). }
  unfold _create_emergency_case. rewrite Hdb, Hsev, Hsym.
  cbn [mbind result_bind].
  match goal with
  | |- context [emergencycase_create env ?d] =>
      destruct (emergencycase_create env d) as [case_id|e]
  end; cbn [mbind result_bind try_except].
  - rewrite log_action_total. cbn [mbind result_bind try_except].
    eexists. split; [reflexivity|]. reflexivity.
  - eexists. split; [reflexivity|]. reflexivity.
Qed.

Lemma case_written_witness :
  let env :=
    {| get_db := Ok ();
       emergencycase_create := fun data =>
         Ok ("case for " +:+ contactNumber data +:+ ": " +:+ severity data);
       auditlog_create := fun _ _ _ => Raise (PyException "PrismaError");
       utcnow_isoformat := "2025-01-01T10:00:00";
       str_float := fun _ => "1.0" |} in
  ∃ action,
    evaluate_and_respond env "I have severe chest pain" (anonymous "s1")
      = Ok action ∧
    emergency_case_id action = Some "case for UNKNOWN: CRITICAL".
Proof.
  intros env.
  assert (get_db env = Ok ()) as Hdb by reflexivity.
  assert (severity_level (assess "I have severe chest pain") = "CRITICAL" ∨
          severity_level (assess "I have severe chest pain") = "URGENT")
    as Hl by (left; vm_compute; reflexivity).
  destruct (case_written_for_urgent_levels env "I have severe chest pain"
              (anonymous "s1") Hdb Hl) as (action & Hret & Hid).
  exists action. split; [exact Hret|].
  rewrite Hid. vm_compute. reflexivity.
Defined.

(** ** The patient guidance *)

Lemma join_empty_cons (p : string) (parts : list string) :
  join "" (p :: parts) = p +:+ join "" parts.
Proof. destruct parts; cbn [join]; [by rewrite app_nil_r | done]. Qed.

Lemma join_empty_app (a b : list string) :
  join "" (a ++ b)%list = join "" a +:+ join "" b.
Proof.
  induction a as [|p a IH]; [done|].
  change ((p :: a) ++ b)%list with (p :: (a ++ b)%list).
  by rewrite !join_empty_cons, IH, app_assoc.
Qed.

Lemma contains_between (l x r : string) : contains x (l +:+ x +:+ r) = true.
Proof. apply contains_spec. by exists l, r. Qed.

(** Every patient guidance ends with the automated-assessment note and names
    the level and the department; for the CRITICAL level it opens with the
    emergency banner. *)
Theorem guidance_frame (t : TriageResult) :
  endswith
    (NL +:+ "⚕️ *This is an automated triage assessment. "
     +:+ "A healthcare professional will confirm the evaluation.*")
    (_build_patient_guidance t) = true ∧
  contains ("**Severity Assessment:** " +:+ severity_level t +:+ NL
            +:+ "**Recommended Department:** " +:+ recommended_department t
            +:+ NL) (_build_patient_guidance t) = true ∧
  (severity_level t = "CRITICAL" →
   startswith "🚨 **EMERGENCY — IMMEDIATE ACTION REQUIRED**"
     (_build_patient_guidance t) = true).
Proof.
  unfold _build_patient_guidance, extend. cbv zeta.
  set (info := "**Severity Assessment:** " +:+ severity_level t +:+ NL
               +:+ "**Recommended Department:** " +:+ recommended_department t
               +:+ NL).
  set (note := NL +:+ "⚕️ *This is an automated triage assessment. "
               +:+ "A healthcare professional will confirm the evaluation.*").
  rewrite join_empty_app. cbn [join].
  set (banner := if String.eqb (severity_level t) "CRITICAL" then _ else _).
  set (tail := match first_aid_tips t with [] => _ | _ :: _ => _ end).
  assert (∃ r, join "" tail = join "" banner +:+ info +:+ r) as [r Hr].
  { subst tail.
    destruct (first_aid_tips t); destruct (needs_ambulance t);
      rewrite ?join_empty_app; cbn [join]; rewrite ?app_assoc;
      first [ eexists; reflexivity | exists ""; by rewrite app_nil_r ]. }
  rewrite Hr. split; [|split].
  - apply endswith_spec. by eexists.
  - rewrite !app_assoc. apply contains_between.
  - intros Hl. subst banner. rewrite Hl.
    change (String.eqb "CRITICAL" "CRITICAL") with true. cbn [join app].
    rewrite !app_assoc. apply startswith_app.
Qed.

End OrchestratorLaws.
(* ===================================================================== *)
(** * Laws of the appointment endpoints *)
(* ===================================================================== *)

Module AppointmentLaws.
Import SlotLock Appointments.

(** ** The lock around a booking *)

Lemma acquire_lock_cases (d t : string) (now : Z) (locks : gmap string Z) :
  let key := _get_lock_key d t in
  (∀ expiry, locks !! key = Some expiry → now ≤ expiry →
     _acquire_lock d t now locks = (false, locks)) ∧
  ((locks !! key = None ∨ ∃ expiry, locks !! key = Some expiry ∧ expiry < now) →
     _acquire_lock d t now locks
       = (true, <[key := now + timedelta_seconds LOCK_DURATION_SECONDS]>
                  (delete key locks))).
Proof.
  intros key. unfold _acquire_lock. fold key. split.
  - intros expiry Hk Hle. rewrite Hk.
    destruct (Z.ltb_spec expiry now) as [Hlt|_]; [lia|]. by rewrite Hk.
  - intros [Hk | (expiry & Hk & Hlt)]; rewrite Hk.
    + rewrite Hk. by rewrite (delete_id locks key Hk).
    + destruct (Z.ltb_spec expiry now) as [_|Hge]; [|lia].
      by rewrite lookup_delete_eq.
Qed.

Lemma book_appointment_held (env : collaborators)
    (appt : AppointmentCreate) (now : Z) (locks : gmap string Z)
    (doctor : Doctor) (patient : Patient) (expiry : Z) :
  Orchestrator.get_db (audit env) = Ok () →
  doctor_find_unique env (doctor_id appt) = Ok (Some doctor) →
  patient_find_unique env (patient_id appt) = Ok (Some patient) →
  locks !! _get_lock_key (doctor_id appt) (isoformat env (date_time appt))
    = Some expiry →
  now ≤ expiry →
  book_appointment env appt now locks
    = (HTTPException 423
         "This time slot is currently being booked by another user. Please try again in a moment.",
       locks).
Proof.
  intros Hdb Hdoc Hpat Hk Hle. unfold book_appointment.
  rewrite Hdb, Hdoc, Hpat.
  by rewrite (proj1 (acquire_lock_cases (doctor_id appt)
                       (isoformat env (date_time appt)) now locks) expiry Hk Hle).
Qed.

(** A booking that reaches the lock never leaves it behind.  While the slot
    is held and its lock has not expired the booking is refused with 423 and
    the table is left as it was; otherwise the body runs and, whatever it
    does (it returns, finds a conflict, or fails), the slot has no entry
    afterwards. *)
Theorem booking_releases_its_lock (env : collaborators)
    (appt : AppointmentCreate) (now : Z) (locks : gmap string Z)
    (doctor : Doctor) (patient : Patient) :
  Orchestrator.get_db (audit env) = Ok () →
  doctor_find_unique env (doctor_id appt) = Ok (Some doctor) →
  patient_find_unique env (patient_id appt) = Ok (Some patient) →
  let key := _get_lock_key (doctor_id appt) (isoformat env (date_time appt)) in
  (∀ expiry, locks !! key = Some expiry → now ≤ expiry →
     book_appointment env appt now locks
       = (HTTPException 423
            "This time slot is currently being booked by another user. Please try again in a moment.",
          locks)) ∧
  ((locks !! key = None ∨ ∃ expiry, locks !! key = Some expiry ∧ expiry < now) →
     book_appointment env appt now locks
       = (booking env appt doctor patient, delete key locks)
     ∧ (book_appointment env appt now locks).2 !! key = None).
Proof.
  intros Hdb Hdoc Hpat key. split.
  - intros expiry Hk Hle.
    exact (book_appointment_held env appt now locks doctor patient expiry
             Hdb Hdoc Hpat Hk Hle).
  - unfold book_appointment. rewrite Hdb, Hdoc, Hpat.
    destruct (acquire_lock_cases (doctor_id appt)
                (isoformat env (date_time appt)) now locks) as [_ Hfree].
    fold key in Hfree.
    intros Hk. rewrite (Hfree Hk). unfold _release_lock. fold key.
    rewrite delete_insert_eq, delete_delete_eq. split; [reflexivity|].
    cbn [snd]. apply lookup_delete_eq.
Qed.

Lemma booking_releases_its_lock_witness :
  let appt := {| patient_id := "p1"; doctor_id := "d1"; date_time := 7200000000;
                 appt_duration := 30; appt_notes := None |} in
  let stale := <["d1:7200000000" := 5]> (∅ : gmap string Z) in
  (book_appointment (calm []) appt 9 stale).2 !! "d1:7200000000" = None.
Proof.
  intros appt stale.
  refine (proj2 (proj2 (booking_releases_its_lock (calm []) appt 9 stale
            {| doctor_name := "Rao"; department := None |}
            {| patient_name := "Asha"; patient_phone := "98";
               patient_email := None |} eq_refl eq_refl eq_refl) _)).
  right. exists 5. split; [reflexivity | lia].
Defined.

(** The reservation made by [lock_slot] also shuts out the booking it was
    made for: a booking of the reserved slot within the 120 seconds is
    refused with 423, by whomever it is sent, and the reservation stays. *)
Theorem reserved_slot_refuses_booking (env : collaborators)
    (appt : AppointmentCreate) (now now' : Z) (locks locked : gmap string Z)
    (reply : Schemas.json) (doctor : Doctor) (patient : Patient) :
  lock_slot env (doctor_id appt) (date_time appt) now locks
    = (Returns reply, locked) →
  now' ≤ now + 120 * 1000000 →
  Orchestrator.get_db (audit env) = Ok () →
  doctor_find_unique env (doctor_id appt) = Ok (Some doctor) →
  patient_find_unique env (patient_id appt) = Ok (Some patient) →
  book_appointment env appt now' locked
    = (HTTPException 423
         "This time slot is currently being booked by another user. Please try again in a moment.",
       locked).
Proof.
  intros Hlock Hle Hdb Hdoc Hpat.
  pose (key := _get_lock_key (doctor_id appt) (isoformat env (date_time appt))).
  assert (locked !! key = Some (now + 120 * 1000000)) as Hk.
  { unfold lock_slot in Hlock.
    destruct (_acquire_lock (doctor_id appt) (isoformat env (date_time appt))
                now locks) as [acquired l'] eqn:Ha.
    destruct acquired; [|discriminate]. injection Hlock as _ <-.
    unfold _acquire_lock in Ha. fold key in Ha.
    destruct (match locks !! key with
              | Some expiry => if expiry <? now then delete key locks else locks
              | None => locks
              end !! key); [discriminate|].
    injection Ha as <-. apply lookup_insert_eq. }
  exact (book_appointment_held env appt now' locked doctor patient _
           Hdb Hdoc Hpat Hk Hle).
Qed.

Lemma reserved_slot_refuses_booking_witness :
  let appt := {| patient_id := "p1"; doctor_id := "d1"; date_time := 7200000000;
                 appt_duration := 30; appt_notes := None |} in
  let reserved := (lock_slot (calm []) "d1" 7200000000 1000 ∅).2 in
  (book_appointment (calm []) appt 2000 reserved).1
    = HTTPException 423
        "This time slot is currently being booked by another user. Please try again in a moment.".
Proof.
  intros appt reserved.
  assert (lock_slot (calm []) (doctor_id appt) (date_time appt) 1000 ∅
          = (Returns (Schemas.JDict
               [("locked", Schemas.JBool true);
                ("expires_in_seconds", Schemas.JInt 120);
                ("message", Schemas.JStr
                   "Slot locked for 120 seconds. Complete booking before it expires.")]),
             reserved)) as Hlock by (vm_compute; reflexivity).
  rewrite (reserved_slot_refuses_booking (calm []) appt 1000 2000 ∅ reserved _
             {| doctor_name := "Rao"; department := None |}
             {| patient_name := "Asha"; patient_phone := "98";
                patient_email := None |} Hlock);
    [reflexivity | lia | reflexivity | reflexivity | reflexivity].
Defined.

(** ** The conflict check *)

Lemma real_conflicts_spec (start : Z) (conflicts : list Appointment) :
  Forall well_formed conflicts →
  real_conflicts start conflicts
    = Ok (List.filter
            (fun c => start <? dateTime c + minutes (duration c)) conflicts).
Proof.
  induction 1 as [|c rest Hc _ IH]; [reflexivity|].
  cbn [real_conflicts List.filter]. rewrite Hc, IH. cbn.
  by destruct (start <? dateTime c + minutes (duration c)).
Qed.

Lemma lift_not_http {A} (c : result A) (s : Z) (d : string) :
  lift c ≠ HTTPException s d.
Proof. by destruct c. Qed.

Lemma bind_lift_not_http {A B} (c : result A) (k : A → response B)
    (s : Z) (d : string) :
  (∀ a, k a ≠ HTTPException s d) → (lift c ≫= k) ≠ HTTPException s d.
Proof. intros Hk. destruct c; [apply Hk | discriminate]. Qed.



(** ** The slot loop *)

Section SlotLoop.

Variable env : collaborators.
Variable doctor_id : string.
Variable duration day_end : Z.
Variable occupied : list (Z * Z).
Variable locks : gmap string Z.

Local Notation "'loop'" :=
  (slots_loop env doctor_id duration day_end occupied locks) (only parsing).

Lemma plus_minutes_value (dt n e : Z) :
  plus_minutes dt n = Ok e → e = dt + minutes n.
Proof.
  unfold plus_minutes, timedelta_minutes, datetime_add, minutes.
  destruct (_ && _); [|discriminate]. cbn.
  destruct (_ && _); [|discriminate]. by intros [= <-].
Qed.

Lemma plus_minutes_zero (dt : Z) :
  datetime_min ≤ dt ≤ datetime_max → plus_minutes dt 0 = Ok dt.
Proof.
  intros [Hlo Hhi]. unfold plus_minutes.
  change (timedelta_minutes 0) with (Ok 0 : result Z).
  cbn [mbind result_bind]. unfold datetime_add. rewrite Z.add_0_r.
  destruct (Z.leb_spec datetime_min dt); [|lia].
  destruct (Z.leb_spec dt datetime_max); [|lia]. reflexivity.
Qed.

(** With a duration that is not positive the loop condition never turns
    false. *)
Lemma loop_never_ends (fuel : nat) : ∀ (i : nat) (current : Z) (slots : list slot),
  duration ≤ 0 → current ≤ day_end →
  ∀ found, loop fuel i current slots ≠ Some (Ok found).
Proof.
  induction fuel as [|fuel IH]; intros i current slots Hd Hc found; [done|].
  cbn [slots_loop].
  destruct (plus_minutes current duration) as [slot_end|e] eqn:Hp; [|done].
  apply plus_minutes_value in Hp. unfold minutes in Hp.
  destruct (Z.leb_spec slot_end day_end) as [Hle|Hgt]; [|lia].
  apply IH; [exact Hd | lia].
Qed.

Lemma loop_spins_on_zero (fuel : nat) : ∀ (i : nat) (current : Z) (slots : list slot),
  duration = 0 → datetime_min ≤ current ≤ datetime_max → current ≤ day_end →
  loop fuel i current slots = None.
Proof.
  induction fuel as [|fuel IH]; intros i current slots Hd Hr Hc; [done|].
  cbn [slots_loop]. rewrite Hd, (plus_minutes_zero current Hr).
  destruct (Z.leb_spec current day_end) as [_|Hgt]; [|lia].
  rewrite <- Hd. by apply IH.
Qed.

(** With a positive duration the loop ends within the distance to the end of
    the day. *)
Lemma loop_ends (fuel : nat) : ∀ (i : nat) (current : Z) (slots : list slot),
  0 < duration → (Z.to_nat (day_end - current) < fuel)%nat →
  loop fuel i current slots ≠ None.
Proof.
  induction fuel as [|fuel IH]; intros i current slots Hd Hf; [lia|].
  cbn [slots_loop].
  destruct (plus_minutes current duration) as [slot_end|e] eqn:Hp; [|done].
  apply plus_minutes_value in Hp. unfold minutes in Hp.
  destruct (Z.leb_spec slot_end day_end) as [Hle|Hgt]; [|done].
  apply IH; [exact Hd | lia].
Qed.

Lemma is_free_spec (current slot_end : Z) :
  is_free occupied current slot_end = true
  ↔ clear_of occupied current slot_end.
Proof.
  unfold is_free, clear_of. rewrite negb_true_iff. split.
  - intros Hex s e Hin.
    destruct (Z.ltb_spec current e) as [Hlt|?]; [|by left].
    destruct (Z.ltb_spec s slot_end) as [Hlt'|?]; [|by right].
    exfalso. apply not_true_iff_false in Hex. apply Hex.
    apply existsb_exists. exists (s, e). split; [exact Hin|].
    apply andb_true_iff. split; by apply Z.ltb_lt.
  - intros Hclear. apply not_true_iff_false.
    intros ((s & e) & Hin & Hmeet)%existsb_exists.
    apply andb_true_iff in Hmeet as [H1%Z.ltb_lt H2%Z.ltb_lt].
    destruct (Hclear s e Hin); lia.
Qed.

Lemma is_locked_spec (i : nat) (current : Z) :
  is_locked env doctor_id locks i current = false
  ↔ unlocked env doctor_id locks i current.
Proof.
  unfold is_locked, unlocked, _get_lock_key.
  destruct (locks !! (doctor_id +:+ ":" +:+ isoformat env current))
    as [expiry|].
  - rewrite Z.ltb_ge. split.
    + by intros Hle e [= <-].
    + intros H. by apply H.
  - split; [intros _ e [=] | done].
Qed.

(** What one run of the loop adds to the list it was given. *)
Lemma loop_lists (day_start : Z) (fuel : nat) :
  ∀ (i : nat) (current : Z) (slots found : list slot),
  0 < duration →
  current = day_start + Z.of_nat i * minutes duration →
  loop fuel i current slots = Some (Ok found) →
  ∃ new,
    found = (slots ++ new)%list ∧
    Forall (offered env doctor_id duration day_end occupied locks day_start)
      new ∧
    ∀ k : nat, (i ≤ k)%nat →
      let at_k := day_start + Z.of_nat k * minutes duration in
      at_k + minutes duration ≤ day_end →
      (clear_of occupied at_k (at_k + minutes duration) →
       unlocked env doctor_id locks k at_k →
       In (entry env at_k (at_k + minutes duration) true) new) ∧
      (¬ clear_of occupied at_k (at_k + minutes duration) →
       In (entry env at_k (at_k + minutes duration) false) new).
Proof.
  induction fuel as [|fuel IH]; intros i current slots found Hd Hc; [done|].
  cbn [slots_loop].
  destruct (plus_minutes current duration) as [slot_end|e] eqn:Hp; [|done].
  apply plus_minutes_value in Hp.
  assert (0 < minutes duration) as Hpos by (unfold minutes; lia).
  destruct (Z.leb_spec slot_end day_end) as [Hle|Hgt].
  2:{ intros [= <-]. exists []. split; [by rewrite List.app_nil_r|].
      split; [constructor|]. intros k Hk; cbv zeta; intros Hend. exfalso.
      assert (Z.of_nat i * minutes duration ≤ Z.of_nat k * minutes duration)
        by nia.
      lia. }
  intros Hrun.
  apply IH in Hrun as (new & -> & Hall & Hlisted); [|exact Hd|lia].
  pose proof (is_free_spec current slot_end) as Hfree.
  pose proof (is_locked_spec i current) as Hlock.
  assert (∀ k : nat, (i ≤ k)%nat → k = i ∨ (S i ≤ k)%nat) as Hsplit by lia.
  destruct (is_free occupied current slot_end);
    destruct (is_locked env doctor_id locks i current); cbn [andb negb].
  - (* free, locked: left out *)
    exists new. split; [reflexivity|]. split; [exact Hall|].
    intros k Hk; cbv zeta; intros Hend. destruct (Hsplit k Hk) as [->|Hk'].
    + rewrite <- Hc, <- Hp. split.
      * intros _ Hun. apply Hlock in Hun. discriminate.
      * intros Hno. destruct Hno. by apply Hfree.
    + by apply Hlisted.
  - (* free, unlocked: listed as available *)
    exists (entry env current slot_end true :: new).
    split; [by rewrite <- List.app_assoc|]. split.
    + constructor; [|exact Hall]. exists i, current. cbn [available entry].
      rewrite <- Hp. repeat split; try done; try lia.
      * by apply Hfree.
      * by apply Hlock.
    + intros k Hk; cbv zeta; intros Hend. destruct (Hsplit k Hk) as [->|Hk'].
      * rewrite <- Hc, <- Hp. split.
        -- intros _ _. by left.
        -- intros Hno. destruct Hno. by apply Hfree.
      * destruct (Hlisted k Hk' Hend) as [H1 H2].
        split; intros; right; auto.
  - (* booked *)
    exists (entry env current slot_end false :: new).
    split; [by rewrite <- List.app_assoc|]. split.
    + constructor; [|exact Hall]. exists i, current. cbn [available entry].
      rewrite <- Hp. repeat split; try done; try lia.
      intros Hclear. apply Hfree in Hclear. discriminate.
    + intros k Hk; cbv zeta; intros Hend. destruct (Hsplit k Hk) as [->|Hk'].
      * rewrite <- Hc, <- Hp. split.
        -- intros Hclear. apply Hfree in Hclear. discriminate.
        -- intros _. by left.
      * destruct (Hlisted k Hk' Hend) as [H1 H2].
        split; intros; right; auto.
  - (* booked *)
    exists (entry env current slot_end false :: new).
    split; [by rewrite <- List.app_assoc|]. split.
    + constructor; [|exact Hall]. exists i, current. cbn [available entry].
      rewrite <- Hp. repeat split; try done; try lia.
      intros Hclear. apply Hfree in Hclear. discriminate.
    + intros k Hk; cbv zeta; intros Hend. destruct (Hsplit k Hk) as [->|Hk'].
      * rewrite <- Hc, <- Hp. split.
        -- intros Hclear. apply Hfree in Hclear. discriminate.
        -- intros _. by left.
      * destruct (Hlisted k Hk' Hend) as [H1 H2].
        split; intros; right; auto.
Qed.

End SlotLoop.

(** For a positive duration the slot loop of [get_available_slots] ends.
    Every slot of its answer lies on the grid of the day and ends by 17:00;
    a slot marked available is met by none of the occupied intervals and
    its key held no unexpired lock when it was examined, and a slot marked
    booked is met by one.  Nothing is left out but the locked slots: each
    slot of the grid that is clear and unlocked is listed as available, each
    one that an occupied interval meets as booked. *)
Theorem offered_slots_are_free (env : collaborators) (doctor_id : string)
    (duration day_start day_end : Z) (occupied : list (Z * Z))
    (locks : gmap string Z) :
  0 < duration →
  (∃ fuel outcome,
     slots_loop env doctor_id duration day_end occupied locks fuel 0 day_start
       [] = Some outcome) ∧
  ∀ fuel slots,
    slots_loop env doctor_id duration day_end occupied locks fuel 0 day_start
      [] = Some (Ok slots) →
    Forall (offered env doctor_id duration day_end occupied locks day_start)
      slots ∧
    listed env doctor_id duration day_end occupied locks day_start slots.
Proof.
  intros Hd. split.
  - exists (S (Z.to_nat (day_end - day_start))).
    destruct (slots_loop env doctor_id duration day_end occupied locks
                (S (Z.to_nat (day_end - day_start))) 0 day_start [])
      as [outcome|] eqn:Hloop; [by exists outcome|].
    exfalso. revert Hloop. apply loop_ends; [exact Hd | lia].
  - intros fuel slots Hrun.
    apply (loop_lists env doctor_id duration day_end occupied locks day_start)
      in Hrun as (new & -> & Hall & Hlisted); [|exact Hd|lia].
    split; [exact Hall|].
    intros k current Hend. apply Hlisted; [lia | exact Hend].
Qed.

Lemma offered_slots_are_free_witness :
  let slots :=
    [entry (calm []) 32400000000 39600000000 false;
     entry (calm []) 46800000000 54000000000 true;
     entry (calm []) 54000000000 61200000000 true] in
  slots_loop (calm []) "d1" 120 (at_hour 0 17) busy_morning two_locks 10 0
    (at_hour 0 9) [] = Some (Ok slots) ∧
  Forall (offered (calm []) "d1" 120 (at_hour 0 17) busy_morning two_locks
            (at_hour 0 9)) slots ∧
  listed (calm []) "d1" 120 (at_hour 0 17) busy_morning two_locks
    (at_hour 0 9) slots.
Proof.
  intros slots.
  assert (slots_loop (calm []) "d1" 120 (at_hour 0 17) busy_morning two_locks
            10 0 (at_hour 0 9) [] = Some (Ok slots)) as Hrun
    by (vm_compute; reflexivity).
  split; [exact Hrun|].
  exact (proj2 (offered_slots_are_free (calm []) "d1" 120 (at_hour 0 9)
                  (at_hour 0 17) busy_morning two_locks ltac:(lia))
           10%nat slots Hrun).
Defined.

(** For a duration of 0 minutes [get_available_slots] never answers once it
    has reached its loop, however many iterations are allowed; for a negative
    duration it never returns a list of slots (the loop can only be left by
    an exception). *)
Theorem non_positive_duration_never_answers (env : collaborators)
    (doctor_id date : string) (duration : Z) (locks : gmap string Z)
    (doctor : Doctor) (target_date : Z) (existing : list Appointment)
    (occupied : list (Z * Z)) (fuel : nat) :
  duration ≤ 0 →
  Orchestrator.get_db (audit env) = Ok () →
  doctor_find_unique env doctor_id = Ok (Some doctor) →
  strptime_date env date = Some target_date →
  datetime_min ≤ target_date ∧ at_hour target_date 24 ≤ datetime_max →
  appointment_find_many env
    (day_query doctor_id (at_hour target_date 9) (at_hour target_date 17))
    = Ok existing →
  occupied_of existing = Ok occupied →
  (∀ reply, get_available_slots env doctor_id date duration locks fuel
              ≠ Some (Returns reply)) ∧
  (duration = 0 →
   get_available_slots env doctor_id date duration locks fuel = None).
Proof.
  intros Hd Hdb Hdoc Hdate [Hlo Hhi] Hfind Hocc. unfold get_available_slots.
  rewrite Hdb, Hdoc, Hdate, Hfind. cbn [mbind result_bind]. rewrite Hocc.
  unfold at_hour in *. split.
  - intros reply.
    destruct (slots_loop _ _ _ _ _ _ _ _ _ _) as [[found|e]|] eqn:Hloop;
      try discriminate.
    exfalso. revert Hloop. apply loop_never_ends; [exact Hd | lia].
  - intros Hz. rewrite loop_spins_on_zero; [reflexivity | exact Hz | lia | lia].
Qed.

Lemma non_positive_duration_witness :
  get_available_slots (calm []) "d1" "2025-03-01" 0 ∅ 1000 = None.
Proof.
  refine (proj2 (non_positive_duration_never_answers (calm []) "d1" "2025-03-01"
            0 ∅ {| doctor_name := "Rao"; department := None |} 0 [] [] 1000
            _ eq_refl eq_refl eq_refl _ eq_refl eq_refl) eq_refl).
  - lia.
  - unfold datetime_min, datetime_max, at_hour. lia.
Defined.

End AppointmentLaws.

(* ===================================================================== *)
(** * Laws of the conversation state *)
(* ===================================================================== *)

Module ConversationLaws.
Import Conversation.

Lemma slice_from_suffix {A} (k : Z) (l : list A) :
  ∃ older, l = (older ++ slice_from k l)%list.
Proof.
  unfold slice_from. eexists. symmetry. apply take_drop.
Qed.

Lemma slice_from_last {A} (k : Z) (l : list A) (x : A) :
  k < 0 →
  ∃ before, slice_from k (l ++ [x]) = (before ++ [x])%list.
Proof.
  intros Hk. unfold slice_from.
  destruct (Z.ltb_spec k 0) as [_|?]; [|lia].
  rewrite length_app. cbn [length].
  exists (drop (Z.to_nat (Z.max (Z.of_nat (length l + 1) + k) 0)) l).
  apply drop_app_le. lia.
Qed.

(** The history handed to the model is always a tail of the stored messages.
    For a positive bound it holds the last [max_messages] of them, or all of
    them when there are fewer; for the bound 0 it is not empty but the whole
    list; and a negative bound drops that many of the oldest messages. *)
Theorem get_history_window (self : ConversationContext) (max_messages : Z) :
  (∃ older, messages self = (older ++ get_history self max_messages)%list) ∧
  (0 < max_messages →
   length (get_history self max_messages)
     = Nat.min (Z.to_nat max_messages) (length (messages self))) ∧
  (max_messages = 0 → get_history self max_messages = messages self) ∧
  (max_messages < 0 →
   get_history self max_messages
     = drop (Z.to_nat (- max_messages)) (messages self)).
Proof.
  split; [apply slice_from_suffix|].
  unfold get_history, slice_from. repeat split.
  - intros Hn. destruct (Z.ltb_spec (- max_messages) 0) as [_|?]; [|lia].
    rewrite length_drop. lia.
  - intros ->. change (- 0 <? 0) with false. cbv iota.
    rewrite Z.min_l by lia. done.
  - intros Hn. destruct (Z.ltb_spec (- max_messages) 0) as [?|_]; [lia|].
    destruct (Z.min_spec (- max_messages) (Z.of_nat (length (messages self))))
      as [[_ ->]|[Hle ->]]; [done|].
    rewrite Nat2Z.id. rewrite !drop_ge; [done | lia | lia].
Qed.

Lemma get_history_window_witness :
  let m (c : string) := {| role := "user"; content := c; timestamp := "t";
                           metadata := [] |} in
  let self := {| session_id := "s"; patient_name := None;
                 patient_phone := None; patient_id := None;
                 messages := [m "a"; m "b"; m "c"];
                 current_intent := None; pending_action := None;
                 emergency_mode := false; created_at := 0;
                 last_active := 0 |} in
  length (get_history self 2) = 2%nat ∧
  get_history self 0 = [m "a"; m "b"; m "c"] ∧
  get_history self (-1) = [m "b"; m "c"].
Proof.
  intros m self.
  destruct (get_history_window self 2) as (_ & H2 & _).
  destruct (get_history_window self 0) as (_ & _ & H0 & _).
  destruct (get_history_window self (-1)) as (_ & _ & _ & Hn).
  split; [exact (H2 ltac:(lia))|].
  split; [exact (H0 eq_refl)|]. exact (Hn ltac:(lia)).
Defined.

(** A known session is handed back with its history, its emergency mode and
    its patient id as they were; an absent or empty name or phone number
    never erases a stored one; and no other session is touched. *)
Theorem known_session_is_kept (session_id : string)
    (patient_name patient_phone : option string) (fresh : string) (t1 t2 : Z)
    (_sessions : gmap string ConversationContext)
    (known : ConversationContext) :
  session_id ≠ "" →
  _sessions !! session_id = Some known →
  ∃ ctx,
    get_or_create_session (Some session_id) patient_name patient_phone fresh
      t1 t2 _sessions
      = (ctx, <[session_id := ctx]> _sessions) ∧
    messages ctx = messages known ∧
    emergency_mode ctx = emergency_mode known ∧
    patient_id ctx = patient_id known ∧
    Conversation.patient_name ctx
      = (if truthy patient_name then patient_name
         else Conversation.patient_name known) ∧
    Conversation.patient_phone ctx
      = (if truthy patient_phone then patient_phone
         else Conversation.patient_phone known).
Proof.
  intros Hne Hk. unfold get_or_create_session.
  destruct session_id as [|c s]; [done|]. cbn [truthy].
  change (default "" (Some (String c s))) with (String c s).
  rewrite Hk. eexists. split; [reflexivity|].
  destruct (truthy patient_name), (truthy patient_phone); done.
Qed.

Lemma known_session_is_kept_witness :
  let known := {| session_id := "s1"; patient_name := Some "Asha";
                  patient_phone := None; patient_id := None;
                  messages := [{| role := "user"; content := "hello";
                                  timestamp := "t"; metadata := [] |}];
                  current_intent := None; pending_action := None;
                  emergency_mode := true; created_at := 0;
                  last_active := 0 |} in
  ∃ ctx,
    (get_or_create_session (Some "s1") (Some "") None "u" 1 2
       (<["s1" := known]> ∅)).1 = ctx ∧
    Conversation.patient_name ctx = Some "Asha" ∧
    length (messages ctx) = 1%nat ∧ emergency_mode ctx = true.
Proof.
  intros known.
  destruct (known_session_is_kept "s1" (Some "") None "u" 1 2
              (<["s1" := known]> ∅) known ltac:(discriminate)
              (lookup_insert_eq _ _ _))
    as (ctx & Hg & Hm & He & _ & Hn & _).
  exists ctx. rewrite Hg. split; [reflexivity|].
  rewrite Hn, Hm, He. repeat split.
Defined.

(** An empty session id is never looked up: the call always starts a fresh
    context under the key [""], replacing whatever was stored there. *)
Theorem empty_session_id_starts_afresh
    (patient_name patient_phone : option string) (fresh : string) (t1 t2 : Z)
    (_sessions : gmap string ConversationContext) :
  ∃ ctx,
    get_or_create_session (Some "") patient_name patient_phone fresh t1 t2
      _sessions
      = (ctx, <["" := ctx]> _sessions) ∧
    messages ctx = [] ∧ emergency_mode ctx = false ∧
    Conversation.session_id ctx = "".
Proof. eexists. split; [reflexivity|]. done. Qed.

End ConversationLaws.

(* ===================================================================== *)
(** * Laws of the response generator *)
(* ===================================================================== *)

Module ResponseLaws.
Import Str StrFacts Schemas Triage Guardrails Conversation ResponseGenerator.

Lemma contains_app_l (sub l r : string) :
  contains sub l = true → contains sub (l +:+ r) = true.
Proof.
  intros (a & b & ->)%contains_spec. apply contains_spec.
  exists a, (b +:+ r). by rewrite !app_assoc.
Qed.

Lemma endswith_app_r (p l r : string) :
  endswith p r = true → endswith p (l +:+ r) = true.
Proof.
  intros (a & ->)%endswith_spec. apply endswith_spec.
  exists (l +:+ a). by rewrite app_assoc.
Qed.

Lemma add_tips_cons (a t : string) (tips : list string) :
  add_tips a (t :: tips) = add_tips (a +:+ "- " +:+ t +:+ String nl "") tips.
Proof. reflexivity. Qed.

Lemma add_tips_app (a b : string) (tips : list string) :
  add_tips (a +:+ b) tips = a +:+ add_tips b tips.
Proof.
  revert b. induction tips as [|t tips IH]; intros b; [done|].
  by rewrite !add_tips_cons, app_assoc, IH.
Qed.

Lemma add_tips_acc (a : string) (tips : list string) :
  add_tips a tips = a +:+ add_tips "" tips.
Proof. by rewrite <- (app_nil_r a) at 1; rewrite add_tips_app. Qed.

Lemma add_tips_lists (a tip : string) (tips : list string) :
  In tip tips →
  contains ("- " +:+ tip +:+ String nl "") (add_tips a tips) = true.
Proof.
  revert a. induction tips as [|t tips IH]; intros a; [done|].
  rewrite add_tips_cons. intros [->|Hin].
  - rewrite add_tips_acc. apply contains_app_l.
    apply contains_spec. exists a, "". by rewrite app_nil_r.
  - apply IH, Hin.
Qed.

Lemma emergency_response_frame (classification : AIClassification)
    (message : string) :
  contains "**Call 108 (Emergency Services) NOW**"
    (_emergency_response classification message) = true ∧
  endswith "*Our emergency staff has been alerted and are standing by.*"
    (_emergency_response classification message) = true ∧
  (∀ tip, In tip (firstn 5 (first_aid_tips (assess message))) →
     contains ("- " +:+ tip +:+ String nl "")
       (_emergency_response classification message) = true).
Proof.
  unfold _emergency_response. cbv zeta.
  generalize (assess message). intros result.
  set (dept := if negb _ then _ else _).
  split; [|split].
  - apply contains_app_l.
    assert (∀ (b : bool) (x : string),
              contains "**Call 108 (Emergency Services) NOW**" x = true →
              ∀ y, contains "**Call 108 (Emergency Services) NOW**"
                     (if b then x +:+ y else x) = true) as Hif.
    { intros [] x Hx y; [by apply contains_app_l | exact Hx]. }
    destruct (first_aid_tips result) as [|t tips].
    + apply contains_app_l, Hif, contains_app_l. reflexivity.
    + apply contains_app_l. rewrite add_tips_acc. apply contains_app_l.
      apply contains_app_l, Hif, contains_app_l. reflexivity.
  - apply endswith_app_r. reflexivity.
  - intros tip Hin. apply contains_app_l.
    destruct (first_aid_tips result) as [|t tips]; [destruct Hin|].
    apply contains_app_l. by apply add_tips_lists.
Qed.

(** The reply to an emergency is fixed text: it does not depend on the
    text-generation service, on the retrieved knowledge or on the
    conversation; it tells the patient to call 108, lists the first five
    first-aid tips of the triage engine for the message, and ends with the
    notice that the emergency staff has been alerted. *)
Theorem emergency_reply_is_fixed (env env' : collaborators)
    (message : string) (classification : AIClassification)
    (context context' : ConversationContext) :
  intent classification = EMERGENCY →
  generate_response env message classification context
    = generate_response env' message classification context' ∧
  contains "**Call 108 (Emergency Services) NOW**"
    (generate_response env message classification context) = true ∧
  endswith "*Our emergency staff has been alerted and are standing by.*"
    (generate_response env message classification context) = true ∧
  (∀ tip, In tip (firstn 5 (first_aid_tips (assess message))) →
     contains ("- " +:+ tip +:+ String nl "")
       (generate_response env message classification context) = true).
Proof.
  intros Hi. unfold generate_response. rewrite Hi.
  split; [reflexivity|]. apply emergency_response_frame.
Qed.

Lemma emergency_reply_witness :
  generate_response (parrot "Stay calm, it is nothing.") "he collapsed"
    (plain EMERGENCY) (blank "s")
  = generate_response silent "he collapsed" (plain EMERGENCY) (blank "s") ∧
  contains "**Call 108 (Emergency Services) NOW**"
    (generate_response (parrot "Stay calm, it is nothing.") "he collapsed"
       (plain EMERGENCY) (blank "s")) = true.
Proof.
  destruct (emergency_reply_is_fixed (parrot "Stay calm, it is nothing.")
              silent "he collapsed" (plain EMERGENCY) (blank "s") (blank "s")
              eq_refl) as (Hsame & Hcall & _).
  split; [exact Hsame | exact Hcall].
Defined.

(** For a symptom report the reply is built from the triage assessment
    alone, whatever the text-generation service does: it names the level and
    the recommended department, ends with the cannot-diagnose notice, and
    for the CRITICAL level tells the patient to call 108. *)
Theorem symptom_reply_follows_triage (env env' : collaborators)
    (message : string) (classification : AIClassification)
    (context context' : ConversationContext) :
  intent classification = SYMPTOM_REPORT →
  generate_response env message classification context
    = generate_response env' message classification context' ∧
  contains ("**Severity:** " +:+ severity_level (assess message))
    (generate_response env message classification context) = true ∧
  contains ("**Recommended Department:** "
            +:+ recommended_department (assess message))
    (generate_response env message classification context) = true ∧
  endswith
    "*I cannot diagnose conditions. Please consult a healthcare professional.*"
    (generate_response env message classification context) = true ∧
  (severity_level (assess message) = "CRITICAL" →
   contains "**Call 108 (Emergency Services) NOW.**"
     (generate_response env message classification context) = true).
Proof.
  intros Hi. unfold generate_response. rewrite Hi.
  split; [reflexivity|].
  unfold _triage_response, extend. cbv zeta.
  generalize (assess message). intros result.
  set (banner := if String.eqb (severity_level result) "CRITICAL" then _ else _).
  set (sev := "**Severity:** " +:+ severity_level result +:+ _).
  set (dep := "**Recommended Department:** " +:+ recommended_department result
              +:+ _).
  set (closing := _ +:+ recommended_department result +:+ _).
  assert (∃ mid,
            join "" (match first_aid_tips result with
                     | [] => (banner ++ [sev; dep])%list
                     | _ :: _ => _
                     end ++ [closing])%list
            = join "" banner +:+ sev +:+ dep +:+ mid +:+ closing) as [mid ->].
  { destruct (first_aid_tips result) as [|t tips].
    - exists "". rewrite !OrchestratorLaws.join_empty_app. cbn [join].
      by rewrite !app_assoc.
    - match goal with |- ∃ mid, ?L = _ => remember L as whole eqn:Hw end.
      rewrite !OrchestratorLaws.join_empty_app in Hw. cbn [join] in Hw.
      rewrite !app_assoc in Hw.
      match type of Hw with
      | _ = _ +:+ _ +:+ _ +:+ _ +:+ ?h +:+ ?j +:+ ?n +:+ closing =>
          exists (h +:+ j +:+ n)
      end.
      rewrite Hw, !app_assoc. reflexivity. }
  repeat split.
  - apply contains_spec. exists (join "" banner). subst sev.
    eexists. rewrite !app_assoc. reflexivity.
  - apply contains_spec. exists (join "" banner +:+ sev). subst dep.
    eexists. rewrite !app_assoc. reflexivity.
  - do 4 apply endswith_app_r. subst closing.
    do 2 apply endswith_app_r. reflexivity.
  - intros Hl. subst banner. rewrite Hl.
    change (String.eqb "CRITICAL" "CRITICAL") with true.
    apply contains_app_l. vm_compute. reflexivity.
Qed.

Lemma symptom_reply_follows_triage_witness :
  contains "**Call 108 (Emergency Services) NOW.**"
    (generate_response (parrot "You are fine.") "I was stabbed"
       (plain SYMPTOM_REPORT) (blank "s")) = true.
Proof.
  refine (proj2 (proj2 (proj2 (proj2
    (symptom_reply_follows_triage (parrot "You are fine.") silent
       "I was stabbed" (plain SYMPTOM_REPORT) (blank "s") (blank "s")
       eq_refl)))) _).
  vm_compute. reflexivity.
Defined.

(** For every other intent the reply is the model's text after the
    guardrails, or the template of the intent when the service is absent or
    fails; no text of the model bypasses the guardrails.  When the context
    already ends with the user's message, as it does in the chat handlers,
    the request carries that message twice at its end. *)
Theorem model_reply_is_guarded (env : collaborators) (message : string)
    (classification : AIClassification) (context : ConversationContext)
    (stamp : string) (now : Z) :
  intent classification ≠ EMERGENCY →
  intent classification ≠ SYMPTOM_REPORT →
  ∃ earlier,
    generate_response env message classification
      (add_message context "user" message None stamp now)
    = match llm_chat env
              (earlier ++ [("user", message); ("user", message)])%list
              TEMPERATURE MAX_TOKENS with
      | Ok (Some ai_text) => (check_guardrails ai_text).1
      | _ => _fallback_response classification
      end.
Proof.
  intros He Hs.
  destruct (ConversationLaws.slice_from_last (Z.opp 8) (messages context)
              {| role := "user"; content := message; timestamp := stamp;
                 metadata := [] |} ltac:(lia)) as [before Hb].
  set (system := system_prompt (_get_rag_context env message classification)).
  exists (("system", system)
          :: map (fun msg => (role msg, content msg)) before).
  assert (llm_messages (_get_rag_context env message classification) message
            (add_message context "user" message None stamp now)
          = ((("system", system)
              :: map (fun msg => (role msg, content msg)) before)
             ++ [("user", message); ("user", message)])%list) as Hreq.
  { unfold llm_messages, to_llm_messages, get_history. cbv zeta.
    cbn [messages add_message]. rewrite Hb, map_app. cbn [map role content].
    fold system. cbn [app]. f_equal. by rewrite <- List.app_assoc. }
  unfold generate_response. cbv zeta. rewrite Hreq.
  destruct (intent classification); try done;
    destruct (llm_chat env _ TEMPERATURE MAX_TOKENS) as [[t|]|e]; reflexivity.
Qed.

Lemma model_reply_is_guarded_witness :
  ∃ earlier,
    generate_response (parrot "You have diabetes.") "what is wrong with me"
      (plain GENERAL_QUERY)
      (add_message (blank "s") "user" "what is wrong with me" None "t" 1)
    = match llm_chat (parrot "You have diabetes.")
              (earlier ++ [("user", "what is wrong with me");
                           ("user", "what is wrong with me")])%list
              TEMPERATURE MAX_TOKENS with
      | Ok (Some ai_text) => (check_guardrails ai_text).1
      | _ => _fallback_response (plain GENERAL_QUERY)
      end.
Proof.
  apply (model_reply_is_guarded (parrot "You have diabetes.")
           "what is wrong with me" (plain GENERAL_QUERY) (blank "s") "t" 1);
    discriminate.
Defined.

End ResponseLaws.

(* ===================================================================== *)
(** * Laws of the chat endpoint *)
(* ===================================================================== *)

Module ChatLaws.
Import Str Schemas Conversation Chat.

Lemma broadcast_spec (env : collaborators) (message : json)
    (sockets : list nat) :
  broadcast env message sockets
    = (List.filter (fun ws => negb (accepts env message ws)) sockets,
       map (fun ws => (ws, message))
         (List.filter (accepts env message) sockets)).
Proof.
  induction sockets as [|ws rest IH]; [reflexivity|].
  cbn [broadcast List.filter]. rewrite IH. unfold accepts.
  by destruct (send_json env ws message).
Qed.

Lemma broadcast_to_admins_spec (env : collaborators) (message : json)
    (w : world) :
  broadcast_to_admins env message w
    = {| _sessions := _sessions w;
         admin_connections :=
           List.filter (accepts env message) (admin_connections w);
         delivered :=
           (delivered w ++
            map (fun ws => (ws, message))
              (List.filter (accepts env message) (admin_connections w)))%list |}.
Proof.
  unfold broadcast_to_admins. rewrite broadcast_spec. f_equal.
  apply List.filter_ext_in. intros ws Hin.
  destruct (accepts env message ws) eqn:Ha; cbn [negb].
  - apply negb_true_iff, not_true_iff_false. intros Hex.
    apply existsb_exists in Hex as (x & Hx & Heq).
    apply Nat.eqb_eq in Heq. subst x.
    apply List.filter_In in Hx as [_ Hx]. by rewrite Ha in Hx.
  - apply negb_false_iff, existsb_exists. exists ws. split.
    + apply List.filter_In. by rewrite Ha.
    + apply Nat.eqb_refl.
Qed.

Lemma handle_emergency_sessions (env : collaborators)
    (session_id message : string) (classification : AIClassification)
    (context : ConversationContext) (w : world) :
  _sessions (_handle_emergency env session_id message classification context w)
    = _sessions w.
Proof.
  unfold _handle_emergency.
  destruct (create_emergency_case _ _ _ _ _); [|reflexivity].
  rewrite broadcast_to_admins_spec.
  by destruct (Orchestrator.log_action _ _ _ _).
Qed.

Lemma save_conversation_total (env : collaborators) (session_id : string)
    (context : ConversationContext) (message ai_response : string)
    (classification : AIClassification) :
  _save_conversation env session_id context message ai_response classification
    = Ok ().
Proof.
  unfold _save_conversation, try_except.
  destruct (_ ≫= _) as [[]|]; reflexivity.
Qed.

(** The admin dashboards are alerted only once the emergency case is stored:
    when the storage handle or the write fails, [_handle_emergency] changes
    nothing and sends nothing; when the write succeeds, the alert goes to
    every admin socket, those that do not take it are dropped, and the
    sessions are left alone.  The severity written with the case is a value
    of the severity enumeration exactly when the urgency is not non-urgent. *)
Theorem alert_follows_stored_case (env : collaborators)
    (session_id message : string) (classification : AIClassification)
    (context : ConversationContext) (w : world) :
  (∀ e, create_emergency_case env session_id message classification context
          = Raise e →
     _handle_emergency env session_id message classification context w = w) ∧
  (∀ case_id,
     create_emergency_case env session_id message classification context
       = Ok case_id →
     let notice :=
       alert env case_id session_id message classification context in
     _handle_emergency env session_id message classification context w
       = {| _sessions := _sessions w;
            admin_connections :=
              List.filter (accepts env notice) (admin_connections w);
            delivered :=
              (delivered w ++
               map (fun ws => (ws, notice))
                 (List.filter (accepts env notice) (admin_connections w)))%list
         |}) ∧
  (In (severity (emergency_case session_id message classification context))
      EmergencySeverity_values
   ↔ urgency classification ≠ NON_URGENT).
Proof.
  split; [|split].
  - intros e He. unfold _handle_emergency. by rewrite He.
  - intros case_id Hc notice. unfold _handle_emergency. rewrite Hc.
    fold notice. rewrite broadcast_to_admins_spec.
    by destruct (Orchestrator.log_action _ _ _ _).
  - unfold emergency_case, case_severity. cbn [severity].
    destruct (urgency classification); cbn; split; intros H;
      try done; intuition discriminate.
Qed.

Lemma alert_follows_stored_case_witness :
  let c := {| intent := EMERGENCY; urgency := CRITICAL;
              department := None; Schemas.needs_ambulance := true;
              confidence := 1%float; entities := None |} in
  _handle_emergency offline "s1" "chest pain" c (blank "s1") no_sessions
    = no_sessions.
Proof.
  intros c.
  exact (proj1 (alert_follows_stored_case offline "s1" "chest pain" c
                  (blank "s1") no_sessions)
           (PyException "PrismaError") eq_refl).
Defined.

(** A message that contains a trigger phrase is answered as an emergency
    whatever the model, the storage and the sockets do: the endpoint
    returns, the reply is the emergency text with the call to 108, the
    intent is emergency with critical urgency, the emergency suggestions are
    offered, and the session is left in emergency mode. *)
Theorem trigger_message_is_answered_as_emergency (env : collaborators)
    (chat : ChatMessage) (w : world) (trigger specialty : string) :
  In (trigger, specialty) Classifier.emergency_triggers →
  contains trigger (lower (chat_message chat)) = true →
  ∃ reply w',
    send_message env chat w = (Ok reply, w') ∧
    is_emergency reply = true ∧
    response_intent reply = Some EMERGENCY ∧
    response_urgency reply = Some CRITICAL ∧
    contains "**Call 108 (Emergency Services) NOW**" (message reply) = true ∧
    suggestions reply
      = Some ["Share my location"; "Call 108"; "Contact family"] ∧
    ∃ context,
      _sessions w' !! response_session_id reply = Some context ∧
      emergency_mode context = true.
Proof.
  intros Hin Hc.
  destruct (ClassifierSpec.first_trigger_found _ _ _ Hin Hc) as (t & d & Hf).
  unfold send_message. cbv zeta.
  destruct (get_or_create_session _ _ _ _ _ _ _) as [context sessions].
  unfold Classifier.classify_intent, Classifier._check_emergency_rules.
  rewrite Hf. cbv beta iota. cbn [intent urgency].
  rewrite save_conversation_total.
  eexists _, _. split; [reflexivity|].
  cbn [is_emergency response_intent response_urgency message suggestions
       response_session_id].
  repeat split.
  - apply ResponseLaws.emergency_response_frame.
  - eexists. split.
    + rewrite handle_emergency_sessions. cbn [_sessions store].
      apply lookup_insert_eq.
    + reflexivity.
Qed.

Lemma trigger_message_witness :
  ∃ reply w',
    send_message offline
      {| chat_message := "My father has CHEST PAIN"; chat_session_id := None;
         chat_patient_name := None; chat_patient_phone := None |}
      no_sessions = (Ok reply, w') ∧
    is_emergency reply = true ∧
    response_intent reply = Some EMERGENCY ∧
    response_urgency reply = Some CRITICAL ∧
    contains "**Call 108 (Emergency Services) NOW**" (message reply) = true ∧
    suggestions reply
      = Some ["Share my location"; "Call 108"; "Contact family"] ∧
    ∃ context,
      _sessions w' !! response_session_id reply = Some context ∧
      emergency_mode context = true.
Proof.
  apply (trigger_message_is_answered_as_emergency offline _ no_sessions
           "chest pain" "cardiology").
  - left. reflexivity.
  - vm_compute. reflexivity.
Defined.

End ChatLaws.

(* ===================================================================== *)
(** * Laws of the rate limiter *)
(* ===================================================================== *)

Module RateLimiterLaws.
Import Appointments RateLimiter.

Lemma filter_keeps_fewer {A} (f : A → bool) (l : list A) :
  (length (List.filter f l) ≤ length l)%nat.
Proof.
  induction l as [|a l IH]; [done|]. cbn [List.filter].
  destruct (f a); cbn [length]; lia.
Qed.

Lemma stamps_within (bound : Z) (ip : string)
    (_requests : gmap string (list float)) :
  0 ≤ bound → within bound _requests →
  Z.of_nat (length (stamps ip _requests)) ≤ bound.
Proof.
  intros Hb Hw. unfold stamps.
  destruct (_requests !! ip) as [l|] eqn:Hl; cbn; [by eapply Hw | lia].
Qed.

Lemma dispatch_keeps_within {R} (self : RateLimitMiddleware)
    (call_next : Request → result R) (request : Request) (now : float)
    (_requests : gmap string (list float)) :
  within (Z.max 0 (max_requests self)) _requests →
  within (Z.max 0 (max_requests self))
    (dispatch self call_next request now _requests).2
  ∧ remaining_ok self (dispatch self call_next request now _requests).1.
Proof.
  intros Hw. unfold dispatch.
  destruct (exempt (path request)).
  { split; [exact Hw|]. cbn [fst]. by destruct (call_next request). }
  set (ip := _get_client_ip request).
  set (cleaned := _clean_old_entries self ip now _requests).
  assert (within (Z.max 0 (max_requests self)) cleaned) as Hc.
  { intros k l. unfold cleaned, _clean_old_entries.
    destruct (decide (ip = k)) as [<-|Hne].
    - rewrite lookup_insert_eq. intros [= <-].
      pose proof (filter_keeps_fewer
                    (fun t => (now - window_seconds self <? t)%float)
                    (stamps ip _requests)).
      pose proof (stamps_within (Z.max 0 (max_requests self)) ip _requests
                    ltac:(lia) Hw). lia.
    - rewrite lookup_insert_ne by done. apply Hw. }
  destruct (Z.leb_spec (max_requests self)
              (Z.of_nat (length (stamps ip cleaned)))) as [Hfull|Hroom].
  { split; [exact Hc | exact I]. }
  split.
  - intros k l. cbn [snd].
    destruct (decide (ip = k)) as [<-|Hne].
    + rewrite lookup_insert_eq. intros [= <-].
      rewrite length_app. cbn [length]. lia.
    + rewrite lookup_insert_ne by done. apply Hc.
  - cbn [fst].
    assert (stamps ip (<[ip := (stamps ip cleaned ++ [now])%list]> cleaned)
            = (stamps ip cleaned ++ [now])%list) as ->
      by (unfold stamps at 1; by rewrite lookup_insert_eq).
    rewrite length_app. cbn [length].
    destruct (call_next request); cbn; [|exact I].
    exists (max_requests self - Z.of_nat (length (stamps ip cleaned) + 1)).
    split; [lia | reflexivity].
Qed.

(** The limiter never stores more than [max_requests] stamps for an address:
    starting from a table within the limit, after any run of requests, with
    any clock readings, every list is within the limit; and every response
    that carries the remaining-quota header states a number from 0 up to
    [max_requests - 1]. *)
Theorem limiter_stays_within_limit {R} (self : RateLimitMiddleware)
    (call_next : Request → result R) (arrivals : list (Request * float)) :
  ∀ _requests : gmap string (list float),
  within (Z.max 0 (max_requests self)) _requests →
  within (Z.max 0 (max_requests self))
    (serve self call_next arrivals _requests).2
  ∧ Forall (remaining_ok self) (serve self call_next arrivals _requests).1.
Proof.
  induction arrivals as [|[request now] rest IH]; intros table Hw.
  { split; [exact Hw | constructor]. }
  cbn [serve].
  destruct (dispatch_keeps_within self call_next request now table Hw)
    as [Hw1 Hr1].
  destruct (dispatch self call_next request now table) as [r table1].
  destruct (IH table1 Hw1) as [Hw2 Hrs].
  destruct (serve self call_next rest table1) as [rs table2].
  split; [exact Hw2 | by constructor].
Qed.

Lemma limiter_stays_within_limit_witness :
  let request := {| path := "/api/chat/message"; x_forwarded_for := None;
                    client_host := Some "10.0.0.7" |} in
  within (Z.max 0 2)
    (serve (__init__ (Some 2)) (fun _ => Ok tt)
       [(request, 1%float); (request, 2%float); (request, 3%float)] ∅).2.
Proof.
  intros request.
  refine (proj1 (limiter_stays_within_limit (__init__ (Some 2))
                   (fun _ => Ok tt) _ ∅ _)).
  intros ip l. rewrite lookup_empty. discriminate.
Defined.

End RateLimiterLaws.

